(** * Social-media scorecards: the reconciliation and aggregation core

    A shallow embedding of [src/app.py] and [src/generate_scorecards.py]
    (name normalisation, tracker ingestion, name reconciliation, week
    selection, per-day aggregation, report ordering) and the properties the
    specification states about them.

    Python values are embedded as follows.
    - A [str] is the list of its code points ([list N]); [ord c] is [c].
    - A naive [datetime] is its proleptic Gregorian ordinal with the time of
      day; the calendar fields are read back with CPython's [_ord2ymd], and
      arithmetic that leaves the years 1 to 9999 raises ([None]).
    - The [float] arithmetic of the score is IEEE 754 binary64
      ([spec_float] at precision 53); a similarity ratio is the exact
      rational it rounds (see [Difflib]).
    - A [dict] whose iteration order is observed is an association list in
      insertion order; a dict only read by key is a [gmap].
    - A [set] that is iterated is the list of its elements in iteration
      order (Python leaves that order unspecified).
    - What the program reads besides its arguments is an argument here:
      the clock of [determine_week], the parser behind [parse_date]. *)

From Stdlib Require Import ZArith NArith QArith Lqa List String Ascii Bool Lia.
From Stdlib Require Import Permutation Sorted.
From Stdlib Require Import Floats.SpecFloat.
From stdpp Require Import gmap list gmultiset.
Import ListNotations.

Abbreviation pystr := (list N).

(** ** Python's [str] methods used by the program *)
Module PyStr.

(** An ASCII literal of the source as a list of code points. *)
Definition lit (s : string) : pystr :=
  List.map N_of_ascii (list_ascii_of_string s).

(** The code points of a literal of this file that holds text outside
    ASCII: the characters of the literal are the bytes of its UTF-8
    encoding. *)
Fixpoint utf8 (bs : list N) : pystr :=
  match bs with
  | [] => []
  | b :: rest =>
      if (b <? 128)%N then b :: utf8 rest
      else if (b <? 224)%N then
        match rest with
        | b2 :: rest2 => ((b - 192) * 64 + (b2 - 128))%N :: utf8 rest2
        | _ => []
        end
      else if (b <? 240)%N then
        match rest with
        | b2 :: b3 :: rest3 =>
            ((b - 224) * 4096 + (b2 - 128) * 64 + (b3 - 128))%N :: utf8 rest3
        | _ => []
        end
      else
        match rest with
        | b2 :: b3 :: b4 :: rest4 =>
            ((b - 240) * 262144 + (b2 - 128) * 4096 + (b3 - 128) * 64
             + (b4 - 128))%N :: utf8 rest4
        | _ => []
        end
  end.

Definition text (s : string) : pystr := utf8 (lit s).

(** [str.isspace] on one code point: CPython's [_PyUnicode_IsWhitespace]. *)
Definition isspace (c : N) : bool :=
  ((9 <=? c) && (c <=? 13) || (28 <=? c) && (c <=? 32)
   || (c =? 133) || (c =? 160) || (c =? 5760)
   || (8192 <=? c) && (c <=? 8202)
   || (c =? 8232) || (c =? 8233) || (c =? 8239) || (c =? 8287)
   || (c =? 12288))%N.

(** [s.split()]: the maximal runs of non-whitespace, in order. *)
Fixpoint split (s : pystr) : list pystr :=
  match s with
  | [] => []
  | c :: rest =>
      if isspace c then split rest
      else match rest with
           | [] => [[c]]
           | d :: _ =>
               if isspace d then [c] :: split rest
               else match split rest with
                    | w :: ws => (c :: w) :: ws
                    | [] => [[c]]
                    end
           end
  end.

(** [sep.join(parts)]. *)
Fixpoint join (sep : pystr) (parts : list pystr) : pystr :=
  match parts with
  | [] => []
  | [w] => w
  | w :: ws => w ++ sep ++ join sep ws
  end.

Fixpoint lstrip (s : pystr) : pystr :=
  match s with
  | c :: rest => if isspace c then lstrip rest else s
  | [] => []
  end.

(** [s.strip()]. *)
Definition strip (s : pystr) : pystr := rev (lstrip (rev (lstrip s))).

(** [s.replace(old, new)] for a one-character [old]. *)
Definition replace (old : N) (new : pystr) (s : pystr) : pystr :=
  flat_map (fun c => if (c =? old)%N then new else [c]) s.

Definition lower_char (c : N) : N :=
  if ((65 <=? c) && (c <=? 90))%N then (c + 32)%N else c.

Definition upper_char (c : N) : N :=
  if ((97 <=? c) && (c <=? 122))%N then (c - 32)%N else c.

(** [s.lower()] and [s.upper()]. The program calls them either on ASCII
    text (inside [normalize], after the non-ASCII code points are dropped)
    or to compare the result with an ASCII literal (["sum"], ["TRUE"],
    ["FALSE"], ["NA"], the excluded statuses). The ASCII case mapping
    below is exact for the first use. For the second it decides the same
    comparisons as Unicode's mapping: the only code points outside ASCII
    whose image is ASCII are U+212A (to [k]) under [lower] and U+0131,
    U+017F, U+00DF, U+FB00..U+FB06 (to [I], [S], [SS], [FF], [FI], [FL],
    [FFI], [FFL], [ST]) under [upper]; of the literals only ["FALSE"]
    contains one of those letters, and a cell that is not recognised
    reads as [False] as well. *)
Definition lower (s : pystr) : pystr := List.map lower_char s.
Definition upper (s : pystr) : pystr := List.map upper_char s.

Definition eqb (a b : pystr) : bool := bool_decide (a = b).

(** [needle in hay] for strings: substring search. *)
Fixpoint prefixb (p s : pystr) : bool :=
  match p, s with
  | [], _ => true
  | _ :: _, [] => false
  | a :: p', b :: s' => (a =? b)%N && prefixb p' s'
  end.

Fixpoint contains (hay needle : pystr) : bool :=
  prefixb needle hay ||
  match hay with
  | [] => false
  | _ :: hay' => contains hay' needle
  end.

(** [a < b] on strings: lexicographic on code points. *)
Fixpoint ltb (a b : pystr) : bool :=
  match a, b with
  | _, [] => false
  | [], _ :: _ => true
  | x :: a', y :: b' => (x <? y)%N || (x =? y)%N && ltb a' b'
  end.

Definition leb (a b : pystr) : bool := negb (ltb b a).

End PyStr.

(** ** Python's [float] and [int()] where the program uses them *)
Module PyFloat.

Definition prec : Z := 53.
Definition emax : Z := 1024.

(** [float(n)] for an integer [n]. *)
Definition of_int (n : Z) : spec_float := binary_normalize prec emax n 0 false.

Definition div (x y : spec_float) : spec_float := SFdiv prec emax x y.
Definition mul (x y : spec_float) : spec_float := SFmul prec emax x y.

(** [int(x)]: truncation towards zero; it raises on infinities and NaN. *)
Definition to_int (x : spec_float) : option Z :=
  match x with
  | S754_zero _ => Some 0%Z
  | S754_finite s m e =>
      let a := if (0 <=? e)%Z then (Z.pos m * 2 ^ e)%Z
               else (Z.pos m / 2 ^ (- e))%Z in
      Some (if s then (- a)%Z else a)
  | _ => None
  end.

End PyFloat.

(** ** Naive [datetime] values *)
Module DateTime.

Record datetime := mk_datetime {
  ordinal : Z;       (* [toordinal()]: 1 is 0001-01-01 *)
  hour : N;
  minute : N;
  second : N;
  microsecond : N
}.

Definition MAXORDINAL : Z := 3652059.   (* 9999-12-31 *)

#[export] Instance datetime_eq_dec : EqDecision datetime.
Proof. solve_decision. Defined.

(** CPython's calendar helpers ([Lib/_pydatetime.py]). *)
Definition is_leap (year : Z) : bool :=
  ((year mod 4 =? 0) && (negb (year mod 100 =? 0) || (year mod 400 =? 0)))%Z.

Definition days_before_year (year : Z) : Z :=
  let y := (year - 1)%Z in (y * 365 + y / 4 - y / 100 + y / 400)%Z.

Definition DAYS_IN_MONTH : list Z :=
  [-1; 31; 28; 31; 30; 31; 30; 31; 31; 30; 31; 30; 31]%Z.

Definition DAYS_BEFORE_MONTH : list Z :=
  [-1; 0; 31; 59; 90; 120; 151; 181; 212; 243; 273; 304; 334]%Z.

Definition days_before_month (year month : Z) : Z :=
  (nth (Z.to_nat month) DAYS_BEFORE_MONTH 0
   + (if (2 <? month) && is_leap year then 1 else 0))%Z.

Definition ymd2ord (year month day : Z) : Z :=
  (days_before_year year + days_before_month year month + day)%Z.

Definition ord2ymd (n : Z) : Z * Z * Z :=
  let n := (n - 1)%Z in
  let n400 := (n / 146097)%Z in
  let n := (n mod 146097)%Z in
  let year := (n400 * 400 + 1)%Z in
  let n100 := (n / 36524)%Z in
  let n := (n mod 36524)%Z in
  let n4 := (n / 1461)%Z in
  let n := (n mod 1461)%Z in
  let n1 := (n / 365)%Z in
  let n := (n mod 365)%Z in
  let year := (year + n100 * 100 + n4 * 4 + n1)%Z in
  if ((n1 =? 4) || (n100 =? 4))%Z then ((year - 1)%Z, 12%Z, 31%Z)
  else
    let leapyear := ((n1 =? 3) && (negb (n4 =? 24) || (n100 =? 3)))%Z in
    let month := Z.shiftr (n + 50) 5 in
    let preceding :=
      (nth (Z.to_nat month) DAYS_BEFORE_MONTH 0
       + (if (2 <? month) && leapyear then 1 else 0))%Z in
    if (n <? preceding)%Z then
      let month := (month - 1)%Z in
      let preceding :=
        (preceding - (nth (Z.to_nat month) DAYS_IN_MONTH 0
                      + (if (month =? 2) && leapyear then 1 else 0)))%Z in
      (year, month, (n - preceding + 1)%Z)
    else (year, month, (n - preceding + 1)%Z).

Definition year (dt : datetime) : Z := fst (fst (ord2ymd (ordinal dt))).
Definition month (dt : datetime) : Z := snd (fst (ord2ymd (ordinal dt))).
Definition day (dt : datetime) : Z := snd (ord2ymd (ordinal dt)).

(** [datetime(year, month, day, hour, minute)] for a valid date. *)
Definition make (y m d : Z) (hh mm : N) : datetime :=
  mk_datetime (ymd2ord y m d) hh mm 0 0.

(** [dt.weekday()]: Monday is 0. *)
Definition weekday (dt : datetime) : Z := ((ordinal dt + 6) mod 7)%Z.

(** [dt + timedelta(days=d)]; [None] is CPython's [OverflowError]. *)
Definition add_days (dt : datetime) (d : Z) : option datetime :=
  let o := (ordinal dt + d)%Z in
  if ((0 <? o) && (o <=? MAXORDINAL))%Z
  then Some (mk_datetime o (hour dt) (minute dt) (second dt) (microsecond dt))
  else None.

(** [dt.replace(hour=0, minute=0, second=0, microsecond=0)]. *)
Definition at_midnight (dt : datetime) : datetime :=
  mk_datetime (ordinal dt) 0 0 0 0.

(** [a < b]: the order of the field tuples. *)
Definition ltb (a b : datetime) : bool :=
  (ordinal a <? ordinal b)%Z
  || (ordinal a =? ordinal b)%Z
     && ((hour a <? hour b)%N
         || (hour a =? hour b)%N
            && ((minute a <? minute b)%N
                || (minute a =? minute b)%N
                   && ((second a <? second b)%N
                       || (second a =? second b)%N
                          && (microsecond a <? microsecond b)%N))).

(** [a >= b]. *)
Definition geb (a b : datetime) : bool := negb (ltb a b).

Definition MONTH_NAMES : list string :=
  [""; "January"; "February"; "March"; "April"; "May"; "June"; "July";
   "August"; "September"; "October"; "November"; "December"]%string.

(** [dt.strftime("%B")] in the C locale. *)
Definition strftime_B (dt : datetime) : pystr :=
  PyStr.lit (nth (Z.to_nat (month dt)) MONTH_NAMES ""%string).

End DateTime.

(** ** Insertion-ordered [dict] *)
Module ODict.
Section Dict.
Context {K V : Type} `{EqDecision K}.

Fixpoint get (d : list (K * V)) (k : K) : option V :=
  match d with
  | [] => None
  | (k', v) :: d' => if decide (k = k') then Some v else get d' k
  end.

(** [d[k] = v]: a present key keeps its position. *)
Fixpoint set (d : list (K * V)) (k : K) (v : V) : list (K * V) :=
  match d with
  | [] => [(k, v)]
  | (k', v') :: d' =>
      if decide (k = k') then (k', v) :: d' else (k', v') :: set d' k v
  end.
End Dict.
End ODict.

(** ** [difflib.SequenceMatcher] and [difflib.get_close_matches]

    The matcher is used with its defaults ([isjunk=None], [autojunk=True]),
    first sequence [a], second sequence [b]. A ratio is a binary64 value in
    CPython; it is embedded as the exact rational [2 * matches / length],
    and the cutoff [0.6] as [3/5]. The two readings decide [ratio >= 0.6]
    and the order of two ratios alike for every pair of strings CPython can
    hold in practice (combined length below [2^25]). *)
Module Difflib.

Fixpoint indices (x : N) (b : pystr) (j : nat) : list nat :=
  match b with
  | [] => []
  | y :: b' =>
      if (x =? y)%N then j :: indices x b' (S j) else indices x b' (S j)
  end.

(** [__chain_b]: the positions of [x] in [b], ascending; an element that
    fills more than 1% (plus one) of a [b] of 200 elements or more is
    "popular" and gets no entry. *)
Definition b2j (b : pystr) (x : N) : list nat :=
  let idxs := indices x b 0 in
  let n := length b in
  if (200 <=? n)%nat && (n / 100 + 1 <? length idxs)%nat then [] else idxs.

Fixpoint j2len_get (m : list (nat * nat)) (j : nat) : nat :=
  match m with
  | [] => 0%nat
  | (j', k) :: m' => if (j =? j')%nat then k else j2len_get m' j
  end.

(** The inner loop of [find_longest_match] over the positions [js] of
    [a[i]] in [b]. *)
Fixpoint scan_row (i blo bhi : nat) (j2len : list (nat * nat))
    (js : list nat) (newj2len : list (nat * nat)) (best : nat * nat * nat)
    : list (nat * nat) * (nat * nat * nat) :=
  match js with
  | [] => (newj2len, best)
  | j :: js' =>
      if (j <? blo)%nat then scan_row i blo bhi j2len js' newj2len best
      else if (bhi <=? j)%nat then (newj2len, best)
      else
        let k := S (match j with O => O | S j1 => j2len_get j2len j1 end) in
        let best' :=
          if (snd best <? k)%nat then ((i + 1 - k)%nat, (j + 1 - k)%nat, k)
          else best in
        scan_row i blo bhi j2len js' ((j, k) :: newj2len) best'
  end.

Fixpoint scan_rows (a b : pystr) (blo bhi : nat) (rows : list nat)
    (j2len : list (nat * nat)) (best : nat * nat * nat) : nat * nat * nat :=
  match rows with
  | [] => best
  | i :: rows' =>
      let '(newj2len, best') :=
        scan_row i blo bhi j2len (b2j b (nth i a 0%N)) [] best in
      scan_rows a b blo bhi rows' newj2len best'
  end.

(** The two loops that extend the best block by matching elements on
    each end (they recover popular elements; with [isjunk=None] the two
    loops over junk that follow them never run). *)
Fixpoint extend_left (fuel : nat) (a b : pystr) (alo blo : nat)
    (best : nat * nat * nat) : nat * nat * nat :=
  match fuel with
  | O => best
  | S fuel' =>
      let '(besti, bestj, bestsize) := best in
      if (alo <? besti)%nat && (blo <? bestj)%nat
         && (nth (besti - 1) a 0 =? nth (bestj - 1) b 0)%N
      then extend_left fuel' a b alo blo
             ((besti - 1)%nat, (bestj - 1)%nat, S bestsize)
      else best
  end.

Fixpoint extend_right (fuel : nat) (a b : pystr) (ahi bhi : nat)
    (best : nat * nat * nat) : nat * nat * nat :=
  match fuel with
  | O => best
  | S fuel' =>
      let '(besti, bestj, bestsize) := best in
      if (besti + bestsize <? ahi)%nat && (bestj + bestsize <? bhi)%nat
         && (nth (besti + bestsize) a 0 =? nth (bestj + bestsize) b 0)%N
      then extend_right fuel' a b ahi bhi (besti, bestj, S bestsize)
      else best
  end.

Definition find_longest_match (a b : pystr) (alo ahi blo bhi : nat)
    : nat * nat * nat :=
  let best := scan_rows a b blo bhi (seq alo (ahi - alo)) [] (alo, blo, 0%nat) in
  let best := extend_left (fst (fst best)) a b alo blo best in
  extend_right (length a) a b ahi bhi best.

(** The sum of the sizes of [get_matching_blocks()]: the longest block,
    then the same on the pieces to its left and to its right. *)
Fixpoint matches (fuel : nat) (a b : pystr) (alo ahi blo bhi : nat) : nat :=
  match fuel with
  | O => 0%nat
  | S fuel' =>
      let '(i, j, k) := find_longest_match a b alo ahi blo bhi in
      if (k =? 0)%nat then 0%nat
      else
        (k
         + (if (alo <? i)%nat && (blo <? j)%nat
            then matches fuel' a b alo i blo j else 0)
         + (if (i + k <? ahi)%nat && (j + k <? bhi)%nat
            then matches fuel' a b (i + k) ahi (j + k) bhi else 0))%nat
  end.

(** [_calculate_ratio]. *)
Definition calculate_ratio (matches length : nat) : Q :=
  match length with
  | O => 1%Q
  | S _ => (Z.of_nat (2 * matches) # Pos.of_nat length)%Q
  end.

Definition ratio (a b : pystr) : Q :=
  calculate_ratio (matches (S (length a)) a b 0 (length a) 0 (length b))
                  (length a + length b).

(** [quick_ratio]: the matches of [a] and [b] read as multisets. *)
Fixpoint quick_matches (a : pystr) (b : pystr) (avail : gmap N Z) : nat :=
  match a with
  | [] => 0%nat
  | elt :: a' =>
      let numb :=
        match avail !! elt with
        | Some n => n
        | None => Z.of_nat (length (indices elt b 0))
        end in
      ((if (0 <? numb)%Z then 1 else 0)
       + quick_matches a' b (<[elt := (numb - 1)%Z]> avail))%nat
  end.

Definition quick_ratio (a b : pystr) : Q :=
  calculate_ratio (quick_matches a b ∅) (length a + length b).

Definition real_quick_ratio (a b : pystr) : Q :=
  calculate_ratio (Nat.min (length a) (length b)) (length a + length b).

(** [(s1, x1) > (s2, x2)] on (score, word) tuples. *)
Definition scored_gtb (p q : Q * pystr) : bool :=
  if Qeq_bool (fst p) (fst q) then PyStr.ltb (snd q) (snd p)
  else negb (Qle_bool (fst p) (fst q)).

(** [max(result)]: the first maximal item. *)
Fixpoint max_from (best : Q * pystr) (rest : list (Q * pystr)) : Q * pystr :=
  match rest with
  | [] => best
  | item :: rest' =>
      if scored_gtb item best then max_from item rest'
      else max_from best rest'
  end.

(** [get_close_matches(word, possibilities, n=1, cutoff)]. *)
Definition get_close_matches (word : pystr) (possibilities : list pystr)
    (cutoff : Q) : list pystr :=
  let result :=
    flat_map (fun x =>
      if Qle_bool cutoff (real_quick_ratio x word)
         && Qle_bool cutoff (quick_ratio x word)
         && Qle_bool cutoff (ratio x word)
      then [(ratio x word, x)] else []) possibilities in
  match result with
  | [] => []
  | item :: rest => [snd (max_from item rest)]
  end.

End Difflib.

(** ** [normalize] (identical in both source files) *)

Definition normalize (name : pystr) : pystr :=
  match name with
  | [] => []
  | _ =>
      let cleaned := List.filter (fun c => (c <? 128)%N) name in
      let cleaned := PyStr.replace 38%N (PyStr.lit "and") cleaned in
      let cleaned := PyStr.join (PyStr.lit " ") (PyStr.split cleaned) in
      PyStr.lower (PyStr.strip cleaned)
  end.

(** ** Constants and helpers shared, line for line, by both source files *)

Definition EXCLUDED_PLACES : list pystr := [PyStr.lit "opi orders"].
Definition EXCLUDED_STATUSES : list pystr :=
  [PyStr.lit "cancelled"; PyStr.lit "rejected by place"].

Import DateTime.

(** [day_of_week_sunday_start]: 0 is Sunday, ..., 6 is Saturday. *)
Definition day_of_week_sunday_start (dt : datetime) : Z :=
  ((weekday dt + 1) mod 7)%Z.

(** [get_week_sunday]. *)
Definition get_week_sunday (dt : datetime) : option datetime :=
  let dow := day_of_week_sunday_start dt in
  at_midnight <$> add_days dt (- dow).

(** An ingested order: the dict with keys ["place"], ["date"], ["norm"]. *)
Record order := mk_order {
  place : pystr;
  date : datetime;
  norm : pystr
}.

(** One row of [csv.DictReader] as the loop of [load_orders] reads it,
    through [row.get(key, "")]: the text of the cell; [""] when the file
    has no such column; [None] when the row is too short to reach the
    column, for the reader fills the cells a short row lacks with [None]. *)
Record order_row := mk_order_row {
  row_Place : option pystr;
  row_Status : option pystr;
  row_Date : option pystr
}.

Section LoadOrders.
(** [datetime.strptime(s, "%d %b %Y %I:%M %p")]; [None] is its
    [ValueError]. *)
Variable strptime : pystr -> option datetime.

(** [parse_date]. The result [Some None] is the [None] it returns on a
    [ValueError]; the result [None] is the [AttributeError] of
    [date_str.strip()] on a cell that is [None], which it does not catch. *)
Definition parse_date (date_str : option pystr) : option (option datetime) :=
  s ← date_str;
  Some (strptime (PyStr.strip s)).

(** The body of the loop of [load_orders] on one row: the orders it
    appends, or [None] when [.strip()] raises on a cell that is [None]. *)
Definition order_body (row : order_row) : option (list order) :=
  place ← PyStr.strip <$> row_Place row;
  status ← PyStr.strip <$> row_Status row;
  date ← parse_date (row_Date row);
  Some match place, date with
       | [], _ | _, None => []
       | _ :: _, Some date =>
           if bool_decide (normalize place ∈ EXCLUDED_PLACES) then []
           else if bool_decide (PyStr.lower status ∈ EXCLUDED_STATUSES)
           then []
           else [mk_order place date (normalize place)]
       end.

(** [load_orders]; [None] when the loop raises on one of the rows. *)
Fixpoint load_orders (rows : list order_row) : option (list order) :=
  match rows with
  | [] => Some []
  | row :: rows' =>
      kept ← order_body row;
      orders ← load_orders rows';
      Some (kept ++ orders)
  end.
End LoadOrders.

(** A tracker cell after coercion: [True], [False] or the string ['NA']. *)
Inductive flag := FTrue | FFalse | FNA.

Definition is_True (f : flag) : bool :=
  match f with FTrue => true | _ => false end.

(** A tracker record: the dict stored under the normalized name. *)
Record TrackerRecord := mk_record {
  display_name : pystr;
  tip_tag : flag;
  ig : flag;
  fb : flag;
  google : flag;
  stories : list flag;
  score : Z
}.

(** What the loop body of [load_scorecard] does with one row. *)
Inductive outcome :=
| Skipped
| Stored (norm : pystr) (data : TrackerRecord)
| Raised.

(** A worksheet cell value as [openpyxl] returns it with [data_only=True]:
    [None], a [bool], a [str], or something else (a number, a date) of the
    given truth value. *)
Inductive xl_value :=
| XNone
| XBool (b : bool)
| XStr (s : pystr)
| XOther (truthy : bool).

(** [ws.cell(row=row_idx, column=col).value] within one row. *)
Definition cell (row : list xl_value) (col : nat) : xl_value :=
  nth (col - 1) row XNone.

(** The coercion of a worksheet cell ([val_xl] in [app.py], [val] in
    [generate_scorecards.py]). *)
Definition val_xl (row : list xl_value) (col : nat) : flag :=
  match cell row col with
  | XBool true => FTrue
  | XBool false => FFalse
  | XStr v =>
      if PyStr.eqb (PyStr.upper (PyStr.strip v)) (PyStr.lit "NA")
      then FNA else FFalse
  | _ => FFalse
  end.

(** [sum(1 for c in range(lo, hi) if ws.cell(row, c).value is True)]. *)
Definition xl_true_count (row : list xl_value) (lo hi : nat) : Z :=
  Z.of_nat (length (List.filter
    (fun c => match cell row c with XBool true => true | _ => false end)
    (seq lo (hi - lo)))).

(** The name test that opens the loop body on a worksheet row:
    [if not name or name.strip().lower() == "sum": continue]; a name that
    is neither empty nor a string has no [strip]. *)
Definition xl_name (row : list xl_value) : outcome + pystr :=
  match cell row 1 with
  | XNone | XBool false | XOther false | XStr [] => inl Skipped
  | XBool true | XOther true => inl Raised
  | XStr name =>
      if PyStr.eqb (PyStr.lower (PyStr.strip name)) (PyStr.lit "sum")
      then inl Skipped else inr name
  end.

(** [restaurants[norm] = data] over the rows, in order. *)
Fixpoint store_rows {R : Type} (body : R -> outcome) (rows : list R)
    (restaurants : list (pystr * TrackerRecord))
    : option (list (pystr * TrackerRecord)) :=
  match rows with
  | [] => Some restaurants
  | row :: rows' =>
      match body row with
      | Skipped => store_rows body rows' restaurants
      | Stored norm data =>
          store_rows body rows' (ODict.set restaurants norm data)
      | Raised => None
      end
  end.

(** [count_orders_by_day]; [counts[sc_name][dow] += 1] on a
    [defaultdict(lambda: [0] * 7)]. *)
Definition increment (counts : gmap pystr (list Z)) (sc_name : pystr)
    (dow : Z) : gmap pystr (list Z) :=
  let days := default (replicate 7 0%Z) (counts !! sc_name) in
  let i := Z.to_nat dow in
  <[sc_name := <[i := (nth i days 0 + 1)%Z]> days]> counts.

Definition count_order (name_map : gmap pystr pystr)
    (week_start week_end : datetime) (counts : gmap pystr (list Z))
    (o : order) : gmap pystr (list Z) :=
  if DateTime.ltb (date o) week_start || DateTime.geb (date o) week_end
  then counts
  else
    match name_map !! norm o with
    | Some ((_ :: _) as sc_name) =>
        increment counts sc_name (day_of_week_sunday_start (date o))
    | _ => counts
    end.

Definition count_orders_by_day (orders : list order)
    (name_map : gmap pystr pystr) (week_start : datetime)
    : option (gmap pystr (list Z)) :=
  week_end ← add_days week_start 7;
  Some (fold_left (count_order name_map week_start week_end) orders ∅).

(** [determine_week]. [now] is what [datetime.now()] returns. *)
Definition bump (week_counts : list (datetime * Z)) (ws : datetime)
    : list (datetime * Z) :=
  ODict.set week_counts ws (default 0%Z (ODict.get week_counts ws) + 1)%Z.

Fixpoint count_weeks (orders : list order) (week_counts : list (datetime * Z))
    : option (list (datetime * Z)) :=
  match orders with
  | [] => Some week_counts
  | o :: orders' =>
      ws ← get_week_sunday (date o);
      count_weeks orders' (bump week_counts ws)
  end.

(** [max(week_counts, key=week_counts.get)]: the first key, in insertion
    order, whose count no other exceeds. *)
Fixpoint max_by_count (best : datetime * Z) (rest : list (datetime * Z))
    : datetime :=
  match rest with
  | [] => fst best
  | item :: rest' =>
      if (snd best <? snd item)%Z then max_by_count item rest'
      else max_by_count best rest'
  end.

Definition week_of_month (ws : datetime) : Z := ((day ws - 1) / 7 + 1)%Z.

Definition determine_week (now : datetime) (orders : list order)
    : option (datetime * pystr * Z * Z) :=
  match orders with
  | [] =>
      ws ← get_week_sunday now;
      Some (ws, strftime_B now, year now, week_of_month ws)
  | _ :: _ =>
      week_counts ← count_weeks orders [];
      match week_counts with
      | [] => None
      | item :: rest =>
          let week_start := max_by_count item rest in
          Some (week_start, strftime_B week_start, year week_start,
                week_of_month week_start)
      end
  end.

(** [sorted(items, key=...)] for a key made of a rank and a name: a stable
    sort on the tuple order. *)
Section Sorted.
Context {A : Type}.
Variable key : A -> Z * pystr.

Definition key_leb (x y : A) : bool :=
  (fst (key x) <? fst (key y))%Z
  || (fst (key x) =? fst (key y))%Z && PyStr.leb (snd (key x)) (snd (key y)).

Fixpoint insert_sorted (x : A) (l : list A) : list A :=
  match l with
  | [] => [x]
  | y :: l' => if key_leb x y then x :: l else y :: insert_sorted x l'
  end.

Definition py_sorted (l : list A) : list A := foldr insert_sorted [] l.
End Sorted.

(** [sum(days)]. *)
Definition py_sum (days : list Z) : Z := foldr Z.add 0%Z days.

(** [max(daily_orders)]; [None] is the [ValueError] on an empty list. *)
Definition py_max (l : list Z) : option Z :=
  match l with
  | [] => None
  | x :: l' => Some (fold_left Z.max l' x)
  end.

(** The scale of the bar chart in [generate_html], in both files:
    [max(daily_orders) if max(daily_orders) > 0 else 1]. *)
Definition max_orders (daily_orders : list Z) : option Z :=
  m ← py_max daily_orders;
  Some (if (0 <? m)%Z then m else 1%Z).

(** The test of the substring step of [build_name_map], in both files:
    [sc_n in csv_n or csv_n in sc_n]. *)
Definition related (csv_n sc_n : pystr) : bool :=
  PyStr.contains csv_n sc_n || PyStr.contains sc_n csv_n.

(** ** [src/app.py] *)
Module App.

(** [val]: the coercion of a cell of the CSV tracker. *)
Definition val (col_val : pystr) : flag :=
  let cv := PyStr.upper (PyStr.strip col_val) in
  if PyStr.eqb cv (PyStr.lit "TRUE") then FTrue
  else if PyStr.eqb cv (PyStr.lit "FALSE") then FFalse
  else if PyStr.eqb cv (PyStr.lit "NA") then FNA
  else FFalse.

(** [int((true_count / 10.0) * 100)]. *)
Definition score_of (true_count : Z) : option Z :=
  PyFloat.to_int
    (PyFloat.mul (PyFloat.div (PyFloat.of_int true_count) (PyFloat.of_int 10))
                 (PyFloat.of_int 100)).

(** The loop body of the CSV branch of [load_scorecard]. *)
Definition csv_body (row : list pystr) : outcome :=
  if (length row <? 12)%nat then Skipped
  else
    let name := nth 0 row [] in
    match name with
    | [] => Skipped
    | _ :: _ =>
        if PyStr.eqb (PyStr.lower (PyStr.strip name)) (PyStr.lit "sum")
        then Skipped
        else
          let norm := normalize name in
          let true_count :=
            Z.of_nat (length (List.filter
              (fun c => is_True (val (nth c row []))) (seq 2 10))) in
          match score_of true_count with
          | Some score =>
              Stored norm
                (mk_record (PyStr.strip name)
                   (val (nth 1 row [])) (val (nth 2 row []))
                   (val (nth 3 row [])) (val (nth 4 row []))
                   (List.map (fun c => val (nth c row [])) (seq 5 7))
                   score)
          | None => Raised
          end
    end.

(** The loop body of the Excel branch of [load_scorecard]. *)
Definition xlsx_body (row : list xl_value) : outcome :=
  match xl_name row with
  | inl out => out
  | inr name =>
      let norm := normalize name in
      match score_of (xl_true_count row 3 13) with
      | Some score =>
          Stored norm
            (mk_record (PyStr.strip name)
               (val_xl row 2) (val_xl row 3) (val_xl row 4) (val_xl row 5)
               (List.map (val_xl row) (seq 6 7))
               score)
      | None => Raised
      end
  end.

(** The tracker as the parsers hand it over: the rows of [csv.reader],
    or the rows of the first worksheet from row 1 on. *)
Inductive tracker :=
| CsvRows (reader : list (list pystr))
| Worksheet (ws : list (list xl_value)).

Definition load_scorecard (t : tracker)
    : option (list (pystr * TrackerRecord)) :=
  match t with
  | CsvRows reader => store_rows csv_body (skipn 4 reader) []
  | Worksheet ws => store_rows xlsx_body (skipn 4 ws) []
  end.

(** The body of the loop of [build_name_map] for one order-side name. *)
Definition match_name (scorecard_norms : list pystr) (csv_n : pystr)
    : option pystr :=
  if bool_decide (csv_n ∈ scorecard_norms) then Some csv_n
  else
    match List.find (related csv_n) scorecard_norms with
    | Some sc_n => Some sc_n
    | None =>
        match Difflib.get_close_matches csv_n scorecard_norms (3 # 5) with
        | m :: _ => Some m
        | [] => None
        end
    end.

Definition build_name_map (order_norms scorecard_norms : list pystr)
    : gmap pystr pystr :=
  fold_left (fun mapping csv_n =>
    match match_name scorecard_norms csv_n with
    | Some sc_n => <[csv_n := sc_n]> mapping
    | None => mapping
    end) order_norms ∅.

(** The sort key of [sorted_restaurants]. *)
Definition sort_key (name_map : gmap pystr pystr)
    (daily_counts : gmap pystr (list Z)) (x : pystr * TrackerRecord)
    : Z * pystr :=
  let active_restaurants_in_csv : gset pystr := map_img name_map in
  ((if bool_decide (x.1 ∈ active_restaurants_in_csv)
       && (0 <? py_sum (default [0%Z] (daily_counts !! x.1)))%Z
    then 0%Z else 1%Z),
   display_name x.2).

Definition sorted_restaurants (scorecard : list (pystr * TrackerRecord))
    (name_map : gmap pystr pystr) (daily_counts : gmap pystr (list Z))
    : list (pystr * TrackerRecord) :=
  py_sorted (sort_key name_map daily_counts) scorecard.

(** The colour of the score in [generate_html]. *)
Definition score_color (score : Z) : string :=
  if (70 <=? score)%Z then "#28a745"
  else if (50 <=? score)%Z then "#ff9800"
  else "#dc3545".

End App.

(** ** [src/generate_scorecards.py] *)
Module Gen.

Definition MANUAL_NAME_MAP : gmap pystr pystr :=
  list_to_map
    [(PyStr.lit "shawerma 3a saj", PyStr.lit "shawerma saj");
     (PyStr.lit "everybuddy nutrition supplements", PyStr.lit "everybuddy");
     (PyStr.lit "pachi pizza and pasta", PyStr.lit "pachi pizza");
     (PyStr.lit "azul pastry", PyStr.lit "azul");
     (PyStr.lit "ikura japanese cuisine", PyStr.lit "ikura");
     (PyStr.lit "the fit bar", PyStr.lit "the fit bar jo");
     (PyStr.lit "sofia turkish restaurant", PyStr.lit "sofia");
     (PyStr.lit "secrets cakes", PyStr.lit "secrets cake");
     (PyStr.lit "flour and fire", PyStr.lit "flour and fire")].

(** The loop body of [load_scorecard]; the score is
    [int(true_count * 10)]. *)
Definition xlsx_body (row : list xl_value) : outcome :=
  match xl_name row with
  | inl out => out
  | inr name =>
      let norm := normalize name in
      let true_count := xl_true_count row 3 13 in
      Stored norm
        (mk_record (PyStr.strip name)
           (val_xl row 2) (val_xl row 3) (val_xl row 4) (val_xl row 5)
           (List.map (val_xl row) (seq 6 7))
           (true_count * 10)%Z)
  end.

Definition load_scorecard (ws : list (list xl_value))
    : option (list (pystr * TrackerRecord)) :=
  store_rows xlsx_body (skipn 4 ws) [].

(** The body of the loop of [build_name_map] for one order-side name. *)
Definition match_name (scorecard_norms : list pystr) (csv_n : pystr)
    : option pystr :=
  if bool_decide (csv_n ∈ scorecard_norms) then Some csv_n
  else
    match MANUAL_NAME_MAP !! csv_n with
    | Some target =>
        if bool_decide (target ∈ scorecard_norms) then Some target
        else List.find (related csv_n) scorecard_norms
    | None => List.find (related csv_n) scorecard_norms
    end.

Definition build_name_map (order_norms scorecard_norms : list pystr)
    : gmap pystr pystr :=
  fold_left (fun mapping csv_n =>
    match match_name scorecard_norms csv_n with
    | Some sc_n => <[csv_n := sc_n]> mapping
    | None => mapping
    end) order_norms ∅.

(** The sort key of [sorted_restaurants]. *)
Definition sort_key (daily_counts : gmap pystr (list Z))
    (x : pystr * TrackerRecord) : Z * pystr :=
  ((if bool_decide (x.1 ∈ dom daily_counts) then 0%Z else 1%Z),
   display_name x.2).

Definition sorted_restaurants (scorecard : list (pystr * TrackerRecord))
    (daily_counts : gmap pystr (list Z)) : list (pystr * TrackerRecord) :=
  py_sorted (sort_key daily_counts) scorecard.

(** [order_norms - set(name_map.keys())] in [main]. *)
Definition unmatched_csv (order_norms : list pystr)
    (name_map : gmap pystr pystr) : gset pystr :=
  list_to_set order_norms ∖ dom name_map.

(** The colour of the score in [generate_html]. *)
Definition score_color (score : Z) : string :=
  if (50 <=? score)%Z then "#4CAF50" else "#e53935".

End Gen.

(** ** Vocabulary of the statements *)

(** A word of [split]: not empty, no whitespace. *)
Definition wordy (w : pystr) : Prop :=
  w ≠ [] ∧ Forall (fun c => PyStr.isspace c = false) w.

(** A code point that [normalize] leaves alone. *)
Definition settled (c : N) : Prop :=
  (c < 128)%N ∧ c ≠ 38%N ∧ PyStr.lower_char c = c.

(** A row of the tracker in one of the three loops that ingest it. *)
Inductive tracker_row :=
| AppCsvRow (row : list pystr)
| AppSheetRow (row : list xl_value)
| GenSheetRow (row : list xl_value).

Definition ingest (r : tracker_row) : outcome :=
  match r with
  | AppCsvRow row => App.csv_body row
  | AppSheetRow row => App.xlsx_body row
  | GenSheetRow row => Gen.xlsx_body row
  end.

Definition true_flags (flags : list flag) : Z :=
  Z.of_nat (length (List.filter is_True flags)).

(** The ten flags the loops count: Instagram, Facebook, Google and the
    seven days. *)
Definition scored_flags (data : TrackerRecord) : list flag :=
  [ig data; fb data; google data] ++ stories data.

(** The eleven flags of a record: the four links and the seven days. *)
Definition all_flags (data : TrackerRecord) : list flag :=
  [tip_tag data; ig data; fb data; google data] ++ stories data.

(** [round(n / d)] for [d > 0]: the nearest integer, ties to even. *)
Definition round_div (n d : Z) : Z :=
  let q := (n / d)%Z in
  let r := (n mod d)%Z in
  if (2 * r <? d)%Z then q
  else if (d <? 2 * r)%Z then (q + 1)%Z
  else if Z.even q then q else (q + 1)%Z.

Definition tip_tag_only_row : list pystr :=
  List.map PyStr.lit
    ["Pachi Pizza"; "TRUE"; "FALSE"; "FALSE"; "FALSE"; "FALSE"; "FALSE";
     "FALSE"; "FALSE"; "FALSE"; "FALSE"; "FALSE"]%string.

Definition tip_tag_only_record : TrackerRecord :=
  mk_record (PyStr.lit "Pachi Pizza") FTrue FFalse FFalse FFalse
    [FFalse; FFalse; FFalse; FFalse; FFalse; FFalse; FFalse] 0.

(** The test string of the specification, ["Café – Déjà Vu 🍕"], with its
    accented letters precomposed (U+00E9, U+00E0), an en dash (U+2013) and
    U+1F355. *)
Definition cafe_deja_vu : pystr :=
  [67; 97; 102; 233; 32; 8211; 32; 68; 233; 106; 224; 32; 86; 117; 32;
   127829]%N.

(** [week_start <= o["date"] < week_end]. *)
Definition in_window (week_start week_end : datetime) (o : order) : bool :=
  DateTime.geb (date o) week_start && DateTime.ltb (date o) week_end.

(** What C6 says makes an order count for restaurant [r] on day [d]: its
    timestamp is in the window, its key has the entry [r] in the name map,
    and [d] is its Sunday-start day of the week. *)
Definition said_to_count (name_map : gmap pystr pystr)
    (week_start week_end : datetime) (r : pystr) (d : Z) (o : order) : bool :=
  in_window week_start week_end o
  && bool_decide (name_map !! norm o = Some r)
  && (day_of_week_sunday_start (date o) =? d)%Z.

(** What makes it count in the program: the above, and [r] is not [""]. *)
Definition counted (name_map : gmap pystr pystr)
    (week_start week_end : datetime) (r : pystr) (d : Z) (o : order) : bool :=
  said_to_count name_map week_start week_end r d o && bool_decide (r ≠ []).

Definition tally (p : order -> bool) (orders : list order) : Z :=
  Z.of_nat (length (List.filter p orders)).

(** [counts.get(r, [0] * 7)[d]]. *)
Definition count_at (counts : gmap pystr (list Z)) (r : pystr) (d : Z) : Z :=
  nth (Z.to_nat d) (default (replicate 7 0%Z) (counts !! r)) 0%Z.

(** Every stored row has its seven days. *)
Definition seven_days (counts : gmap pystr (list Z)) : Prop :=
  ∀ r days, counts !! r = Some days → length days = 7%nat.

(** The scenario of the specification's end-to-end test: a week that starts
    on Sunday 22 February 2026 and three orders on its Monday. *)
Definition sunday_22_feb : datetime := DateTime.make 2026 2 22 0 0.
Definition sunday_1_mar : datetime := DateTime.make 2026 3 1 0 0.

Definition pachi_orders : list order :=
  [mk_order (PyStr.lit "Pizza Pachi") (DateTime.make 2026 2 23 11 57)
     (normalize (PyStr.lit "Pizza Pachi"));
   mk_order (PyStr.lit "PACHI PIZZA AND PASTA") (DateTime.make 2026 2 23 13 5)
     (normalize (PyStr.lit "PACHI PIZZA AND PASTA"));
   mk_order (PyStr.lit "Pizza Pachi") (DateTime.make 2026 2 23 20 30)
     (normalize (PyStr.lit "Pizza Pachi"))].

Definition pizza_pachi_order : order :=
  mk_order (PyStr.lit "Pizza Pachi") (DateTime.make 2026 2 23 11 57)
    (normalize (PyStr.lit "Pizza Pachi")).

(** A name map with an entry whose target is the empty string. *)
Definition empty_target_map : gmap pystr pystr :=
  {[ PyStr.lit "pizza pachi" := [] ]}.

(** A Sunday at 00:00:00 among the representable dates. *)
Definition sunday_midnight (s : datetime) : Prop :=
  (1 <= ordinal s <= MAXORDINAL)%Z
  ∧ day_of_week_sunday_start s = 0%Z
  ∧ at_midnight s = s.

(** [dt] falls on one of the seven days, Sunday to Saturday, that start
    with [s]. *)
Definition in_span (s dt : datetime) : Prop :=
  (ordinal s <= ordinal dt < ordinal s + 7)%Z.

(** Two instants in different weeks. *)
Definition monday_23_feb_9am : datetime := DateTime.make 2026 2 23 9 0.
Definition tuesday_3_mar_9am : datetime := DateTime.make 2026 3 3 9 0.

(** The Sunday of the week of 3 January of year 1: the day before
    0001-01-01, which no [datetime] holds. *)
Definition sunday_before_year_1 : datetime := mk_datetime 0 0 0 0 0.

Definition third_of_january_1 : list order :=
  [mk_order (PyStr.lit "Azul") (DateTime.make 1 1 3 9 0) (PyStr.lit "azul")].

(** The condition of C7 on a tracker key: it is a matched target of the
    name map and its zero-filled day counts do not sum to zero. *)
Definition active (name_map : gmap pystr pystr)
    (daily_counts : gmap pystr (list Z)) (key : pystr) : Prop :=
  (∃ k, name_map !! k = Some key)
  ∧ py_sum (default (replicate 7 0%Z) (daily_counts !! key)) ≠ 0%Z.

(** The order of the report: active records first; within the active and
    within the others, display names ascending by code point. *)
Definition report_le (name_map : gmap pystr pystr)
    (daily_counts : gmap pystr (list Z)) (x y : pystr * TrackerRecord) : Prop :=
  (active name_map daily_counts x.1 ∧ ¬ active name_map daily_counts y.1)
  ∨ ((active name_map daily_counts x.1 ↔ active name_map daily_counts y.1)
     ∧ PyStr.leb (display_name x.2) (display_name y.2) = true).

(** A tracker of three restaurants, as [load_scorecard] stores it. *)
Definition plain_record (name : string) : TrackerRecord :=
  mk_record (PyStr.lit name) FFalse FFalse FFalse FFalse
    [FFalse; FFalse; FFalse; FFalse; FFalse; FFalse; FFalse] 0.

Definition three_restaurants : list (pystr * TrackerRecord) :=
  [(PyStr.lit "azul", plain_record "Azul");
   (PyStr.lit "pachi pizza", plain_record "Pachi Pizza");
   (PyStr.lit "ikura", plain_record "Ikura")].

Definition pasta_map : gmap pystr pystr :=
  {[ PyStr.lit "pachi pizza and pasta" := PyStr.lit "pachi pizza" ]}.

Definition monday_count : gmap pystr (list Z) :=
  {[ PyStr.lit "pachi pizza" := [0; 1; 0; 0; 0; 0; 0]%Z ]}.

(** The tracker of the end-to-end scenario: one restaurant, "Pachi Pizza",
    with four flags valued true among the ten scored columns, the Monday
    story flag among them. The first four rows are the header. *)
Definition pachi_csv_row : list pystr :=
  List.map PyStr.lit
    ["Pachi Pizza"; "FALSE"; "TRUE"; "TRUE"; "TRUE";
     "FALSE"; "TRUE"; "FALSE"; "FALSE"; "FALSE"; "FALSE"; "FALSE"]%string.

Definition pachi_csv : list (list pystr) :=
  [[PyStr.lit "Score Card"]; []; [PyStr.lit "Restaurant"]; []; pachi_csv_row].

Definition pachi_sheet_row : list xl_value :=
  [XStr (PyStr.lit "Pachi Pizza"); XBool false; XBool true; XBool true;
   XBool true; XBool false; XBool true; XBool false; XBool false; XBool false;
   XBool false; XBool false].

Definition pachi_sheet : list (list xl_value) :=
  [[XStr (PyStr.lit "Score Card")]; []; [XStr (PyStr.lit "Restaurant")]; [];
   pachi_sheet_row].

Definition pachi_record : TrackerRecord :=
  mk_record (PyStr.lit "Pachi Pizza") FFalse FTrue FTrue FTrue
    [FFalse; FTrue; FFalse; FFalse; FFalse; FFalse; FFalse] 40.

(** [set(o["norm"] for o in orders)] in one of its iteration orders. *)
Definition pachi_order_norms : list pystr :=
  remove_dups (List.map norm pachi_orders).

(** [set(scorecard.keys())]. *)
Definition pachi_tracker_keys : list pystr := [PyStr.lit "pachi pizza"].

(** [(i, j, k)] is a block of [k] equal elements, [a[i:i+k] == b[j:j+k]],
    inside [a[alo:ahi]] and [b[blo:bhi]]. *)
Definition block_in (a b : pystr) (alo ahi blo bhi : nat)
    (m : nat * nat * nat) : Prop :=
  let '(i, j, k) := m in
  (alo <= i)%nat ∧ (i + k <= ahi)%nat ∧ (blo <= j)%nat ∧ (j + k <= bhi)%nat
  ∧ ∀ t, (t < k)%nat -> nth (i + t) a 0%N = nth (j + t) b 0%N.

(** The entries of [j2len] after the rows before [e]: an entry [(j, k)] is
    a block of [k] equal elements that ends with [a[e-1]] and [b[j]]. *)
Definition row_in (a b : pystr) (alo blo bhi e : nat)
    (j2len : list (nat * nat)) : Prop :=
  Forall (fun '(j, k) =>
    (0 < k)%nat ∧ (alo + k <= e)%nat ∧ (blo + k <= j + 1)%nat ∧ (j < bhi)%nat
    ∧ ∀ t, (t < k)%nat -> nth (e - k + t) a 0%N = nth (j + 1 - k + t) b 0%N)
    j2len.

(** [a[lo:hi]]. *)
Definition slice (a : pystr) (lo hi : nat) : pystr := take (hi - lo) (drop lo a).

(** The number of elements two sequences share as multisets. *)
Definition shared (u v : pystr) : nat :=
  size ((list_to_set_disj u : gmultiset N) ∩ list_to_set_disj v).

(** [sc_n] is the first tracker key, in the iteration order of the set,
    that contains the order key or is contained in it. *)
Definition first_related (scorecard_norms : list pystr) (csv_n sc_n : pystr)
    : Prop :=
  ∃ before after,
    scorecard_norms = before ++ sc_n :: after
    ∧ related csv_n sc_n = true
    ∧ Forall (fun t => related csv_n t = false) before.

(** [y] is a worse match of [word] than [x], or the same: its ratio is
    smaller, or the two ratios are equal and [y] is not the greater
    string. *)
Definition not_better (word y x : pystr) : Prop :=
  (Difflib.ratio y word < Difflib.ratio x word)%Q
  ∨ (Difflib.ratio y word == Difflib.ratio x word)%Q ∧ PyStr.ltb x y = false.

(** [x] is the single best approximate match of [word] among the tracker
    keys. *)
Definition best_match (scorecard_norms : list pystr) (word x : pystr) : Prop :=
  x ∈ scorecard_norms ∧ ∀ y, y ∈ scorecard_norms -> not_better word y x.

(** An order-side key and tracker keys on which the two front ends
    differ. *)
Definition pachi_pizzeria : pystr := PyStr.lit "pachi pizzeria".


(** Tracker keys in two iteration orders. *)
Definition azul_and_pachi : list pystr :=
  [PyStr.lit "azul"; PyStr.lit "pachi pizza"].


(** ** Vocabulary of the further properties *)

(** The orders of the week that starts on [s], as [determine_week] groups
    them. *)
Definition week_is (s : datetime) (o : order) : bool :=
  bool_decide (get_week_sunday (date o) = Some s).

(** How often [s] occurs in a list of week starts. *)
Definition occurrences (s : datetime) (p : list datetime) : Z :=
  Z.of_nat (length (List.filter (fun w => bool_decide (w = s)) p)).

(** [week_counts] after the week starts [p] have been counted, in that
    order: one entry per distinct week start, holding its number of
    occurrences, the entries in the order of first occurrence. *)
Definition week_counts_of (p : list datetime) (wc : list (datetime * Z))
    : Prop :=
  NoDup (wc.*1)
  ∧ (∀ s, ODict.get wc s
          = if decide (s ∈ p) then Some (occurrences s p) else None)
  ∧ (∀ k1 s k2, wc.*1 = k1 ++ s :: k2 ->
       ∃ pre post, p = pre ++ s :: post ∧ ∀ w, w ∈ pre -> w ∈ k1).

(** The month and the day of the month of the day [n] of a year, counted
    from 0, as [_ord2ymd] finds them. *)
Definition month_day (n : Z) (leapyear : bool) : Z * Z :=
  let month := Z.shiftr (n + 50) 5 in
  let preceding :=
    (nth (Z.to_nat month) DAYS_BEFORE_MONTH 0
     + (if (2 <? month) && leapyear then 1 else 0))%Z in
  if (n <? preceding)%Z then
    let month := (month - 1)%Z in
    let preceding :=
      (preceding - (nth (Z.to_nat month) DAYS_IN_MONTH 0
                    + (if (month =? 2) && leapyear then 1 else 0)))%Z in
    (month, (n - preceding + 1)%Z)
  else (month, (n - preceding + 1)%Z).

Definition month_day_ok (n : Z) : bool :=
  forallb (fun leapyear =>
    let '(m, d) := month_day n leapyear in
    ((1 <=? m) && (m <=? 12) && (1 <=? d) && (d <=? 31))%Z) [true; false].

(** Orders of two weeks, two in each; the week of 1 March comes first. *)
Definition tied_orders : list order :=
  [mk_order (PyStr.lit "Azul") (DateTime.make 2026 3 3 9 0) (PyStr.lit "azul");
   mk_order (PyStr.lit "Azul") (DateTime.make 2026 2 23 9 0) (PyStr.lit "azul");
   mk_order (PyStr.lit "Ikura") (DateTime.make 2026 2 24 9 0)
     (PyStr.lit "ikura");
   mk_order (PyStr.lit "Ikura") (DateTime.make 2026 3 4 9 0)
     (PyStr.lit "ikura")].
(** A place written without any ASCII character, and tracker keys. *)
Definition arabic_place : pystr := [1576; 1610; 1578; 32; 1576; 1610; 1578]%N.
(** The name cell of a tracker row, when it holds a string. *)
Definition name_cell (r : tracker_row) : option pystr :=
  match r with
  | AppCsvRow row => Some (nth 0 row [])
  | AppSheetRow row | GenSheetRow row =>
      match cell row 1 with
      | XStr name => Some name
      | _ => None
      end
  end.

(** A name the loops do not skip: not empty and, stripped and lowered,
    not ["sum"]. *)
Definition storable (name : pystr) : Prop :=
  name ≠ [] ∧ PyStr.lower (PyStr.strip name) ≠ PyStr.lit "sum".

(** A name cell of a worksheet that is true but no string: [True], a
    number other than zero, a date. *)
Definition not_a_string (row : list xl_value) : Prop :=
  cell row 1 = XBool true ∨ cell row 1 = XOther true.

(** The tracker files the three loaders read, and what each loads. *)
Inductive tracker_file :=
| AppFile (t : App.tracker)
| GenFile (ws : list (list xl_value)).

Definition load_scorecard_of (f : tracker_file)
    : option (list (pystr * TrackerRecord)) :=
  match f with
  | AppFile t => App.load_scorecard t
  | GenFile ws => Gen.load_scorecard ws
  end.

(** The rows a loader runs its loop on. *)
Definition data_rows (f : tracker_file) : list tracker_row :=
  match f with
  | AppFile (App.CsvRows reader) => List.map AppCsvRow (skipn 4 reader)
  | AppFile (App.Worksheet ws) => List.map AppSheetRow (skipn 4 ws)
  | GenFile ws => List.map GenSheetRow (skipn 4 ws)
  end.

(** The pairs a loop stores, row after row. *)
Definition stored {R : Type} (body : R -> outcome) (rows : list R)
    : list (pystr * TrackerRecord) :=
  flat_map (fun r => match body r with
                     | Stored norm data => [(norm, data)]
                     | _ => []
                     end) rows.

(** The distinct keys of a list in the order of their first occurrence. *)
Definition first_seen (ks : list pystr) : list pystr :=
  rev (remove_dups (rev ks)).

(** The last pair stored under the key [k]. *)
Definition last_stored (k : pystr) (p : list (pystr * TrackerRecord))
    : option TrackerRecord :=
  ODict.get (rev p) k.

(** Two rows of a tracker whose names differ in case and spacing only. *)
Definition twice_pachi : list (list pystr) :=
  [[PyStr.lit "Score Card"]; []; [PyStr.lit "Restaurant"]; [];
   tip_tag_only_row;
   List.map PyStr.lit
     ["  PACHI   pizza "; "FALSE"; "TRUE"; "TRUE"; "TRUE";
      "FALSE"; "TRUE"; "FALSE"; "FALSE"; "FALSE"; "FALSE"; "FALSE"]%string].
(** An order row and a tracker row that carry the same text as the name,
    and a parser that reads the one date of the row. *)
Definition cafe_row : order_row :=
  mk_order_row (Some (PyStr.lit "  Flour & Fire "))
    (Some (PyStr.lit "Delivered")) (Some (PyStr.lit "23 Feb 2026 11:57 am")).

(** A row too short to reach one of the three columns the loop of
    [load_orders] reads. *)
Definition short_row (row : order_row) : Prop :=
  row_Place row = None ∨ row_Status row = None ∨ row_Date row = None.

(** A file with a full row and a row that ends after the place. *)
Definition cafe_then_short : list order_row :=
  [cafe_row; mk_order_row (Some (PyStr.lit "Ikura")) None None].

Definition cafe_tracker_row : list xl_value :=
  [XStr (PyStr.lit "  Flour & Fire "); XBool true; XBool true; XBool true;
   XBool true; XBool true; XBool true; XBool true; XStr (PyStr.lit "na");
   XBool false; XBool false; XBool false].

Definition cafe_record : TrackerRecord :=
  mk_record (PyStr.lit "Flour & Fire") FTrue FTrue FTrue FTrue
    [FTrue; FTrue; FTrue; FNA; FFalse; FFalse; FFalse] 60.

Definition one_date (s : pystr) : option datetime :=
  if PyStr.eqb s (PyStr.lit "23 Feb 2026 11:57 am")
  then Some (DateTime.make 2026 2 23 11 57) else None.
(** An order counts for restaurant [r] on day [d] of the week that starts
    on [ws]: it is one of the orders [determine_week] groups under [ws],
    the name map sends its key to [r], which is not empty, and [d] is its
    day of the week. *)
Definition counted_in_week (name_map : gmap pystr pystr) (ws : datetime)
    (r : pystr) (d : Z) (o : order) : bool :=
  week_is ws o
  && bool_decide (name_map !! norm o = Some r)
  && (day_of_week_sunday_start (date o) =? d)%Z
  && bool_decide (r ≠ []).

(** The name map sends the key of the order to a key that is not empty. *)
Definition has_target (name_map : gmap pystr pystr) (o : order) : bool :=
  match name_map !! norm o with
  | Some (_ :: _) => true
  | _ => false
  end.

(** The orders shown on the cards: the sum, over the cards, of the seven
    counts [daily_counts.get(norm_name, [0] * 7)] of each. *)
Definition cards_total (cards : list (pystr * TrackerRecord))
    (daily_counts : gmap pystr (list Z)) : Z :=
  py_sum (List.map
    (fun x => py_sum (default (replicate 7 0%Z) (daily_counts !! x.1)))
    cards).
(** The text of a worksheet cell in a CSV export of the sheet: a Boolean
    is [TRUE] or [FALSE], an empty cell is empty, a string is its text.
    A flag cell holds no text that reads [TRUE], and other values give
    texts that read neither [TRUE] nor [NA]. *)
Definition exported_flag (v : xl_value) (s : pystr) : Prop :=
  match v with
  | XNone => s = []
  | XBool true => s = PyStr.lit "TRUE"
  | XBool false => s = PyStr.lit "FALSE"
  | XStr t => s = t ∧ PyStr.upper (PyStr.strip t) ≠ PyStr.lit "TRUE"
  | XOther _ =>
      PyStr.upper (PyStr.strip s) ≠ PyStr.lit "TRUE"
      ∧ PyStr.upper (PyStr.strip s) ≠ PyStr.lit "NA"
  end.

Definition exported_name (v : xl_value) (s : pystr) : Prop :=
  match v with
  | XNone => s = []
  | XStr t => s = t
  | _ => False
  end.

(** A CSV row of twelve cells that is the export of a worksheet row. *)
Definition exported_row (srow : list xl_value) (row : list pystr) : Prop :=
  length row = 12%nat
  ∧ exported_name (cell srow 1) (nth 0 row [])
  ∧ ∀ c, (2 <= c <= 12)%nat -> exported_flag (cell srow c) (nth (c - 1) row []).

(** The last Sunday of the calendar, 9999-12-26. *)
Definition last_sunday : datetime := DateTime.make 9999 12 26 0 0.


(** * Normalisation *)

Section NormalizeFacts.

Lemma split_wordy s : Forall wordy (PyStr.split s).
Proof.
  induction s as [|c rest IH]; simpl; [constructor|].
  destruct (PyStr.isspace c) eqn:Hc; [exact IH|].
  destruct rest as [|d rest'].
  - repeat constructor; [discriminate | exact Hc].
  - destruct (PyStr.isspace d) eqn:Hd.
    + constructor; [|exact IH]. repeat constructor; [discriminate | exact Hc].
    + destruct (PyStr.split (d :: rest')) as [|w ws] eqn:Hs.
      * repeat constructor; [discriminate | exact Hc].
      * inversion IH as [|? ? [_ Hw] Hws]; subst.
        constructor; [|exact Hws]. split; [discriminate|].
        constructor; assumption.
Qed.

Lemma split_chars (P : N -> Prop) s :
  Forall P s -> Forall (Forall P) (PyStr.split s).
Proof.
  induction s as [|c rest IH]; intros Hs; simpl; [constructor|].
  inversion Hs as [|? ? Hc Hrest]; subst. specialize (IH Hrest).
  destruct (PyStr.isspace c); [exact IH|].
  destruct rest as [|d rest']; [repeat constructor; exact Hc|].
  destruct (PyStr.isspace d).
  - constructor; [repeat constructor; exact Hc | exact IH].
  - destruct (PyStr.split (d :: rest')) as [|w ws];
      [repeat constructor; exact Hc|].
    inversion IH; subst. constructor; [constructor|]; assumption.
Qed.

Lemma split_cons_cons c d rest :
  PyStr.isspace c = false -> PyStr.isspace d = false ->
  PyStr.split (c :: d :: rest)
  = match PyStr.split (d :: rest) with
    | w :: ws => (c :: w) :: ws
    | [] => [[c]]
    end.
Proof. intros Hc Hd. simpl. rewrite Hc, Hd. reflexivity. Qed.

Lemma split_word_then_space w s :
  wordy w -> PyStr.split (w ++ 32%N :: s) = w :: PyStr.split s.
Proof.
  intros [Hne Hw]. induction w as [|c w IH]; [congruence|].
  inversion Hw as [|? ? Hc Hw']; subst.
  destruct w as [|d w'].
  - simpl. rewrite Hc. reflexivity.
  - inversion Hw' as [|? ? Hd _]; subst.
    change ((c :: d :: w') ++ 32%N :: s) with (c :: d :: (w' ++ 32%N :: s)).
    rewrite split_cons_cons by assumption.
    change (d :: w' ++ 32%N :: s) with ((d :: w') ++ 32%N :: s).
    rewrite IH; [reflexivity | discriminate | exact Hw'].
Qed.

Lemma split_word w : wordy w -> PyStr.split w = [w].
Proof.
  intros [Hne Hw]. induction w as [|c w IH]; [congruence|].
  inversion Hw as [|? ? Hc Hw']; subst.
  destruct w as [|d w'].
  - simpl. rewrite Hc. reflexivity.
  - inversion Hw' as [|? ? Hd _]; subst.
    rewrite split_cons_cons by assumption.
    rewrite IH; [reflexivity | discriminate | exact Hw'].
Qed.

Lemma split_join toks :
  Forall wordy toks -> PyStr.split (PyStr.join (PyStr.lit " ") toks) = toks.
Proof.
  induction toks as [|w toks IH]; intros H; [reflexivity|].
  inversion H as [|? ? Hw Htoks]; subst.
  destruct toks as [|w2 toks'].
  - simpl. apply split_word, Hw.
  - change (PyStr.join (PyStr.lit " ") (w :: w2 :: toks'))
      with (w ++ 32%N :: PyStr.join (PyStr.lit " ") (w2 :: toks')).
    rewrite split_word_then_space by exact Hw.
    rewrite IH by exact Htoks. reflexivity.
Qed.

Lemma lstrip_head s :
  match s with c :: _ => PyStr.isspace c = false | [] => True end ->
  PyStr.lstrip s = s.
Proof. destruct s as [|c s']; simpl; [reflexivity|]. intros ->. reflexivity. Qed.

Lemma wordy_head w s :
  wordy w ->
  match w ++ s with c :: _ => PyStr.isspace c = false | [] => True end.
Proof.
  intros [Hne Hw]. destruct w as [|c w']; [congruence|].
  inversion Hw; subst. simpl. assumption.
Qed.

Lemma wordy_rev w : wordy w -> wordy (rev w).
Proof.
  intros [Hne Hw]. split.
  - intros E. apply Hne. rewrite <- (rev_involutive w), E. reflexivity.
  - apply Forall_rev, Hw.
Qed.

Lemma join_head toks :
  Forall wordy toks ->
  match PyStr.join (PyStr.lit " ") toks with
  | c :: _ => PyStr.isspace c = false
  | [] => True
  end.
Proof.
  destruct toks as [|w toks]; intros H; [exact I|].
  inversion H as [|? ? Hw _]; subst.
  destruct toks as [|w2 toks'].
  - simpl. rewrite <- (app_nil_r w). apply wordy_head, Hw.
  - change (PyStr.join (PyStr.lit " ") (w :: w2 :: toks'))
      with (w ++ 32%N :: PyStr.join (PyStr.lit " ") (w2 :: toks')).
    apply wordy_head, Hw.
Qed.

Lemma join_last toks :
  Forall wordy toks ->
  match rev (PyStr.join (PyStr.lit " ") toks) with
  | c :: _ => PyStr.isspace c = false
  | [] => True
  end.
Proof.
  induction toks as [|w toks IH]; intros H; [exact I|].
  inversion H as [|? ? Hw Htoks]; subst.
  destruct toks as [|w2 toks'].
  - simpl. rewrite <- (app_nil_r (rev w)). apply wordy_head, wordy_rev, Hw.
  - change (PyStr.join (PyStr.lit " ") (w :: w2 :: toks'))
      with (w ++ 32%N :: PyStr.join (PyStr.lit " ") (w2 :: toks')).
    rewrite rev_app_distr. cbn [rev]. rewrite <- app_assoc.
    specialize (IH Htoks).
    destruct (rev (PyStr.join (PyStr.lit " ") (w2 :: toks'))) as [|c r] eqn:E.
    + exfalso. apply (f_equal (@length N)) in E. rewrite length_rev in E.
      inversion Htoks as [|? ? [Hne _] _]; subst.
      destruct w2; [congruence|]. destruct toks'; simpl in E; discriminate.
    + simpl. exact IH.
Qed.

Lemma strip_join toks :
  Forall wordy toks ->
  PyStr.strip (PyStr.join (PyStr.lit " ") toks) = PyStr.join (PyStr.lit " ") toks.
Proof.
  intros H. unfold PyStr.strip.
  rewrite (lstrip_head _ (join_head toks H)).
  rewrite (lstrip_head _ (join_last toks H)).
  apply rev_involutive.
Qed.

Lemma lower_join toks :
  PyStr.lower (PyStr.join (PyStr.lit " ") toks)
  = PyStr.join (PyStr.lit " ") (List.map PyStr.lower toks).
Proof.
  induction toks as [|w toks IH]; [reflexivity|].
  destruct toks as [|w2 toks']; [reflexivity|].
  change (PyStr.join (PyStr.lit " ") (w :: w2 :: toks'))
    with (w ++ 32%N :: PyStr.join (PyStr.lit " ") (w2 :: toks')).
  unfold PyStr.lower in *. rewrite List.map_app. cbn [List.map].
  rewrite IH. reflexivity.
Qed.

Ltac decide_cmp :=
  repeat match goal with
  | |- context [(?a <=? ?b)%N] =>
      first [ replace (a <=? b)%N with true by (symmetry; apply N.leb_le; lia)
            | replace (a <=? b)%N with false by (symmetry; apply N.leb_gt; lia) ]
  | |- context [(?a =? ?b)%N] =>
      first [ replace (a =? b)%N with true by (symmetry; apply N.eqb_eq; lia)
            | replace (a =? b)%N with false by (symmetry; apply N.eqb_neq; lia) ]
  end.

Lemma isspace_lower_char c : PyStr.isspace (PyStr.lower_char c) = PyStr.isspace c.
Proof.
  unfold PyStr.lower_char.
  destruct ((65 <=? c)%N && (c <=? 90)%N) eqn:E; [|reflexivity].
  apply andb_true_iff in E as [H1 H2].
  apply N.leb_le in H1, H2.
  unfold PyStr.isspace. decide_cmp. reflexivity.
Qed.

Lemma lower_char_settled c :
  (c < 128)%N -> c ≠ 38%N -> settled (PyStr.lower_char c).
Proof.
  intros H1 H2. unfold settled, PyStr.lower_char.
  destruct ((65 <=? c)%N && (c <=? 90)%N) eqn:E.
  - apply andb_true_iff in E as [H3 H4]. apply N.leb_le in H3, H4.
    repeat split; [lia | lia |].
    replace ((65 <=? c + 32)%N && (c + 32 <=? 90)%N) with false; [reflexivity|].
    symmetry. apply andb_false_iff. right. apply N.leb_gt. lia.
  - rewrite E. auto.
Qed.

Lemma wordy_lower w : wordy w -> wordy (PyStr.lower w).
Proof.
  intros [Hne Hw]. split.
  - destruct w; [congruence | discriminate].
  - unfold PyStr.lower. apply Forall_map.
    eapply List.Forall_impl; [|exact Hw]. simpl. intros c Hc.
    rewrite isspace_lower_char. exact Hc.
Qed.

(** The result of [normalize] is a join of lower-case ASCII words. *)
Lemma normalize_shape name :
  exists toks,
    normalize name = PyStr.join (PyStr.lit " ") toks
    ∧ Forall wordy toks ∧ Forall (Forall settled) toks.
Proof.
  destruct name as [|c0 name0]; [exists []; repeat split; constructor|].
  unfold normalize.
  set (name := c0 :: name0).
  set (r := PyStr.replace 38%N (PyStr.lit "and") (List.filter (fun c => (c <? 128)%N) name)).
  assert (Hr : Forall (fun c => (c < 128)%N ∧ c ≠ 38%N) r).
  { unfold r, PyStr.replace. apply List.Forall_forall. intros x Hx.
    apply in_flat_map in Hx as (c & Hc & Hx).
    apply filter_In in Hc as [_ Hc]. apply N.ltb_lt in Hc.
    destruct (N.eqb_spec c 38) as [->|Hne].
    - simpl in Hx. intuition (subst; (lia || discriminate)).
    - simpl in Hx. destruct Hx as [<-|[]]. split; assumption. }
  exists (List.map PyStr.lower (PyStr.split r)).
  pose proof (split_wordy r) as Hw.
  pose proof (split_chars _ r Hr) as Hc.
  rewrite strip_join by exact Hw. rewrite lower_join.
  split; [reflexivity|]. split.
  - apply Forall_map. eapply List.Forall_impl; [|exact Hw]. apply wordy_lower.
  - apply Forall_map. eapply List.Forall_impl; [|exact Hc].
    intros w Hwc. unfold PyStr.lower. apply Forall_map.
    eapply List.Forall_impl; [|exact Hwc]. simpl.
    intros c [H1 H2]. apply lower_char_settled; assumption.
Qed.

Lemma join_settled toks :
  Forall (Forall settled) toks ->
  Forall settled (PyStr.join (PyStr.lit " ") toks).
Proof.
  induction toks as [|w toks IH]; intros H; [constructor|].
  inversion H as [|? ? Hw Htoks]; subst.
  destruct toks as [|w2 toks']; [exact Hw|].
  change (PyStr.join (PyStr.lit " ") (w :: w2 :: toks'))
    with (w ++ 32%N :: PyStr.join (PyStr.lit " ") (w2 :: toks')).
  apply Forall_app. split; [exact Hw|]. constructor; [|apply IH, Htoks].
  split; [lia|]. split; [discriminate | reflexivity].
Qed.

(** On such a join [normalize] changes nothing. *)
Lemma normalize_fixed toks :
  Forall wordy toks -> Forall (Forall settled) toks ->
  normalize (PyStr.join (PyStr.lit " ") toks) = PyStr.join (PyStr.lit " ") toks.
Proof.
  intros Hw Hc. pose proof (join_settled toks Hc) as Hj.
  set (t := PyStr.join (PyStr.lit " ") toks) in *.
  destruct t as [|c0 t0] eqn:Et; [reflexivity|].
  unfold normalize. rewrite <- Et in *. clear Et c0 t0.
  assert (Hf : List.filter (fun c => (c <? 128)%N) t = t).
  { clear -Hj. induction t as [|c t IH]; [reflexivity|].
    inversion Hj as [|? ? [H1 _] Ht]; subst. simpl.
    apply N.ltb_lt in H1. rewrite H1, IH by exact Ht. reflexivity. }
  assert (Hrep : PyStr.replace 38%N (PyStr.lit "and") t = t).
  { clear -Hj. unfold PyStr.replace.
    induction t as [|c t IH]; [reflexivity|].
    inversion Hj as [|? ? (_ & H2 & _) Ht]; subst. simpl.
    apply N.eqb_neq in H2. rewrite H2, IH by exact Ht. reflexivity. }
  rewrite Hf, Hrep. unfold t at 1. rewrite split_join by exact Hw.
  fold t. unfold t at 1. rewrite strip_join by exact Hw. fold t.
  clear -Hj. unfold PyStr.lower.
  induction t as [|c t IH]; [reflexivity|].
  inversion Hj as [|? ? (_ & _ & H3) Ht]; subst. simpl.
  rewrite H3, IH by exact Ht. reflexivity.
Qed.

End NormalizeFacts.

(** C8. [normalize] is idempotent: for every string [n],
    [normalize (normalize n) = normalize n]. *)
Theorem normalize_idempotent (n : pystr) :
  normalize (normalize n) = normalize n.
Proof.
  destruct (normalize_shape n) as (toks & -> & Hw & Hc).
  apply normalize_fixed; assumption.
Qed.

Example cafe_deja_vu_text : PyStr.text "Café – Déjà Vu 🍕" = cafe_deja_vu.
Proof. vm_compute. reflexivity. Qed.

(** C4 as stated fails: on ["Café – Déjà Vu 🍕"] the result is not
    ["caf deja vu"]: the accented letters of "Déjà" are dropped like the one
    of "Café". *)
Lemma normalize_cafe_is_not_deja_vu :
  normalize cafe_deja_vu ≠ PyStr.lit "caf deja vu".
Proof. vm_compute. discriminate. Qed.

(** C4, as the program has it. [normalize] applied to
    ["Café – Déjà Vu 🍕"] returns exactly ["caf dj vu"]: every code point
    from 128 up is removed, none is transliterated, whitespace is collapsed
    and the text is lowercased. *)
Theorem normalize_cafe_deja_vu :
  normalize cafe_deja_vu = PyStr.lit "caf dj vu".
Proof. vm_compute. reflexivity. Qed.

(** * Tracker ingestion and the score *)

Lemma round_div_100_10 c : round_div (100 * c) 10 = (10 * c)%Z.
Proof.
  unfold round_div.
  replace (100 * c)%Z with (10 * c * 10)%Z by lia.
  rewrite Z.div_mul, Z.mod_mul by lia. reflexivity.
Qed.

Lemma score_of_exact k :
  (0 <= k <= 10)%Z -> App.score_of k = Some (10 * k)%Z.
Proof.
  intros H.
  assert (E : (k = 0 ∨ k = 1 ∨ k = 2 ∨ k = 3 ∨ k = 4 ∨ k = 5 ∨ k = 6
               ∨ k = 7 ∨ k = 8 ∨ k = 9 ∨ k = 10)%Z) by lia.
  repeat (destruct E as [-> | E]; [vm_compute; reflexivity|]).
  subst. vm_compute. reflexivity.
Qed.

Lemma filter_map_length {A B} (f : A -> B) (p : B -> bool) l :
  length (List.filter p (List.map f l)) = length (List.filter (fun x => p (f x)) l).
Proof.
  induction l as [|x l IH]; [reflexivity|]. simpl.
  destruct (p (f x)); simpl; rewrite IH; reflexivity.
Qed.

Lemma filter_length_le {A} (p : A -> bool) l :
  (length (List.filter p l) <= length l)%nat.
Proof.
  induction l as [|x l IH]; simpl; [lia|]. destruct (p x); simpl; lia.
Qed.

Lemma is_True_val_xl row c :
  is_True (val_xl row c)
  = match cell row c with XBool true => true | _ => false end.
Proof.
  unfold val_xl. destruct (cell row c) as [|[]|s|]; try reflexivity.
  destruct (PyStr.eqb _ _); reflexivity.
Qed.

Lemma xl_name_not_stored row out :
  xl_name row = inl out -> forall norm data, out ≠ Stored norm data.
Proof.
  unfold xl_name. intros H norm data ->.
  destruct (cell row 1) as [|[]|[|c s]|[]]; try discriminate.
  destruct (PyStr.eqb _ _); discriminate.
Qed.

Lemma xl_true_count_flags row :
  xl_true_count row 3 13
  = true_flags (List.map (val_xl row) (seq 3 10)).
Proof.
  unfold xl_true_count, true_flags. rewrite filter_map_length.
  f_equal. f_equal. apply filter_ext. intros c. symmetry. apply is_True_val_xl.
Qed.

Lemma true_flags_bound {A} (f : A -> flag) (l : list A) :
  (0 <= true_flags (List.map f l) <= Z.of_nat (length l))%Z.
Proof.
  unfold true_flags. pose proof (filter_length_le is_True (List.map f l)) as H.
  rewrite length_map in H. lia.
Qed.

Lemma csv_score row norm data :
  App.csv_body row = Stored norm data ->
  score data = (10 * true_flags (scored_flags data))%Z.
Proof.
  unfold App.csv_body.
  destruct (length row <? 12)%nat; [discriminate|].
  destruct (nth 0 row []) as [|c0 name0]; [discriminate|].
  destruct (PyStr.eqb _ _); [discriminate|].
  set (k := Z.of_nat (length (List.filter _ (seq 2 10)))).
  assert (Hk : k = true_flags (List.map (fun c => App.val (nth c row [])) (seq 2 10))).
  { unfold k, true_flags. rewrite filter_map_length. reflexivity. }
  rewrite score_of_exact
    by (rewrite Hk; apply (true_flags_bound (fun c => App.val (nth c row [])) (seq 2 10))).
  intros [= _ <-]. simpl score. rewrite Hk. reflexivity.
Qed.

Lemma app_xlsx_score row norm data :
  App.xlsx_body row = Stored norm data ->
  score data = (10 * true_flags (scored_flags data))%Z.
Proof.
  unfold App.xlsx_body.
  destruct (xl_name row) as [out|name] eqn:E;
    [intros ->; exfalso; eapply xl_name_not_stored; eauto|].
  rewrite xl_true_count_flags.
  rewrite score_of_exact by apply (true_flags_bound (val_xl row) (seq 3 10)).
  intros [= _ <-]. reflexivity.
Qed.

Lemma gen_xlsx_score row norm data :
  Gen.xlsx_body row = Stored norm data ->
  score data = (10 * true_flags (scored_flags data))%Z.
Proof.
  unfold Gen.xlsx_body.
  destruct (xl_name row) as [out|name] eqn:E;
    [intros ->; exfalso; eapply xl_name_not_stored; eauto|].
  rewrite xl_true_count_flags.
  intros [= _ <-]. simpl score. unfold scored_flags. simpl. lia.
Qed.

(** C1, as the program has it. For every tracker row that is ingested, by
    either loop of [app.py] or by the loop of [generate_scorecards.py], the
    stored score is [round(100 * t / 10)] where [t] counts the flags valued
    [True] among the Instagram, Facebook and Google link flags and the seven
    story flags. The tip-and-tag flag is not counted. *)
Theorem score_counts_ten_flags (r : tracker_row) (norm : pystr)
    (data : TrackerRecord) :
  ingest r = Stored norm data ->
  score data = round_div (100 * true_flags (scored_flags data)) 10.
Proof.
  intros H. rewrite round_div_100_10.
  destruct r as [row|row|row]; simpl in H.
  - eapply csv_score, H.
  - eapply app_xlsx_score, H.
  - eapply gen_xlsx_score, H.
Qed.

Lemma score_counts_ten_flags_witness :
  ingest (AppCsvRow tip_tag_only_row)
    = Stored (PyStr.lit "pachi pizza") tip_tag_only_record
  ∧ score tip_tag_only_record
    = round_div (100 * true_flags (scored_flags tip_tag_only_record)) 10.
Proof.
  split; [vm_compute; reflexivity|].
  apply (score_counts_ten_flags (AppCsvRow tip_tag_only_row)
           (PyStr.lit "pachi pizza")).
  vm_compute. reflexivity.
Defined.

(** C1 as stated fails: a row whose only [True] flag is tip-and-tag is
    ingested with score 0, while [round(100 * 1 / 10)] over the four link
    flags and the seven story flags is 10. *)
Lemma score_ignores_tip_tag :
  exists norm data,
    ingest (AppCsvRow tip_tag_only_row) = Stored norm data
    ∧ true_flags (all_flags data) = 1%Z
    ∧ score data = 0%Z
    ∧ score data ≠ round_div (100 * true_flags (all_flags data)) 10.
Proof.
  exists (PyStr.lit "pachi pizza"), tip_tag_only_record.
  repeat split; try (vm_compute; reflexivity).
  vm_compute. discriminate.
Qed.

(** * Week selection *)

(** The calendar of the model on the week of the scenario: Sunday
    22 February 2026 to Saturday 28 February 2026. *)
Example week_of_22_feb_2026 :
  List.map (fun d => day_of_week_sunday_start (DateTime.make 2026 2 d 12 0))
    [22; 23; 24; 25; 26; 27; 28]%Z
  = [0; 1; 2; 3; 4; 5; 6]%Z
  ∧ ord2ymd (ordinal sunday_22_feb) = (2026, 2, 22)%Z
  ∧ get_week_sunday (DateTime.make 2026 2 28 23 59) = Some sunday_22_feb.
Proof. repeat split; vm_compute; reflexivity. Qed.

Lemma dow_is_ordinal_mod_7 dt :
  day_of_week_sunday_start dt = (ordinal dt mod 7)%Z.
Proof.
  unfold day_of_week_sunday_start, weekday.
  rewrite Z.add_mod_idemp_l by lia.
  replace (ordinal dt + 6 + 1)%Z with (ordinal dt + 1 * 7)%Z by lia.
  apply Z.mod_add. lia.
Qed.

Lemma get_week_sunday_in_span s dt :
  sunday_midnight s -> in_span s dt -> get_week_sunday dt = Some s.
Proof.
  intros (Hrange & Hdow & Hmid) Hspan. unfold get_week_sunday, add_days.
  rewrite dow_is_ordinal_mod_7 in *. unfold in_span in Hspan.
  assert (E : (ordinal dt + - (ordinal dt mod 7) = ordinal s)%Z).
  { pose proof (Z.div_mod (ordinal dt) 7 ltac:(lia)).
    pose proof (Z.div_mod (ordinal s) 7 ltac:(lia)).
    pose proof (Z.mod_pos_bound (ordinal dt) 7 ltac:(lia)). lia. }
  rewrite E.
  replace ((0 <? ordinal s)%Z && (ordinal s <=? MAXORDINAL)%Z) with true
    by (symmetry; apply andb_true_iff; split; [apply Z.ltb_lt | apply Z.leb_le]; lia).
  simpl. rewrite <- Hmid. reflexivity.
Qed.

(** With a Sunday whose seventh day after is representable, the span is
    the window of [count_orders_by_day]. *)
Lemma in_span_window s week_end o :
  sunday_midnight s -> add_days s 7 = Some week_end ->
  in_span s (date o) ↔ in_window s week_end o = true.
Proof.
  intros (Hrange & _ & Hmid) Hend. unfold add_days in Hend.
  destruct ((0 <? ordinal s + 7)%Z && (ordinal s + 7 <=? MAXORDINAL)%Z);
    [|discriminate].
  injection Hend as <-. rewrite <- Hmid. clear Hmid.
  unfold in_window, in_span, DateTime.geb, DateTime.ltb. simpl.
  destruct (date o) as [od h m sec us]. simpl.
  rewrite andb_true_iff, negb_true_iff, !orb_false_iff, !orb_true_iff.
  rewrite !andb_false_iff, !andb_true_iff.
  rewrite Z.ltb_lt, Z.ltb_ge, Z.eqb_eq, Z.eqb_neq.
  assert (Hz : ∀ x, (x <? 0)%N = false) by (intros []; reflexivity).
  rewrite !Hz, !andb_false_r. simpl. split.
  - intros H. split; [split; [lia | right; reflexivity] | left; lia].
  - intros [[H1 _] [H2 | [_ H2]]]; [lia | discriminate].
Qed.

Lemma bump_same s n : bump [(s, n)] s = [(s, (n + 1)%Z)].
Proof.
  unfold bump. simpl. destruct (decide (s = s)); [reflexivity | congruence].
Qed.

Lemma count_weeks_same s orders : ∀ n,
  sunday_midnight s -> Forall (fun o => in_span s (date o)) orders ->
  count_weeks orders [(s, n)] = Some [(s, (n + Z.of_nat (length orders))%Z)].
Proof.
  induction orders as [|o orders IH]; intros n Hs Hall.
  - simpl. rewrite Z.add_0_r. reflexivity.
  - inversion Hall as [|? ? Ho Hrest]; subst. cbn [count_weeks].
    rewrite (get_week_sunday_in_span s (date o) Hs Ho). simpl.
    rewrite bump_same, IH by assumption. cbn [length].
    replace (n + Z.of_nat (S (length orders)))%Z
      with (n + 1 + Z.of_nat (length orders))%Z by lia.
    reflexivity.
Qed.

Lemma determine_week_in_span now s orders :
  sunday_midnight s -> orders ≠ [] ->
  Forall (fun o => in_span s (date o)) orders ->
  determine_week now orders
  = Some (s, strftime_B s, year s, ((day s - 1) / 7 + 1)%Z).
Proof.
  intros Hs Hne Hall. destruct orders as [|o orders]; [congruence|].
  inversion Hall as [|? ? Ho Hrest]; subst.
  unfold determine_week. cbn [count_weeks].
  rewrite (get_week_sunday_in_span s (date o) Hs Ho). simpl.
  change (bump [] s) with [(s, 1%Z)].
  rewrite count_weeks_same by assumption. reflexivity.
Qed.

(** C5, as the program has it. For every non-empty list of orders whose
    timestamps all fall on the seven days of the span that starts with the
    Sunday [s], a date of the calendar at midnight, [determine_week]
    returns [s] at midnight as the week start, with the month name and the
    year of [s] and the week of the month [(day - 1) // 7 + 1] of [s]; it
    returns the same on every reordering of the list, and whatever the
    clock shows. *)
Theorem determine_week_single_span (now : datetime) (s : datetime)
    (orders : list order) :
  sunday_midnight s -> orders ≠ [] ->
  Forall (fun o => in_span s (date o)) orders ->
  ∀ orders', Permutation orders orders' ->
    determine_week now orders'
    = Some (s, strftime_B s, year s, ((day s - 1) / 7 + 1)%Z).
Proof.
  intros Hs Hne Hall orders' Hperm.
  apply determine_week_in_span; [exact Hs | |].
  - intros ->. symmetry in Hperm. apply Permutation_nil in Hperm. congruence.
  - eapply Permutation_Forall; eassumption.
Qed.

Lemma determine_week_single_span_witness :
  sunday_midnight sunday_22_feb
  ∧ pachi_orders ≠ []
  ∧ Forall (fun o => in_span sunday_22_feb (date o)) pachi_orders
  ∧ determine_week monday_23_feb_9am (rev pachi_orders)
    = Some (sunday_22_feb, PyStr.lit "February", 2026%Z, 4%Z).
Proof.
  assert (H1 : sunday_midnight sunday_22_feb).
  { split; [|split]; vm_compute; try reflexivity. split; discriminate. }
  assert (H2 : pachi_orders ≠ []) by discriminate.
  assert (H3 : Forall (fun o => in_span sunday_22_feb (date o)) pachi_orders).
  { unfold pachi_orders.
    repeat (apply List.Forall_cons;
            [vm_compute; split; [discriminate | reflexivity]|]).
    apply List.Forall_nil. }
  split; [exact H1|]. split; [exact H2|]. split; [exact H3|].
  exact (determine_week_single_span monday_23_feb_9am sunday_22_feb
           pachi_orders H1 H2 H3 (rev pachi_orders)
           (Permutation_rev pachi_orders)).
Defined.

(** C5 as stated fails: the order of 3 January of year 1, a date of the
    calendar, lies in one Sunday-to-Saturday span, the one of the Sunday
    before 0001-01-01, and [determine_week] raises the [OverflowError] of
    [get_week_sunday] instead of returning that Sunday. *)
Lemma determine_week_first_span_fails :
  third_of_january_1 ≠ []
  ∧ Forall (fun o => (1 <= ordinal (date o) <= MAXORDINAL)%Z)
      third_of_january_1
  ∧ day_of_week_sunday_start sunday_before_year_1 = 0%Z
  ∧ at_midnight sunday_before_year_1 = sunday_before_year_1
  ∧ Forall (fun o => in_span sunday_before_year_1 (date o))
      third_of_january_1
  ∧ determine_week monday_23_feb_9am third_of_january_1 = None.
Proof.
  split; [discriminate|].
  split.
  { apply List.Forall_cons; [|apply List.Forall_nil].
    vm_compute. split; discriminate. }
  split; [reflexivity|]. split; [reflexivity|].
  split; [|vm_compute; reflexivity].
  apply List.Forall_cons; [|apply List.Forall_nil].
  vm_compute. split; [discriminate|reflexivity].
Qed.

(** C9 as stated fails: on the empty orders list two runs of
    [determine_week] return different results when the clock has moved to
    another week. *)
Lemma determine_week_reads_clock :
  determine_week monday_23_feb_9am [] ≠ determine_week tuesday_3_mar_9am [].
Proof. vm_compute. discriminate. Qed.


(** * Counting orders per restaurant and day *)

Lemma dow_range dt : (0 <= day_of_week_sunday_start dt < 7)%Z.
Proof. unfold day_of_week_sunday_start. apply Z.mod_pos_bound. lia. Qed.

Lemma seven_days_empty : seven_days ∅.
Proof. intros r days H. rewrite lookup_empty in H. discriminate. Qed.

Lemma count_at_empty r d : count_at ∅ r d = 0%Z.
Proof.
  unfold count_at. rewrite lookup_empty. simpl.
  destruct (Z.to_nat d) as [|[|[|[|[|[|[|n]]]]]]]; try reflexivity.
  destruct n; reflexivity.
Qed.

Lemma seven_days_increment counts sc dow :
  seven_days counts -> seven_days (increment counts sc dow).
Proof.
  intros H r days. unfold increment.
  destruct (decide (sc = r)) as [->|Hne].
  - rewrite lookup_insert_eq. intros [= <-]. rewrite length_insert.
    destruct (counts !! r) as [days0|] eqn:E; simpl; [eauto | reflexivity].
  - rewrite lookup_insert_ne by exact Hne. apply H.
Qed.

Lemma count_at_increment counts sc dow r d :
  seven_days counts -> (0 <= dow < 7)%Z -> (0 <= d < 7)%Z ->
  count_at (increment counts sc dow) r d
  = (count_at counts r d
     + if bool_decide (sc = r) && (dow =? d)%Z then 1 else 0)%Z.
Proof.
  intros Hc Hdow Hd. unfold count_at, increment.
  destruct (decide (sc = r)) as [->|Hne].
  - rewrite lookup_insert_eq, bool_decide_true by reflexivity.
    assert (Hlen : length (default (replicate 7 0%Z) (counts !! r)) = 7%nat).
    { destruct (counts !! r) eqn:E; simpl; [eauto | reflexivity]. }
    revert Hlen. generalize (default (replicate 7 0%Z) (counts !! r)).
    intros days Hlen. simpl.
    rewrite (nth_lookup (<[_ := _]> days)).
    destruct (Z.eqb_spec dow d) as [->|Hdd].
    + rewrite list_lookup_insert_eq by lia. reflexivity.
    + rewrite list_lookup_insert_ne by lia. rewrite <- nth_lookup. lia.
  - rewrite lookup_insert_ne, bool_decide_false by exact Hne. simpl. lia.
Qed.

Lemma dom_increment counts sc dow r :
  is_Some (increment counts sc dow !! r) ↔ sc = r ∨ is_Some (counts !! r).
Proof.
  unfold increment. rewrite lookup_insert_is_Some.
  destruct (decide (sc = r)); intuition.
Qed.

(** One turn of the loop either leaves the counts alone or increments the
    cell of one restaurant, which is not [""]. *)
Lemma count_order_cases name_map ws we counts o :
  (count_order name_map ws we counts o = counts
   ∧ ∀ r d, counted name_map ws we r d o = false)
  ∨ (∃ sc, sc ≠ []
       ∧ count_order name_map ws we counts o
         = increment counts sc (day_of_week_sunday_start (date o))
       ∧ ∀ r d, counted name_map ws we r d o
                = bool_decide (sc = r)
                  && (day_of_week_sunday_start (date o) =? d)%Z).
Proof.
  unfold count_order, counted, said_to_count, in_window.
  destruct (DateTime.ltb (date o) ws) eqn:E1.
  { left. split; [reflexivity|]. intros. unfold DateTime.geb. rewrite E1. reflexivity. }
  destruct (DateTime.geb (date o) we) eqn:E2.
  { left. split; [reflexivity|]. intros. unfold DateTime.geb in *. rewrite E1.
    destruct (DateTime.ltb (date o) we); [discriminate | reflexivity]. }
  assert (Hin : DateTime.geb (date o) ws && DateTime.ltb (date o) we = true).
  { unfold DateTime.geb in *. rewrite E1.
    destruct (DateTime.ltb (date o) we); [reflexivity | discriminate]. }
  simpl. rewrite Hin.
  destruct (name_map !! norm o) as [[|c sc]|] eqn:E.
  - left. split; [reflexivity|]. intros r d. simpl.
    destruct (decide (r = [])) as [->|Hne].
    + rewrite (bool_decide_false ([] ≠ [])) by congruence.
      rewrite andb_false_r. reflexivity.
    + rewrite (bool_decide_false (Some [] = Some r)) by congruence. reflexivity.
  - right. exists (c :: sc). split; [discriminate|]. split; [reflexivity|].
    intros r d. simpl.
    destruct (decide (c :: sc = r)) as [<-|Hne].
    + rewrite !bool_decide_true by (congruence || discriminate).
      simpl. rewrite andb_true_r. reflexivity.
    + rewrite (bool_decide_false (Some (c :: sc) = Some r)) by congruence.
      rewrite (bool_decide_false (c :: sc = r)) by exact Hne. reflexivity.
  - left. split; [reflexivity|]. intros r d.
    rewrite (bool_decide_false (None = Some r)) by discriminate. reflexivity.
Qed.

Lemma count_order_seven_days name_map ws we counts o :
  seven_days counts -> seven_days (count_order name_map ws we counts o).
Proof.
  intros H.
  destruct (count_order_cases name_map ws we counts o)
    as [[-> _] | (sc & _ & -> & _)]; [exact H|].
  apply seven_days_increment, H.
Qed.

Lemma fold_count_at name_map ws we orders : ∀ counts r d,
  seven_days counts -> (0 <= d < 7)%Z ->
  count_at (fold_left (count_order name_map ws we) orders counts) r d
  = (count_at counts r d + tally (counted name_map ws we r d) orders)%Z.
Proof.
  induction orders as [|o orders IH]; intros counts r d Hc Hd.
  - unfold tally. simpl. lia.
  - cbn [fold_left]. rewrite IH by (auto using count_order_seven_days).
    unfold tally. cbn [List.filter].
    destruct (count_order_cases name_map ws we counts o)
      as [[-> Hno] | (sc & _ & -> & Hyes)].
    + rewrite Hno. lia.
    + rewrite count_at_increment by (auto using dow_range).
      rewrite Hyes.
      destruct (bool_decide (sc = r) && _); cbn [length]; lia.
Qed.

Lemma fold_dom name_map ws we orders : ∀ counts r,
  is_Some (fold_left (count_order name_map ws we) orders counts !! r)
  ↔ is_Some (counts !! r)
    ∨ ∃ o, In o orders
           ∧ counted name_map ws we r (day_of_week_sunday_start (date o)) o = true.
Proof.
  induction orders as [|o orders IH]; intros counts r.
  - simpl. split; [auto | intros [H | (o & [] & _)]; exact H].
  - cbn [fold_left]. rewrite IH.
    destruct (count_order_cases name_map ws we counts o)
      as [[-> Hno] | (sc & _ & -> & Hyes)].
    + split.
      * intros [H | (o' & Hin & Ho')]; [left; exact H|].
        right. exists o'. split; [right; exact Hin | exact Ho'].
      * intros [H | (o' & [<- | Hin] & Ho')]; [left; exact H | |].
        -- rewrite Hno in Ho'. discriminate.
        -- right. exists o'. split; assumption.
    + rewrite dom_increment. split.
      * intros [[-> | H] | (o' & Hin & Ho')].
        -- right. exists o. split; [left; reflexivity|].
           rewrite Hyes, bool_decide_true, Z.eqb_refl by reflexivity. reflexivity.
        -- left. exact H.
        -- right. exists o'. split; [right; exact Hin | exact Ho'].
      * intros [H | (o' & [<- | Hin] & Ho')].
        -- left. right. exact H.
        -- rewrite Hyes in Ho'. apply andb_true_iff in Ho' as [Ho' _].
           apply bool_decide_eq_true in Ho'. left. left. exact Ho'.
        -- right. exists o'. split; assumption.
Qed.

(** C6, as the program has it. When [week_start + 7 days] is a
    representable datetime, [count_orders_by_day] returns counts in which,
    for every restaurant [r] and day [d] of the week, the cell [r], [d]
    (zero when [r] has no row) is the number of orders whose timestamp lies
    in [[week_start, week_start + 7 days)], whose key has the entry [r] in
    the name map, whose entry [r] is not the empty string, and whose
    Sunday-start day of the week is [d]; a restaurant has a row exactly when
    one order counts for it, and every row has seven days. No other order
    is counted. *)
Theorem count_orders_by_day_tallies (orders : list order)
    (name_map : gmap pystr pystr) (week_start week_end : datetime) :
  add_days week_start 7 = Some week_end ->
  ∃ counts,
    count_orders_by_day orders name_map week_start = Some counts
    ∧ (∀ r d, (0 <= d < 7)%Z ->
         count_at counts r d
         = tally (counted name_map week_start week_end r d) orders)
    ∧ (∀ r, is_Some (counts !! r)
            ↔ ∃ o, In o orders
                   ∧ counted name_map week_start week_end r
                       (day_of_week_sunday_start (date o)) o = true)
    ∧ seven_days counts.
Proof.
  intros Hend. unfold count_orders_by_day. rewrite Hend. simpl.
  eexists. split; [reflexivity|]. split; [|split].
  - intros r d Hd. rewrite fold_count_at by (auto using seven_days_empty).
    rewrite count_at_empty. lia.
  - intros r. rewrite fold_dom. rewrite lookup_empty.
    split; [intros [[x Hx] | H]; [discriminate | exact H] | auto].
  - assert (H : ∀ os c, seven_days c ->
              seven_days (fold_left (count_order name_map week_start week_end) os c)).
    { induction os as [|o os IH]; intros c Hc; [exact Hc|].
      apply IH, count_order_seven_days, Hc. }
    apply H, seven_days_empty.
Qed.

Lemma count_orders_by_day_tallies_witness :
  add_days sunday_22_feb 7 = Some sunday_1_mar
  ∧ ∃ counts,
      count_orders_by_day pachi_orders
        {[ PyStr.lit "pachi pizza and pasta" := PyStr.lit "pachi pizza" ]}
        sunday_22_feb = Some counts
      ∧ count_at counts (PyStr.lit "pachi pizza") 1 = 1%Z.
Proof.
  split; [vm_compute; reflexivity|].
  destruct (count_orders_by_day_tallies pachi_orders
              {[ PyStr.lit "pachi pizza and pasta" := PyStr.lit "pachi pizza" ]}
              sunday_22_feb sunday_1_mar) as (counts & H1 & H2 & _).
  - vm_compute. reflexivity.
  - exists counts. split; [exact H1|]. rewrite H2 by lia. vm_compute. reflexivity.
Defined.

(** C6 as stated fails: an order inside the window whose key has an entry
    in the name map is a "remaining" order, yet when the entry is the empty
    string it increments nothing: here the only such order leaves the
    counts empty, while C6 puts 1 in the cell of its mapped name and day. *)
Lemma empty_target_is_not_counted :
  ∃ counts,
    add_days sunday_22_feb 7 = Some sunday_1_mar
    ∧ count_orders_by_day [pizza_pachi_order] empty_target_map sunday_22_feb
      = Some counts
    ∧ said_to_count empty_target_map sunday_22_feb sunday_1_mar [] 1
        pizza_pachi_order = true
    ∧ count_at counts [] 1 = 0%Z
    ∧ count_at counts [] 1
      ≠ tally (said_to_count empty_target_map sunday_22_feb sunday_1_mar [] 1)
          [pizza_pachi_order].
Proof.
  exists ∅. repeat split; try (vm_compute; reflexivity).
  vm_compute. discriminate.
Qed.

Lemma count_order_empty_target name_map k ws we counts o :
  name_map !! k = Some [] ->
  count_order name_map ws we counts o
  = count_order (delete k name_map) ws we counts o.
Proof.
  intros Hk. unfold count_order.
  destruct (DateTime.ltb (date o) ws || DateTime.geb (date o) we); [reflexivity|].
  destruct (decide (k = norm o)) as [<-|Hne].
  - rewrite Hk, lookup_delete_eq. reflexivity.
  - rewrite lookup_delete_ne by exact Hne. reflexivity.
Qed.

(** C10. If the name map sends the key [k] to the empty string, then
    [count_orders_by_day] returns, for every orders list and week start,
    what it returns when [k] has no entry at all: no order whose key is [k]
    is counted. *)
Theorem empty_target_like_unmatched (orders : list order)
    (name_map : gmap pystr pystr) (week_start : datetime) (k : pystr) :
  name_map !! k = Some [] ->
  count_orders_by_day orders name_map week_start
  = count_orders_by_day orders (delete k name_map) week_start.
Proof.
  intros Hk. unfold count_orders_by_day.
  destruct (add_days week_start 7) as [week_end|]; [|reflexivity].
  simpl. f_equal. generalize (∅ : gmap pystr (list Z)).
  induction orders as [|o orders IH]; intros counts; [reflexivity|].
  cbn [fold_left]. rewrite <- (count_order_empty_target _ _ _ _ _ _ Hk).
  apply IH.
Qed.

Lemma empty_target_like_unmatched_witness :
  empty_target_map !! PyStr.lit "pizza pachi" = Some []
  ∧ count_orders_by_day pachi_orders empty_target_map sunday_22_feb
    = count_orders_by_day pachi_orders
        (delete (PyStr.lit "pizza pachi") empty_target_map) sunday_22_feb.
Proof.
  split; [vm_compute; reflexivity|].
  apply (empty_target_like_unmatched pachi_orders empty_target_map
           sunday_22_feb (PyStr.lit "pizza pachi")).
  vm_compute. reflexivity.
Defined.

(** * The order of the report *)

Section StringOrder.

Lemma ltb_irrefl a : PyStr.ltb a a = false.
Proof.
  induction a as [|x a IH]; [reflexivity|]. simpl.
  rewrite N.ltb_irrefl, N.eqb_refl, IH. reflexivity.
Qed.

Lemma ltb_trans a : ∀ b c,
  PyStr.ltb a b = true -> PyStr.ltb b c = true -> PyStr.ltb a c = true.
Proof.
  induction a as [|x a IH]; intros [|y b] [|z c]; simpl; try discriminate;
    try reflexivity.
  rewrite !orb_true_iff, !andb_true_iff, !N.ltb_lt, !N.eqb_eq.
  intros [H1 | [H1 H1']] [H2 | [H2 H2']]; subst;
    try (left; lia).
  right. split; [reflexivity | eauto].
Qed.

Lemma ltb_trichotomy a : ∀ b,
  PyStr.ltb a b = true ∨ a = b ∨ PyStr.ltb b a = true.
Proof.
  induction a as [|x a IH]; intros [|y b]; simpl; auto.
  destruct (N.lt_trichotomy x y) as [H | [-> | H]].
  - left. apply orb_true_iff. left. apply N.ltb_lt, H.
  - rewrite N.ltb_irrefl, N.eqb_refl. simpl.
    destruct (IH b) as [H | [-> | H]]; auto.
  - right. right. apply orb_true_iff. left. apply N.ltb_lt, H.
Qed.

Lemma leb_total a b : PyStr.leb a b = false -> PyStr.leb b a = true.
Proof.
  unfold PyStr.leb. rewrite negb_false_iff, negb_true_iff. intros H.
  destruct (PyStr.ltb a b) eqn:E; [|reflexivity].
  rewrite <- (ltb_irrefl a). symmetry. eapply ltb_trans; eassumption.
Qed.

Lemma leb_trans a b c :
  PyStr.leb a b = true -> PyStr.leb b c = true -> PyStr.leb a c = true.
Proof.
  unfold PyStr.leb. rewrite !negb_true_iff. intros H1 H2.
  destruct (PyStr.ltb c a) eqn:E; [|reflexivity].
  destruct (ltb_trichotomy a b) as [H | [-> | H]]; [| congruence | congruence].
  rewrite <- H2. symmetry. eapply ltb_trans; eassumption.
Qed.

End StringOrder.

Section SortedFacts.
Context {A : Type} (key : A -> Z * pystr).

Lemma key_leb_total x y : key_leb key x y = false -> key_leb key y x = true.
Proof.
  unfold key_leb.
  rewrite orb_false_iff, andb_false_iff, orb_true_iff, andb_true_iff.
  rewrite Z.ltb_ge, Z.ltb_lt, Z.eqb_neq, Z.eqb_eq.
  intros [H1 [H2 | H2]]; [left; lia|].
  destruct (Z.eq_dec (fst (key y)) (fst (key x))); [|left; lia].
  right. split; [assumption | apply leb_total, H2].
Qed.

Lemma key_leb_trans x y z :
  key_leb key x y = true -> key_leb key y z = true -> key_leb key x z = true.
Proof.
  unfold key_leb. rewrite !orb_true_iff, !andb_true_iff.
  rewrite !Z.ltb_lt, !Z.eqb_eq.
  intros [H1 | [H1 H1']] [H2 | [H2 H2']]; try (left; lia).
  right. split; [lia | eapply leb_trans; eassumption].
Qed.

Lemma insert_sorted_perm x l : Permutation (x :: l) (insert_sorted key x l).
Proof.
  induction l as [|y l IH]; simpl; [reflexivity|].
  destruct (key_leb key x y); [reflexivity|].
  rewrite perm_swap. apply perm_skip, IH.
Qed.

Lemma py_sorted_perm l : Permutation l (py_sorted key l).
Proof.
  induction l as [|x l IH]; simpl; [reflexivity|].
  rewrite <- insert_sorted_perm. apply perm_skip, IH.
Qed.

Lemma insert_sorted_sorted x l :
  StronglySorted (fun a b => key_leb key a b = true) l ->
  StronglySorted (fun a b => key_leb key a b = true) (insert_sorted key x l).
Proof.
  induction l as [|y l IH]; intros Hs; simpl.
  - constructor; constructor.
  - inversion Hs as [|? ? Hl Hy]; subst.
    destruct (key_leb key x y) eqn:E.
    + constructor; [exact Hs|]. constructor; [exact E|].
      eapply List.Forall_impl; [|exact Hy]. intros z. apply key_leb_trans, E.
    + constructor; [apply IH, Hl|].
      eapply Permutation_Forall; [apply insert_sorted_perm|].
      constructor; [apply key_leb_total, E | exact Hy].
Qed.

Lemma py_sorted_sorted l :
  StronglySorted (fun a b => key_leb key a b = true) (py_sorted key l).
Proof.
  induction l as [|x l IH]; simpl; [constructor|].
  apply insert_sorted_sorted, IH.
Qed.

End SortedFacts.

Lemma py_sorted_ext {A} (key1 key2 : A -> Z * pystr) l :
  (∀ x, key1 x = key2 x) -> py_sorted key1 l = py_sorted key2 l.
Proof.
  intros H. induction l as [|x l IH]; [reflexivity|]. simpl. rewrite IH.
  generalize (py_sorted key2 l). intros s.
  induction s as [|y s IHs]; [reflexivity|]. simpl.
  unfold key_leb. rewrite !H, IHs. reflexivity.
Qed.

Lemma StronglySorted_weaken {A} (R R' : A -> A -> Prop) l :
  (∀ x y, R x y -> R' x y) -> StronglySorted R l -> StronglySorted R' l.
Proof.
  intros H. induction 1 as [|x l Hs IH Hx]; constructor; [exact IH|].
  eapply List.Forall_impl; [|exact Hx]. intros y. apply H.
Qed.

Lemma py_sum_seven days :
  length days = 7%nat ->
  py_sum days
  = (nth 0 days 0 + nth 1 days 0 + nth 2 days 0 + nth 3 days 0
     + nth 4 days 0 + nth 5 days 0 + nth 6 days 0)%Z.
Proof.
  destruct days as [|a [|b [|c [|d [|e [|f [|g [|h days]]]]]]]];
    try discriminate.
  intros _. unfold py_sum. simpl. lia.
Qed.

Lemma zero_filled_sum counts r :
  seven_days counts ->
  py_sum (default (replicate 7 0%Z) (counts !! r))
  = (count_at counts r 0 + count_at counts r 1 + count_at counts r 2
     + count_at counts r 3 + count_at counts r 4 + count_at counts r 5
     + count_at counts r 6)%Z.
Proof.
  intros Hc. unfold count_at. apply py_sum_seven.
  destruct (counts !! r) eqn:E; simpl; [eauto | reflexivity].
Qed.

Lemma tally_nonneg p orders : (0 <= tally p orders)%Z.
Proof. unfold tally. lia. Qed.

Lemma tally_pos p orders o :
  In o orders -> p o = true -> (1 <= tally p orders)%Z.
Proof.
  intros Hin Hp. unfold tally.
  assert (H : In o (List.filter p orders)) by (apply filter_In; auto).
  destruct (List.filter p orders); [destruct H | simpl; lia].
Qed.

(** What [count_orders_by_day] returns: every cell is a tally, a
    restaurant has a row exactly when an order counts for it, and rows have
    seven days. *)
Lemma counts_shape orders name_map week_start counts :
  count_orders_by_day orders name_map week_start = Some counts ->
  ∃ week_end,
    add_days week_start 7 = Some week_end
    ∧ seven_days counts
    ∧ (∀ r d, (0 <= d < 7)%Z ->
         count_at counts r d
         = tally (counted name_map week_start week_end r d) orders)
    ∧ (∀ r, is_Some (counts !! r)
            ↔ ∃ o, In o orders
                   ∧ counted name_map week_start week_end r
                       (day_of_week_sunday_start (date o)) o = true).
Proof.
  unfold count_orders_by_day.
  destruct (add_days week_start 7) as [week_end|]; [|discriminate].
  simpl. intros [= <-]. exists week_end. split; [reflexivity|].
  split; [|split].
  - assert (H : ∀ os c, seven_days c ->
              seven_days (fold_left (count_order name_map week_start week_end) os c)).
    { induction os as [|o os IH]; intros c Hc; [exact Hc|].
      apply IH, count_order_seven_days, Hc. }
    apply H, seven_days_empty.
  - intros r d Hd. rewrite fold_count_at by (auto using seven_days_empty).
    rewrite count_at_empty. lia.
  - intros r. rewrite fold_dom. rewrite lookup_empty.
    split; [intros [[x Hx] | H]; [discriminate | exact H] | auto].
Qed.

(** On such counts, having a row, having a positive sum and being active
    are one and the same. *)
Lemma row_iff_active orders name_map week_start counts r :
  count_orders_by_day orders name_map week_start = Some counts ->
  (is_Some (counts !! r) ↔ active name_map counts r)
  ∧ (0 <= py_sum (default (replicate 7 0%Z) (counts !! r)))%Z.
Proof.
  intros H. destruct (counts_shape _ _ _ _ H) as (we & _ & H7 & Hcell & Hrow).
  pose proof (zero_filled_sum counts r H7) as Hsum.
  assert (Hnn : ∀ d, (0 <= d < 7)%Z -> (0 <= count_at counts r d)%Z).
  { intros d Hd. rewrite Hcell by exact Hd. apply tally_nonneg. }
  pose proof (Hnn 0%Z ltac:(lia)). pose proof (Hnn 1%Z ltac:(lia)).
  pose proof (Hnn 2%Z ltac:(lia)). pose proof (Hnn 3%Z ltac:(lia)).
  pose proof (Hnn 4%Z ltac:(lia)). pose proof (Hnn 5%Z ltac:(lia)).
  pose proof (Hnn 6%Z ltac:(lia)).
  split; [|lia]. split.
  - intros Hr. apply Hrow in Hr as (o & Hin & Ho).
    pose proof (dow_range (date o)) as Hd.
    pose proof (tally_pos _ _ _ Hin Ho) as Hpos.
    rewrite <- Hcell in Hpos by exact Hd. split.
    + exists (norm o). unfold counted, said_to_count in Ho.
      rewrite !andb_true_iff in Ho. destruct Ho as [[[_ Ho] _] _].
      apply bool_decide_eq_true in Ho. exact Ho.
    + rewrite Hsum.
      assert (E : ∀ d, (0 <= d < 7)%Z ->
                (d = 0 ∨ d = 1 ∨ d = 2 ∨ d = 3 ∨ d = 4 ∨ d = 5 ∨ d = 6)%Z)
        by (intros; lia).
      destruct (E _ Hd) as [E0|[E0|[E0|[E0|[E0|[E0|E0]]]]]];
        rewrite E0 in Hpos; lia.
  - intros [_ Hne]. destruct (counts !! r) eqn:E; [eauto|].
    exfalso. apply Hne. reflexivity.
Qed.

Lemma app_rank orders name_map week_start counts x :
  count_orders_by_day orders name_map week_start = Some counts ->
  (fst (App.sort_key name_map counts x) = 0%Z
   ∨ fst (App.sort_key name_map counts x) = 1%Z)
  ∧ (fst (App.sort_key name_map counts x) = 0%Z ↔ active name_map counts x.1).
Proof.
  intros H. destruct (row_iff_active _ _ _ _ x.1 H) as [Hrow Hnn].
  unfold App.sort_key. cbn [fst].
  set (b := bool_decide _ && _).
  assert (Hb : b = true ↔ active name_map counts x.1).
  { unfold b, active. rewrite andb_true_iff, bool_decide_eq_true, Z.ltb_lt.
    rewrite elem_of_map_img.
    destruct (counts !! x.1) as [days|] eqn:E; simpl in *; [|lia].
    split; intros [H1 H2]; (split; [exact H1 | lia]). }
  destruct b.
  - split; [left; reflexivity|].
    split; [intros _; apply Hb; reflexivity | reflexivity].
  - split; [right; reflexivity|].
    split; [discriminate | intros Ha; apply Hb in Ha; discriminate].
Qed.

Lemma gen_key_is_app_key orders name_map week_start counts x :
  count_orders_by_day orders name_map week_start = Some counts ->
  Gen.sort_key counts x = App.sort_key name_map counts x.
Proof.
  intros H. destruct (row_iff_active _ _ _ _ x.1 H) as [Hrow _].
  destruct (app_rank _ _ _ _ x H) as [Hr Hact].
  unfold Gen.sort_key. rewrite (surjective_pairing (App.sort_key _ _ _)).
  f_equal. rewrite <- Hrow, <- elem_of_dom in Hact.
  destruct (decide (x.1 ∈ dom counts)) as [Hin|Hout].
  - rewrite bool_decide_true by exact Hin. symmetry. apply Hact, Hin.
  - rewrite bool_decide_false by exact Hout.
    destruct Hr as [Hr|Hr]; [|congruence]. exfalso. apply Hout, Hact, Hr.
Qed.

(** C7. With the day counts that [count_orders_by_day] returns, the report
    sequence is a rearrangement of the tracker records in which every
    record whose key is a matched target of the name map and whose
    zero-filled day counts have a non-zero sum comes before every record
    that is not so, and within each of the two groups display names ascend
    in code-point order; [app.py] and [generate_scorecards.py] build the
    same sequence. *)
Theorem report_order (scorecard : list (pystr * TrackerRecord))
    (orders : list order) (name_map : gmap pystr pystr)
    (week_start : datetime) (daily_counts : gmap pystr (list Z)) :
  count_orders_by_day orders name_map week_start = Some daily_counts ->
  Permutation scorecard (App.sorted_restaurants scorecard name_map daily_counts)
  ∧ StronglySorted (report_le name_map daily_counts)
      (App.sorted_restaurants scorecard name_map daily_counts)
  ∧ Gen.sorted_restaurants scorecard daily_counts
    = App.sorted_restaurants scorecard name_map daily_counts.
Proof.
  intros H. unfold App.sorted_restaurants, Gen.sorted_restaurants.
  split; [apply py_sorted_perm|]. split.
  - eapply StronglySorted_weaken; [|apply py_sorted_sorted].
    intros x y Hxy. unfold key_leb in Hxy.
    destruct (app_rank _ _ _ _ x H) as [Hx Hax].
    destruct (app_rank _ _ _ _ y H) as [Hy Hay].
    apply orb_true_iff in Hxy as [Hlt | Heq].
    + apply Z.ltb_lt in Hlt. left. split; [apply Hax; lia|].
      intros Ha. apply Hay in Ha. lia.
    + apply andb_true_iff in Heq as [Heq Hle]. apply Z.eqb_eq in Heq.
      right. split; [|exact Hle]. rewrite <- Hax, <- Hay, Heq. reflexivity.
  - apply py_sorted_ext. intros x. eapply gen_key_is_app_key, H.
Qed.

Lemma report_order_witness :
  count_orders_by_day pachi_orders pasta_map sunday_22_feb = Some monday_count
  ∧ App.sorted_restaurants three_restaurants pasta_map monday_count
    = [(PyStr.lit "pachi pizza", plain_record "Pachi Pizza");
       (PyStr.lit "azul", plain_record "Azul");
       (PyStr.lit "ikura", plain_record "Ikura")]
  ∧ StronglySorted (report_le pasta_map monday_count)
      (App.sorted_restaurants three_restaurants pasta_map monday_count).
Proof.
  assert (H : count_orders_by_day pachi_orders pasta_map sunday_22_feb
              = Some monday_count) by (vm_compute; reflexivity).
  split; [exact H|]. split; [vm_compute; reflexivity|].
  exact (proj1 (proj2 (report_order three_restaurants pachi_orders pasta_map
                         sunday_22_feb monday_count H))).
Defined.

(** * The sequence matcher *)

Section LongestMatch.
Variables a b : pystr.
Variables alo ahi blo bhi : nat.

Lemma indices_nth x l : ∀ j0 j,
  In j (Difflib.indices x l j0) ->
  (j0 <= j)%nat ∧ nth (j - j0) l 0%N = x ∧ (j - j0 < length l)%nat.
Proof.
  induction l as [|y l IH]; intros j0 j; simpl; [tauto|].
  destruct (N.eqb_spec x y) as [->|Hne].
  - intros [<- | Hin].
    + rewrite Nat.sub_diag. split; [lia|]. split; [reflexivity | lia].
    + apply IH in Hin as (H1 & H2 & H3).
      replace (j - j0)%nat with (S (j - S j0)) by lia.
      split; [lia|]. split; [exact H2 | lia].
  - intros Hin. apply IH in Hin as (H1 & H2 & H3).
    replace (j - j0)%nat with (S (j - S j0)) by lia.
    split; [lia|]. split; [exact H2 | lia].
Qed.

Lemma b2j_nth x j : In j (Difflib.b2j b x) -> nth j b 0%N = x.
Proof.
  unfold Difflib.b2j. destruct (_ && _); [intros []|].
  intros Hin. apply indices_nth in Hin as (_ & H & _).
  rewrite Nat.sub_0_r in H. exact H.
Qed.

Lemma j2len_get_in m : ∀ j,
  (0 < Difflib.j2len_get m j)%nat -> In (j, Difflib.j2len_get m j) m.
Proof.
  induction m as [|[j' k] m IH]; intros j; simpl; [lia|].
  destruct (Nat.eqb_spec j j') as [->|Hne]; [left; reflexivity|].
  intros H. right. apply IH, H.
Qed.

Lemma scan_row_in i j2len : ∀ js newj2len best,
  (alo <= i)%nat -> (i < ahi)%nat ->
  (∀ j, In j js -> nth j b 0%N = nth i a 0%N) ->
  row_in a b alo blo bhi i j2len ->
  row_in a b alo blo bhi (S i) newj2len ->
  block_in a b alo ahi blo bhi best ->
  let '(newj2len', best') :=
    Difflib.scan_row i blo bhi j2len js newj2len best in
  row_in a b alo blo bhi (S i) newj2len'
  ∧ block_in a b alo ahi blo bhi best'.
Proof.
  intros js. induction js as [|j js IH]; intros newj2len best Hlo Hhi Hjs Hprev Hnew Hbest.
  - simpl. auto.
  - cbn [Difflib.scan_row].
    assert (Hjs' : ∀ j', In j' js -> nth j' b 0%N = nth i a 0%N)
      by (intros; apply Hjs; right; assumption).
    destruct (Nat.ltb_spec j blo) as [Hjlo|Hjlo]; [apply IH; assumption|].
    destruct (Nat.leb_spec bhi j) as [Hjhi|Hjhi]; [auto|].
    set (k0 := match j with O => O | S j1 => Difflib.j2len_get j2len j1 end).
    assert (Hk : (0 < S k0)%nat ∧ (alo + S k0 <= S i)%nat
                 ∧ (blo + S k0 <= j + 1)%nat ∧ (j < bhi)%nat
                 ∧ ∀ t, (t < S k0)%nat ->
                     nth (S i - S k0 + t) a 0%N = nth (j + 1 - S k0 + t) b 0%N).
    { destruct (Nat.eq_dec k0 0) as [E0|E0].
      - rewrite E0. repeat split; try lia. intros t Ht.
        replace t with 0%nat by lia.
        replace (S i - 1 + 0)%nat with i by lia.
        replace (j + 1 - 1 + 0)%nat with j by lia.
        symmetry. apply Hjs. left. reflexivity.
      - destruct j as [|j1]; [contradiction|]. unfold k0 in *.
        assert (Hin : In (j1, Difflib.j2len_get j2len j1) j2len)
          by (apply j2len_get_in; lia).
        unfold row_in in Hprev. rewrite List.Forall_forall in Hprev.
        apply Hprev in Hin as (H1 & H2 & H3 & H4 & H5).
        repeat split; try lia. intros t Ht.
        destruct (Nat.eq_dec t (Difflib.j2len_get j2len j1)) as [->|Hne].
        + replace (S i - S _ + _)%nat with i by lia.
          replace (S j1 + 1 - S _ + _)%nat with (S j1) by lia.
          symmetry. apply Hjs. left. reflexivity.
        + specialize (H5 t ltac:(lia)).
          replace (S i - S (Difflib.j2len_get j2len j1) + t)%nat
            with (i - Difflib.j2len_get j2len j1 + t)%nat by lia.
          replace (S j1 + 1 - S (Difflib.j2len_get j2len j1) + t)%nat
            with (j1 + 1 - Difflib.j2len_get j2len j1 + t)%nat by lia.
          exact H5. }
    apply IH; try assumption.
    + constructor; [exact Hk | exact Hnew].
    + destruct (Nat.ltb_spec (snd best) (S k0)); [|exact Hbest].
      destruct Hk as (H1 & H2 & H3 & H4 & H5).
      unfold block_in. repeat split; try lia. intros t Ht.
      replace (i + 1 - S k0 + t)%nat with (S i - S k0 + t)%nat by lia.
      apply H5, Ht.
Qed.

Lemma scan_rows_in n : ∀ i j2len best,
  (alo <= i)%nat -> (i + n <= ahi)%nat ->
  row_in a b alo blo bhi i j2len ->
  block_in a b alo ahi blo bhi best ->
  block_in a b alo ahi blo bhi
    (Difflib.scan_rows a b blo bhi (seq i n) j2len best).
Proof.
  induction n as [|n IH]; intros i j2len best Hlo Hhi Hrow Hbest; [exact Hbest|].
  cbn [seq Difflib.scan_rows].
  pose proof (scan_row_in i j2len (Difflib.b2j b (nth i a 0%N)) [] best
                Hlo ltac:(lia) (b2j_nth _) Hrow (List.Forall_nil _) Hbest) as H.
  destruct (Difflib.scan_row _ _ _ _ _ _ _) as [newj2len best'].
  destruct H as [Hrow' Hbest']. apply IH; [lia | lia | assumption | assumption].
Qed.

Lemma extend_left_in fuel : ∀ best,
  block_in a b alo ahi blo bhi best ->
  block_in a b alo ahi blo bhi (Difflib.extend_left fuel a b alo blo best).
Proof.
  induction fuel as [|fuel IH]; intros [[i j] k] H; [exact H|].
  cbn [Difflib.extend_left].
  destruct (_ && _) eqn:E; [|exact H].
  rewrite !andb_true_iff in E. destruct E as [[E1 E2] E3].
  apply Nat.ltb_lt in E1, E2. apply N.eqb_eq in E3.
  apply IH. destruct H as (H1 & H2 & H3 & H4 & H5).
  unfold block_in. repeat split; try lia. intros t Ht.
  destruct t as [|t].
  - rewrite !Nat.add_0_r. exact E3.
  - replace (i - 1 + S t)%nat with (i + t)%nat by lia.
    replace (j - 1 + S t)%nat with (j + t)%nat by lia.
    apply H5. lia.
Qed.

Lemma extend_right_in fuel : ∀ best,
  block_in a b alo ahi blo bhi best ->
  block_in a b alo ahi blo bhi (Difflib.extend_right fuel a b ahi bhi best).
Proof.
  induction fuel as [|fuel IH]; intros [[i j] k] H; [exact H|].
  cbn [Difflib.extend_right].
  destruct (_ && _) eqn:E; [|exact H].
  rewrite !andb_true_iff in E. destruct E as [[E1 E2] E3].
  apply Nat.ltb_lt in E1, E2. apply N.eqb_eq in E3.
  apply IH. destruct H as (H1 & H2 & H3 & H4 & H5).
  unfold block_in. repeat split; try lia. intros t Ht.
  destruct (Nat.eq_dec t k) as [->|Hne]; [exact E3 | apply H5; lia].
Qed.

(** [find_longest_match] returns a block of equal elements inside the two
    ranges. *)
Lemma find_longest_match_in :
  (alo <= ahi)%nat -> (blo <= bhi)%nat ->
  block_in a b alo ahi blo bhi (Difflib.find_longest_match a b alo ahi blo bhi).
Proof.
  intros Ha Hb. unfold Difflib.find_longest_match.
  apply extend_right_in, extend_left_in, scan_rows_in.
  - lia.
  - lia.
  - constructor.
  - unfold block_in. repeat split; try lia.
Qed.

End LongestMatch.

(** The fuel of the loops of the matcher is enough: more of it changes
    nothing. *)
Lemma extend_left_fuel a b alo blo : ∀ fuel1 fuel2 best,
  (fst (fst best) <= fuel1)%nat -> (fst (fst best) <= fuel2)%nat ->
  Difflib.extend_left fuel1 a b alo blo best
  = Difflib.extend_left fuel2 a b alo blo best.
Proof.
  induction fuel1 as [|fuel1 IH]; intros fuel2 [[i j] k] H1 H2; simpl in H1, H2.
  - assert (i = 0)%nat as -> by lia. destruct fuel2; [reflexivity|].
    simpl. destruct (alo <? 0)%nat eqn:E; [apply Nat.ltb_lt in E; lia|].
    reflexivity.
  - destruct fuel2 as [|fuel2].
    + assert (i = 0)%nat as -> by lia.
      simpl. destruct (alo <? 0)%nat eqn:E; [apply Nat.ltb_lt in E; lia|].
      reflexivity.
    + cbn [Difflib.extend_left].
      destruct (_ && _) eqn:E; [|reflexivity].
      apply IH; simpl; lia.
Qed.

Lemma extend_right_fuel a b ahi bhi : ∀ fuel1 fuel2 best,
  (ahi - (fst (fst best) + snd best) <= fuel1)%nat ->
  (ahi - (fst (fst best) + snd best) <= fuel2)%nat ->
  Difflib.extend_right fuel1 a b ahi bhi best
  = Difflib.extend_right fuel2 a b ahi bhi best.
Proof.
  assert (Hstop : ∀ fuel i j k, (ahi <= i + k)%nat ->
            Difflib.extend_right fuel a b ahi bhi (i, j, k) = (i, j, k)).
  { intros [|fuel] i j k H; [reflexivity|]. simpl.
    destruct (i + k <? ahi)%nat eqn:E; [apply Nat.ltb_lt in E; lia|].
    reflexivity. }
  induction fuel1 as [|fuel1 IH]; intros fuel2 [[i j] k] H1 H2; simpl in H1, H2.
  - rewrite !Hstop by lia. reflexivity.
  - destruct fuel2 as [|fuel2]; [rewrite !Hstop by lia; reflexivity|].
    cbn [Difflib.extend_right].
    destruct (_ && _) eqn:E; [|reflexivity].
    apply IH; simpl; lia.
Qed.

Lemma matches_fuel a b : ∀ fuel1 fuel2 alo ahi blo bhi,
  (alo <= ahi)%nat -> (blo <= bhi)%nat ->
  (ahi - alo < fuel1)%nat -> (ahi - alo < fuel2)%nat ->
  Difflib.matches fuel1 a b alo ahi blo bhi
  = Difflib.matches fuel2 a b alo ahi blo bhi.
Proof.
  induction fuel1 as [|fuel1 IH]; intros fuel2 alo ahi blo bhi Ha Hb H1 H2;
    [lia|].
  destruct fuel2 as [|fuel2]; [lia|].
  cbn [Difflib.matches].
  pose proof (find_longest_match_in a b alo ahi blo bhi Ha Hb) as Hblock.
  destruct (Difflib.find_longest_match a b alo ahi blo bhi) as [[i j] k].
  destruct (Nat.eqb_spec k 0) as [_|Hk]; [reflexivity|].
  destruct Hblock as (B1 & B2 & B3 & B4 & _).
  rewrite (IH fuel2 alo i blo j) by lia.
  rewrite (IH fuel2 (i + k)%nat ahi (j + k)%nat bhi) by lia.
  reflexivity.
Qed.

Lemma size_of_list (l : pystr) :
  size (list_to_set_disj l : gmultiset N) = length l.
Proof.
  induction l as [|x l IH]; [reflexivity|].
  rewrite list_to_set_disj_cons, gmultiset_size_disj_union,
    gmultiset_size_singleton, IH. reflexivity.
Qed.

Section MatchesBound.
Variables a b : pystr.

Lemma slice_length (l : pystr) lo hi :
  (lo <= hi)%nat -> (hi <= length l)%nat -> length (slice l lo hi) = (hi - lo)%nat.
Proof.
  intros H1 H2. unfold slice. rewrite length_take, length_drop. lia.
Qed.

Lemma slice_nth (l : pystr) lo hi t :
  (t < hi - lo)%nat -> nth t (slice l lo hi) 0%N = nth (lo + t) l 0%N.
Proof.
  intros Ht. unfold slice. rewrite nth_firstn.
  destruct (Nat.ltb_spec t (hi - lo)); [apply nth_skipn | lia].
Qed.

Lemma slice_split (l : pystr) lo mid hi :
  (lo <= mid)%nat -> (mid <= hi)%nat ->
  slice l lo hi = slice l lo mid ++ slice l mid hi.
Proof.
  intros H1 H2. unfold slice.
  replace (hi - lo)%nat with ((mid - lo) + (hi - mid))%nat by lia.
  rewrite <- take_take_drop, drop_drop.
  replace (lo + (mid - lo))%nat with mid by lia. reflexivity.
Qed.

Lemma slice_block alo ahi blo bhi i j k :
  block_in a b alo ahi blo bhi (i, j, k) ->
  (ahi <= length a)%nat -> (bhi <= length b)%nat ->
  slice a i (i + k) = slice b j (j + k).
Proof.
  intros (H1 & H2 & H3 & H4 & H5) Ha Hb.
  apply (nth_ext _ _ 0%N 0%N).
  - rewrite !slice_length by lia. lia.
  - intros t Ht. rewrite slice_length in Ht by lia.
    rewrite !slice_nth by lia. apply H5. lia.
Qed.

Lemma shared_blocks (u1 w u3 v1 v3 : pystr) :
  (shared u1 v1 + length w + shared u3 v3
   <= shared (u1 ++ w ++ u3) (v1 ++ w ++ v3))%nat.
Proof.
  unfold shared. rewrite !list_to_set_disj_app.
  rewrite <- (size_of_list w).
  rewrite <- !gmultiset_size_disj_union.
  apply gmultiset_subseteq_size. multiset_solver.
Qed.

Lemma shared_nonneg_piece (c : bool) (m s : nat) :
  (c = true -> (m <= s)%nat) -> ((if c then m else 0) <= s)%nat.
Proof. destruct c; intros H; [apply H; reflexivity | lia]. Qed.

(** The blocks that [get_matching_blocks] adds up pair elements of [a]
    with equal elements of [b], each at most once. *)
Lemma matches_le_shared fuel : ∀ alo ahi blo bhi,
  (alo <= ahi)%nat -> (ahi <= length a)%nat ->
  (blo <= bhi)%nat -> (bhi <= length b)%nat ->
  (Difflib.matches fuel a b alo ahi blo bhi
   <= shared (slice a alo ahi) (slice b blo bhi))%nat.
Proof.
  induction fuel as [|fuel IH]; intros alo ahi blo bhi Ha1 Ha2 Hb1 Hb2;
    [simpl; lia|].
  cbn [Difflib.matches].
  pose proof (find_longest_match_in a b alo ahi blo bhi Ha1 Hb1) as Hblock.
  destruct (Difflib.find_longest_match a b alo ahi blo bhi) as [[i j] k].
  destruct (Nat.eqb_spec k 0) as [_|Hk]; [lia|].
  pose proof (slice_block _ _ _ _ _ _ _ Hblock Ha2 Hb2) as Hw.
  destruct Hblock as (H1 & H2 & H3 & H4 & _).
  rewrite (slice_split a alo i ahi), (slice_split a i (i + k) ahi) by lia.
  rewrite (slice_split b blo j bhi), (slice_split b j (j + k) bhi) by lia.
  rewrite Hw.
  etransitivity; [|apply shared_blocks].
  rewrite (slice_length b j (j + k)) by lia.
  assert (L : ((if (alo <? i)%nat && (blo <? j)%nat
                then Difflib.matches fuel a b alo i blo j else 0)
               <= shared (slice a alo i) (slice b blo j))%nat).
  { apply shared_nonneg_piece. intros _. apply IH; lia. }
  assert (R : ((if (i + k <? ahi)%nat && (j + k <? bhi)%nat
                then Difflib.matches fuel a b (i + k) ahi (j + k) bhi else 0)
               <= shared (slice a (i + k) ahi) (slice b (j + k) bhi))%nat).
  { apply shared_nonneg_piece. intros _. apply IH; lia. }
  lia.
Qed.

End MatchesBound.

Lemma slice_all (l : pystr) : slice l 0 (length l) = l.
Proof. unfold slice. rewrite Nat.sub_0_r, drop_0. apply firstn_all. Qed.

Lemma shared_le_length u v :
  (shared u v <= Nat.min (length u) (length v))%nat.
Proof.
  unfold shared.
  rewrite <- (size_of_list u).
  rewrite <- (size_of_list v).
  apply Nat.min_glb; apply gmultiset_subseteq_size; multiset_solver.
Qed.

Lemma indices_count x (l : pystr) : ∀ j0,
  length (Difflib.indices x l j0)
  = multiplicity x (list_to_set_disj l : gmultiset N).
Proof.
  induction l as [|y l IH]; intros j0; simpl.
  - rewrite multiplicity_empty. reflexivity.
  - rewrite multiplicity_disj_union.
    destruct (N.eqb_spec x y) as [->|Hne].
    + rewrite multiplicity_singleton_eq. simpl. rewrite IH. reflexivity.
    + rewrite multiplicity_singleton_ne by exact Hne. apply IH.
Qed.

(** [quick_ratio] counts the elements shared as multisets: [avail] holds,
    for the elements seen, how many of [b] are left (below zero when [b]
    ran out), and [left] is the multiset of what is left. *)
Lemma quick_matches_shared (b : pystr) (a : pystr) :
  ∀ (avail : gmap N Z) (left : gmultiset N),
    (∀ x, multiplicity x left
          = Z.to_nat (match avail !! x with
                      | Some n => n
                      | None => Z.of_nat (length (Difflib.indices x b 0))
                      end)) ->
    Difflib.quick_matches a b avail
    = size ((list_to_set_disj a : gmultiset N) ∩ left).
Proof.
  induction a as [|elt a IH]; intros avail left Hleft.
  - simpl. rewrite (left_absorb_L ∅ (∩)). reflexivity.
  - cbn [Difflib.quick_matches].
    set (numb := match avail !! elt with
                 | Some n => n
                 | None => Z.of_nat (length (Difflib.indices elt b 0))
                 end).
    assert (Helt : multiplicity elt left = Z.to_nat numb) by apply Hleft.
    rewrite (IH _ (left ∖ {[+ elt +]})).
    + rewrite list_to_set_disj_cons.
      destruct (Z.ltb_spec 0 numb) as [Hpos|Hneg].
      * replace (({[+ elt +]} ⊎ list_to_set_disj a) ∩ left)
          with ({[+ elt +]} ⊎ ((list_to_set_disj a : gmultiset N)
                               ∩ (left ∖ {[+ elt +]}))).
        { rewrite gmultiset_size_disj_union, gmultiset_size_singleton.
          reflexivity. }
        apply gmultiset_eq. intros x.
        rewrite !multiplicity_disj_union, !multiplicity_intersection,
          multiplicity_disj_union, multiplicity_difference.
        destruct (decide (x = elt)) as [->|Hne].
        -- rewrite !multiplicity_singleton_eq. lia.
        -- rewrite !multiplicity_singleton_ne by exact Hne. lia.
      * simpl. f_equal. apply gmultiset_eq. intros x.
        rewrite !multiplicity_intersection,
          multiplicity_disj_union, multiplicity_difference.
        destruct (decide (x = elt)) as [->|Hne].
        -- rewrite !multiplicity_singleton_eq. lia.
        -- rewrite !multiplicity_singleton_ne by exact Hne. lia.
    + intros x. rewrite multiplicity_difference.
      destruct (decide (x = elt)) as [->|Hne].
      * rewrite lookup_insert_eq, multiplicity_singleton_eq. lia.
      * rewrite lookup_insert_ne by congruence.
        rewrite multiplicity_singleton_ne by exact Hne.
        rewrite Hleft. lia.
Qed.

Lemma quick_matches_is_shared a b :
  Difflib.quick_matches a b ∅ = shared a b.
Proof.
  apply quick_matches_shared. intros x.
  rewrite lookup_empty, Nat2Z.id. symmetry. apply indices_count.
Qed.

Lemma calculate_ratio_mono m1 m2 len :
  (m1 <= m2)%nat ->
  (Difflib.calculate_ratio m1 len <= Difflib.calculate_ratio m2 len)%Q.
Proof.
  intros H. unfold Difflib.calculate_ratio.
  destruct len as [|len]; [apply Qle_refl|].
  unfold Qle. simpl Qnum. simpl Qden. apply Z.mul_le_mono_nonneg_r; lia.
Qed.

(** The two quick ratios are upper bounds of the ratio. *)
Lemma ratio_le_quick_ratio a b :
  (Difflib.ratio a b <= Difflib.quick_ratio a b)%Q.
Proof.
  unfold Difflib.ratio, Difflib.quick_ratio. apply calculate_ratio_mono.
  rewrite quick_matches_is_shared.
  etransitivity;
    [apply (matches_le_shared a b _ 0 (length a) 0 (length b)); lia|].
  rewrite !slice_all. reflexivity.
Qed.

Lemma quick_ratio_le_real a b :
  (Difflib.quick_ratio a b <= Difflib.real_quick_ratio a b)%Q.
Proof.
  unfold Difflib.quick_ratio, Difflib.real_quick_ratio.
  apply calculate_ratio_mono. rewrite quick_matches_is_shared.
  apply shared_le_length.
Qed.

(** So the three tests of [get_close_matches] come to one. *)
Lemma close_enough cutoff x word :
  Qle_bool cutoff (Difflib.real_quick_ratio x word)
  && Qle_bool cutoff (Difflib.quick_ratio x word)
  && Qle_bool cutoff (Difflib.ratio x word)
  = Qle_bool cutoff (Difflib.ratio x word).
Proof.
  destruct (Qle_bool cutoff (Difflib.ratio x word)) eqn:E;
    [|apply andb_false_r].
  apply Qle_bool_iff in E.
  assert (E2 : (cutoff <= Difflib.quick_ratio x word)%Q)
    by (eapply Qle_trans; [exact E | apply ratio_le_quick_ratio]).
  assert (E3 : (cutoff <= Difflib.real_quick_ratio x word)%Q)
    by (eapply Qle_trans; [exact E2 | apply quick_ratio_le_real]).
  apply Qle_bool_iff in E2, E3. rewrite E2, E3. reflexivity.
Qed.

Section ScoredOrder.

Lemma scored_gtb_true p q :
  Difflib.scored_gtb p q = true
  ↔ (fst q < fst p)%Q ∨ (fst p == fst q)%Q ∧ PyStr.ltb (snd q) (snd p) = true.
Proof.
  unfold Difflib.scored_gtb.
  destruct (Qeq_bool (fst p) (fst q)) eqn:E.
  - apply Qeq_bool_iff in E. split; [auto|].
    intros [H | [_ H]]; [lra | exact H].
  - apply Qeq_bool_neq in E. rewrite negb_true_iff.
    destruct (Qle_bool (fst p) (fst q)) eqn:E2.
    + apply Qle_bool_iff in E2. split; [discriminate|].
      intros [H | [H _]]; [lra | contradiction].
    + split; [|reflexivity]. intros _. left.
      apply Qnot_le_lt. intros H. apply Qle_bool_iff in H. congruence.
Qed.

Lemma scored_gtb_false p q :
  Difflib.scored_gtb p q = false
  ↔ (fst p < fst q)%Q ∨ (fst p == fst q)%Q ∧ PyStr.ltb (snd q) (snd p) = false.
Proof.
  rewrite <- not_true_iff_false, scored_gtb_true. split.
  - intros H. destruct (Q_dec (fst p) (fst q)) as [[Hlt | Hgt] | Heq].
    + left. exact Hlt.
    + exfalso. apply H. left. exact Hgt.
    + right. split; [exact Heq|].
      destruct (PyStr.ltb (snd q) (snd p)) eqn:E; [|reflexivity].
      exfalso. apply H. right. split; [exact Heq | reflexivity].
  - intros [H | [H1 H2]] [H' | [H1' H2']]; try lra. congruence.
Qed.

Lemma scored_gtb_irrefl p : Difflib.scored_gtb p p = false.
Proof.
  apply scored_gtb_false. right. split; [reflexivity | apply ltb_irrefl].
Qed.

Lemma scored_gtb_trans p q r :
  Difflib.scored_gtb p q = true -> Difflib.scored_gtb q r = true ->
  Difflib.scored_gtb p r = true.
Proof.
  rewrite !scored_gtb_true.
  intros [H1 | [H1 H1']] [H2 | [H2 H2']]; try (left; lra).
  right. split; [lra | eapply ltb_trans; eassumption].
Qed.

Lemma scored_le_trans p q r :
  Difflib.scored_gtb p q = false -> Difflib.scored_gtb q r = false ->
  Difflib.scored_gtb p r = false.
Proof.
  rewrite !scored_gtb_false.
  intros [H1 | [H1 H1']] [H2 | [H2 H2']]; try (left; lra).
  right. split; [lra|].
  pose proof (leb_trans (snd p) (snd q) (snd r)) as H.
  unfold PyStr.leb in H. rewrite H1', H2' in H.
  specialize (H eq_refl eq_refl). apply negb_true_iff in H. exact H.
Qed.

Lemma scored_antisym p q :
  Difflib.scored_gtb p q = false -> Difflib.scored_gtb q p = false ->
  snd p = snd q.
Proof.
  rewrite !scored_gtb_false.
  intros [H1 | [H1 H1']] [H2 | [H2 H2']]; try lra.
  destruct (ltb_trichotomy (snd p) (snd q)) as [H | [H | H]]; congruence.
Qed.

Lemma max_from_spec rest : ∀ best,
  In (Difflib.max_from best rest) (best :: rest)
  ∧ ∀ y, In y (best :: rest) ->
      Difflib.scored_gtb y (Difflib.max_from best rest) = false.
Proof.
  induction rest as [|item rest IH]; intros best.
  - simpl. split; [left; reflexivity|].
    intros y [<- | []]. apply scored_gtb_irrefl.
  - cbn [Difflib.max_from].
    destruct (Difflib.scored_gtb item best) eqn:E.
    + destruct (IH item) as [Hin Hmax]. split; [right; exact Hin|].
      intros y [<- | Hy]; [|apply Hmax, Hy].
      destruct (Difflib.scored_gtb best (Difflib.max_from item rest)) eqn:E2;
        [|reflexivity].
      rewrite <- (Hmax item (or_introl eq_refl)). symmetry.
      eapply scored_gtb_trans; eassumption.
    + destruct (IH best) as [Hin Hmax]. split.
      * destruct Hin as [<- | Hin]; [left; reflexivity | right; right; exact Hin].
      * intros y [<- | [<- | Hy]].
        -- apply Hmax. left. reflexivity.
        -- eapply scored_le_trans; [exact E|]. apply Hmax. left. reflexivity.
        -- apply Hmax. right. exact Hy.
Qed.

End ScoredOrder.

(** * Name reconciliation *)

(** [needle in hay] holds exactly when [needle] is a contiguous part of
    [hay]. *)
Lemma prefixb_spec p : ∀ s,
  PyStr.prefixb p s = true ↔ ∃ post, s = p ++ post.
Proof.
  induction p as [|x p IH]; intros s; simpl.
  - split; [eauto | reflexivity].
  - destruct s as [|y s]; [split; [discriminate | intros [post H]; discriminate]|].
    rewrite andb_true_iff, N.eqb_eq, IH. split.
    + intros [-> [post ->]]. eauto.
    + intros [post [= -> ->]]. eauto.
Qed.

Lemma contains_spec hay needle :
  PyStr.contains hay needle = true ↔ ∃ pre post, hay = pre ++ needle ++ post.
Proof.
  induction hay as [|c hay IH]; simpl.
  - rewrite orb_false_r, prefixb_spec. split.
    + intros [post H]. exists [], post. exact H.
    + intros (pre & post & H). destruct pre; [eauto|discriminate].
  - rewrite orb_true_iff, prefixb_spec, IH. split.
    + intros [[post H] | (pre & post & ->)].
      * exists [], post. exact H.
      * exists (c :: pre), post. reflexivity.
    + intros (pre & post & H). destruct pre as [|c' pre].
      * left. eauto.
      * injection H as -> ->. right. eauto.
Qed.

(** The loop of [build_name_map] stores, for each order-side name, what its
    body finds for that name, and nothing else. *)
Lemma name_map_loop (body : pystr -> option pystr) (order_norms : list pystr) :
  ∀ (mapping : gmap pystr pystr) (k : pystr),
    fold_left (fun mapping csv_n =>
      match body csv_n with
      | Some sc_n => <[csv_n := sc_n]> mapping
      | None => mapping
      end) order_norms mapping !! k
    = match (if bool_decide (k ∈ order_norms) then body k else None) with
      | Some sc_n => Some sc_n
      | None => mapping !! k
      end.
Proof.
  induction order_norms as [|n order_norms IH]; intros mapping k.
  - reflexivity.
  - cbn [fold_left]. rewrite IH.
    destruct (decide (k ∈ order_norms)) as [Hin|Hout].
    + rewrite !bool_decide_true by (try right; assumption).
      destruct (body k) as [sc_k|] eqn:Ek; [reflexivity|].
      destruct (decide (k = n)) as [->|Hne]; [rewrite Ek; reflexivity|].
      destruct (body n) as [sc_n|]; [apply lookup_insert_ne; congruence | reflexivity].
    + rewrite (bool_decide_false _ Hout).
      destruct (decide (k = n)) as [->|Hne].
      * rewrite bool_decide_true by left.
        destruct (body n) as [sc_n|]; [apply lookup_insert_eq | reflexivity].
      * rewrite bool_decide_false by (intros [?|?]%elem_of_cons; contradiction).
        destruct (body n) as [sc_n|]; [apply lookup_insert_ne; congruence | reflexivity].
Qed.

Lemma app_name_map_lookup order_norms scorecard_norms k :
  App.build_name_map order_norms scorecard_norms !! k
  = if bool_decide (k ∈ order_norms) then App.match_name scorecard_norms k
    else None.
Proof.
  unfold App.build_name_map. rewrite name_map_loop, lookup_empty.
  destruct (bool_decide _); [destruct (App.match_name _ _)|]; reflexivity.
Qed.

Lemma gen_name_map_lookup order_norms scorecard_norms k :
  Gen.build_name_map order_norms scorecard_norms !! k
  = if bool_decide (k ∈ order_norms) then Gen.match_name scorecard_norms k
    else None.
Proof.
  unfold Gen.build_name_map. rewrite name_map_loop, lookup_empty.
  destruct (bool_decide _); [destruct (Gen.match_name _ _)|]; reflexivity.
Qed.

Lemma flat_map_filter {A B} (p : A -> bool) (f : A -> B) l :
  flat_map (fun x => if p x then [f x] else []) l = List.map f (List.filter p l).
Proof.
  induction l as [|x l IH]; [reflexivity|]. simpl.
  destruct (p x); simpl; rewrite IH; reflexivity.
Qed.

Lemma get_close_matches_filter word possibilities cutoff :
  Difflib.get_close_matches word possibilities cutoff
  = match List.filter (fun x => Qle_bool cutoff (Difflib.ratio x word))
            possibilities with
    | [] => []
    | x :: rest =>
        [snd (Difflib.max_from (Difflib.ratio x word, x)
                (List.map (fun y => (Difflib.ratio y word, y)) rest))]
    end.
Proof.
  unfold Difflib.get_close_matches.
  rewrite (flat_map_ext _ (fun x =>
             if Qle_bool cutoff (Difflib.ratio x word)
             then [(Difflib.ratio x word, x)] else []))
    by (intros x; rewrite close_enough; reflexivity).
  rewrite (flat_map_filter _ (fun y => (Difflib.ratio y word, y))).
  destruct (List.filter _ possibilities); reflexivity.
Qed.

Lemma not_better_scored word y x :
  not_better word y x
  ↔ Difflib.scored_gtb (Difflib.ratio y word, y) (Difflib.ratio x word, x)
    = false.
Proof. rewrite scored_gtb_false. reflexivity. Qed.

(** [get_close_matches] with [n=1] returns the best approximate match when
    its ratio reaches the cutoff, and nothing otherwise. *)
Lemma get_close_matches_best word possibilities cutoff x :
  (∃ tl, Difflib.get_close_matches word possibilities cutoff = x :: tl)
  ↔ best_match possibilities word x ∧ (cutoff <= Difflib.ratio x word)%Q.
Proof.
  rewrite get_close_matches_filter.
  set (good := fun x => Qle_bool cutoff (Difflib.ratio x word)).
  set (scored := fun y : pystr => (Difflib.ratio y word, y)).
  assert (Hgood : ∀ y, In y (List.filter good possibilities)
                  ↔ y ∈ possibilities ∧ (cutoff <= Difflib.ratio y word)%Q).
  { intros y. rewrite filter_In, list_elem_of_In. unfold good.
    rewrite Qle_bool_iff. reflexivity. }
  destruct (List.filter good possibilities) as [|x0 rest] eqn:EF.
  - split; [intros [tl H]; discriminate|].
    intros [[Hin _] Hc]. exfalso.
    apply (proj2 (Hgood x)). split; assumption.
  - destruct (max_from_spec (List.map scored rest) (scored x0)) as [Hin Hmax].
    change (scored x0 :: List.map scored rest)
      with (List.map scored (x0 :: rest)) in Hin, Hmax.
    apply in_map_iff in Hin as (m & Em & Hm).
    fold (scored x0). rewrite <- Em in *. cbn [snd scored] in *.
    pose proof (proj1 (Hgood m) Hm) as [Hm1 Hm2].
    assert (Hbest : best_match possibilities word m).
    { split; [exact Hm1|]. intros y Hy. apply not_better_scored.
      destruct (Qlt_le_dec (Difflib.ratio y word) cutoff) as [Hlt|Hge].
      - apply scored_gtb_false. left. simpl. lra.
      - apply (Hmax (scored y)). apply in_map. apply Hgood. split; assumption. }
    split.
    + intros [tl [= <- _]]. split; assumption.
    + intros [[Hx1 Hx2] Hc]. exists []. f_equal.
      apply (scored_antisym (scored m) (scored x)).
      * apply not_better_scored, Hx2, Hm1.
      * apply (Hmax (scored x)). apply in_map. apply Hgood. split; assumption.
Qed.

Lemma find_first_related scorecard_norms csv_n sc_n :
  List.find (related csv_n) scorecard_norms = Some sc_n
  ↔ first_related scorecard_norms csv_n sc_n.
Proof.
  unfold first_related.
  induction scorecard_norms as [|t l IH]; simpl.
  - split; [discriminate|]. intros (before & after & H & _).
    destruct before; discriminate.
  - destruct (related csv_n t) eqn:E.
    + split.
      * intros [= <-]. exists [], l. repeat split; [exact E | constructor].
      * intros (before & after & H & Hs & Hb).
        destruct before as [|t' before]; [injection H as -> _; reflexivity|].
        injection H as -> _. inversion Hb; congruence.
    + rewrite IH. split.
      * intros (before & after & -> & Hs & Hb).
        exists (t :: before), after. repeat split; [exact Hs|].
        constructor; assumption.
      * intros (before & after & H & Hs & Hb).
        destruct before as [|t' before]; [injection H as -> _; congruence|].
        injection H as -> ->. inversion Hb; subst.
        exists before, after. repeat split; assumption.
Qed.

Lemma find_none_related scorecard_norms csv_n :
  (∀ t, t ∈ scorecard_norms -> related csv_n t = false) ->
  List.find (related csv_n) scorecard_norms = None.
Proof.
  intros H. destruct (List.find _ _) as [s|] eqn:E; [|reflexivity].
  apply find_some in E as [Hin Hs]. apply list_elem_of_In in Hin.
  rewrite H in Hs by exact Hin. discriminate.
Qed.

(** The rules of [app.py] for one order-side key. *)
Lemma app_match_rules scorecard_norms csv_n :
  (csv_n ∈ scorecard_norms ->
     App.match_name scorecard_norms csv_n = Some csv_n)
  ∧ (csv_n ∉ scorecard_norms ->
     (∃ t, t ∈ scorecard_norms ∧ related csv_n t = true) ->
     ∀ sc_n, App.match_name scorecard_norms csv_n = Some sc_n
             ↔ first_related scorecard_norms csv_n sc_n)
  ∧ (csv_n ∉ scorecard_norms ->
     (∀ t, t ∈ scorecard_norms -> related csv_n t = false) ->
     ∀ x, App.match_name scorecard_norms csv_n = Some x
          ↔ best_match scorecard_norms csv_n x
            ∧ (3 # 5 <= Difflib.ratio x csv_n)%Q).
Proof.
  unfold App.match_name. split; [|split].
  - intros Hin. rewrite bool_decide_true by exact Hin. reflexivity.
  - intros Hout (t & Ht & Hrel) sc_n. rewrite bool_decide_false by exact Hout.
    rewrite <- find_first_related.
    destruct (List.find (related csv_n) scorecard_norms) as [s|] eqn:E;
      [reflexivity|].
    exfalso. apply list_elem_of_In in Ht.
    pose proof (find_none _ _ E t Ht). congruence.
  - intros Hout Hnone x. rewrite bool_decide_false by exact Hout.
    rewrite (find_none_related _ _ Hnone).
    rewrite <- get_close_matches_best.
    destruct (Difflib.get_close_matches csv_n scorecard_norms (3 # 5))
      as [|m tl].
    + split; [discriminate | intros [tl' H]; discriminate].
    + split; [intros [= ->]; eauto | intros [tl' [= -> _]]; reflexivity].
Qed.

(** The rules of [generate_scorecards.py] for one order-side key. *)
Lemma gen_match_rules scorecard_norms csv_n :
  (csv_n ∈ scorecard_norms ->
     Gen.match_name scorecard_norms csv_n = Some csv_n)
  ∧ (csv_n ∉ scorecard_norms ->
     ∀ target, Gen.MANUAL_NAME_MAP !! csv_n = Some target ->
               target ∈ scorecard_norms ->
               Gen.match_name scorecard_norms csv_n = Some target)
  ∧ (csv_n ∉ scorecard_norms ->
     (∀ target, Gen.MANUAL_NAME_MAP !! csv_n = Some target ->
                target ∉ scorecard_norms) ->
     ∀ sc_n, Gen.match_name scorecard_norms csv_n = Some sc_n
             ↔ first_related scorecard_norms csv_n sc_n).
Proof.
  unfold Gen.match_name. split; [|split].
  - intros Hin. rewrite bool_decide_true by exact Hin. reflexivity.
  - intros Hout target -> Hin. rewrite bool_decide_false by exact Hout.
    rewrite bool_decide_true by exact Hin. reflexivity.
  - intros Hout Hman sc_n. rewrite bool_decide_false by exact Hout.
    rewrite <- find_first_related.
    destruct (Gen.MANUAL_NAME_MAP !! csv_n) as [target|]; [|reflexivity].
    rewrite bool_decide_false by (apply Hman; reflexivity). reflexivity.
Qed.

(** C2, as the program has it. For every order-side key and every tracker
    key set, [build_name_map] of [app.py] applies these rules in order and
    stops at the first that succeeds: (1) a key equal to a tracker key maps
    to itself; (2) otherwise, if a tracker key contains it or is contained
    in it, it maps to the first such key in the iteration order of the set;
    (3) otherwise it maps to its single best approximate match exactly when
    the similarity ratio of that match is at least 0.6, and is absent from
    the map if not. [build_name_map] of [generate_scorecards.py] applies
    rule (1), then maps a key of its manual table to the table's target
    when that target is a tracker key, then applies rule (2), and has no
    rule (3). *)
Theorem name_map_rules (order_norms scorecard_norms : list pystr)
    (csv_n : pystr) :
  csv_n ∈ order_norms ->
  ((csv_n ∈ scorecard_norms ->
      App.build_name_map order_norms scorecard_norms !! csv_n = Some csv_n)
   ∧ (csv_n ∉ scorecard_norms ->
      (∃ t, t ∈ scorecard_norms ∧ related csv_n t = true) ->
      ∀ sc_n, App.build_name_map order_norms scorecard_norms !! csv_n = Some sc_n
              ↔ first_related scorecard_norms csv_n sc_n)
   ∧ (csv_n ∉ scorecard_norms ->
      (∀ t, t ∈ scorecard_norms -> related csv_n t = false) ->
      ∀ x, App.build_name_map order_norms scorecard_norms !! csv_n = Some x
           ↔ best_match scorecard_norms csv_n x
             ∧ (3 # 5 <= Difflib.ratio x csv_n)%Q))
  ∧ ((csv_n ∈ scorecard_norms ->
      Gen.build_name_map order_norms scorecard_norms !! csv_n = Some csv_n)
     ∧ (csv_n ∉ scorecard_norms ->
        ∀ target, Gen.MANUAL_NAME_MAP !! csv_n = Some target ->
                  target ∈ scorecard_norms ->
                  Gen.build_name_map order_norms scorecard_norms !! csv_n
                  = Some target)
     ∧ (csv_n ∉ scorecard_norms ->
        (∀ target, Gen.MANUAL_NAME_MAP !! csv_n = Some target ->
                   target ∉ scorecard_norms) ->
        ∀ sc_n, Gen.build_name_map order_norms scorecard_norms !! csv_n
                = Some sc_n
                ↔ first_related scorecard_norms csv_n sc_n)).
Proof.
  intros Hin.
  rewrite app_name_map_lookup, gen_name_map_lookup.
  rewrite bool_decide_true by exact Hin.
  split; [apply app_match_rules | apply gen_match_rules].
Qed.

Lemma name_map_rules_witness :
  pachi_pizzeria ∈ [pachi_pizzeria]
  ∧ App.build_name_map [pachi_pizzeria] pachi_tracker_keys !! pachi_pizzeria
    = Some (PyStr.lit "pachi pizza")
  ∧ best_match pachi_tracker_keys pachi_pizzeria (PyStr.lit "pachi pizza").
Proof.
  assert (Hin : pachi_pizzeria ∈ [pachi_pizzeria]) by (left; reflexivity).
  split; [exact Hin|]. split; [vm_compute; reflexivity|].
  assert (Hout : pachi_pizzeria ∉ pachi_tracker_keys).
  { intros H. apply list_elem_of_In in H. destruct H as [H | []].
    vm_compute in H. discriminate. }
  assert (Hnone : ∀ t, t ∈ pachi_tracker_keys -> related pachi_pizzeria t = false).
  { intros t H. apply list_elem_of_In in H. destruct H as [<- | []].
    vm_compute. reflexivity. }
  destruct (name_map_rules [pachi_pizzeria] pachi_tracker_keys pachi_pizzeria
              Hin) as [(_ & _ & H3) _].
  apply (H3 Hout Hnone (PyStr.lit "pachi pizza")).
  vm_compute. reflexivity.
Defined.

(** C2 as stated fails for [generate_scorecards.py]: the order-side key
    "pachi pizzeria" equals no tracker key of ["pachi pizza"], neither
    contains the other, its best (and only) approximate match "pachi pizza"
    has ratio 22/25, above 0.6, and yet the key is absent from the map;
    [app.py] maps it. *)
Lemma gen_has_no_approximate_rule :
  (pachi_pizzeria ∉ pachi_tracker_keys)
  ∧ related pachi_pizzeria (PyStr.lit "pachi pizza") = false
  ∧ Difflib.ratio (PyStr.lit "pachi pizza") pachi_pizzeria = (22 # 25)%Q
  ∧ Gen.build_name_map [pachi_pizzeria] pachi_tracker_keys !! pachi_pizzeria
    = None
  ∧ App.build_name_map [pachi_pizzeria] pachi_tracker_keys !! pachi_pizzeria
    = Some (PyStr.lit "pachi pizza").
Proof.
  split; [|repeat split; vm_compute; reflexivity].
  intros H. apply list_elem_of_In in H. destruct H as [H | []].
  vm_compute in H. discriminate.
Qed.

(** * The end-to-end scenario *)

(** In the scenario both front ends build the same name map, whatever the
    iteration order of the set of order-side names. *)
Lemma pachi_name_map order_norms :
  order_norms ≡ₚ pachi_order_norms ->
  App.build_name_map order_norms pachi_tracker_keys = pasta_map
  ∧ Gen.build_name_map order_norms pachi_tracker_keys = pasta_map.
Proof.
  intros Hperm.
  assert (Hin : ∀ k, k ∈ order_norms
                ↔ k = PyStr.lit "pizza pachi" ∨ k = PyStr.lit "pachi pizza and pasta").
  { intros k. rewrite Hperm. unfold pachi_order_norms.
    replace (remove_dups (List.map norm pachi_orders))
      with [PyStr.lit "pachi pizza and pasta"; PyStr.lit "pizza pachi"]
      by (vm_compute; reflexivity).
    rewrite !elem_of_cons, elem_of_nil. tauto. }
  split; apply map_eq; intros k;
    [rewrite app_name_map_lookup | rewrite gen_name_map_lookup].
  all: destruct (decide (k = PyStr.lit "pachi pizza and pasta")) as [->|H1];
    [rewrite bool_decide_true by (apply Hin; auto); vm_compute; reflexivity|].
  all: destruct (decide (k = PyStr.lit "pizza pachi")) as [->|H2];
    [rewrite bool_decide_true by (apply Hin; auto); vm_compute; reflexivity|].
  all: rewrite bool_decide_false by (rewrite Hin; tauto).
  all: unfold pasta_map; rewrite lookup_singleton_ne by congruence; reflexivity.
Qed.

(** C3 as stated fails: in the scenario the key of "Pizza Pachi" is not
    mapped to "pachi pizza" (neither name contains the other, and their
    similarity ratio is 10/22), so the Monday count of "pachi pizza" is 1,
    not 3. *)
Lemma pizza_pachi_is_not_matched :
  normalize (PyStr.lit "Pizza Pachi") = PyStr.lit "pizza pachi"
  ∧ App.build_name_map pachi_order_norms pachi_tracker_keys
      !! PyStr.lit "pizza pachi" = None
  ∧ Gen.build_name_map pachi_order_norms pachi_tracker_keys
      !! PyStr.lit "pizza pachi" = None
  ∧ (count_orders_by_day pachi_orders
       (App.build_name_map pachi_order_norms pachi_tracker_keys) sunday_22_feb
     ≫= (.!! PyStr.lit "pachi pizza")) ≠ Some [0; 3; 0; 0; 0; 0; 0]%Z.
Proof.
  destruct (pachi_name_map pachi_order_norms (reflexivity _)) as [-> ->].
  repeat split; try (vm_compute; reflexivity).
  vm_compute. discriminate.
Qed.

(** C3, as the program has it. In the end-to-end scenario (two orders for
    "Pizza Pachi" and one for "PACHI PIZZA AND PASTA", all three on Monday
    23 February 2026; a tracker whose single record "Pachi Pizza" has four
    true flags among the ten scored columns, the Monday story flag among
    them), in both front ends: the record is keyed "pachi pizza" and its
    score is 40; [build_name_map] maps "pachi pizza and pasta" to "pachi
    pizza" and leaves "pizza pachi" unmatched; the selected week starts on
    Sunday 22 February; and [count_orders_by_day] yields [0,1,0,0,0,0,0]
    for the single key "pachi pizza". *)
Theorem pachi_scenario :
  App.load_scorecard (App.CsvRows pachi_csv)
    = Some [(PyStr.lit "pachi pizza", pachi_record)]
  ∧ App.load_scorecard (App.Worksheet pachi_sheet)
    = Some [(PyStr.lit "pachi pizza", pachi_record)]
  ∧ Gen.load_scorecard pachi_sheet
    = Some [(PyStr.lit "pachi pizza", pachi_record)]
  ∧ score pachi_record = 40%Z
  ∧ Difflib.ratio (PyStr.lit "pachi pizza") (PyStr.lit "pizza pachi") = (10 # 22)%Q
  ∧ determine_week monday_23_feb_9am pachi_orders
    = Some (sunday_22_feb, PyStr.lit "February", 2026%Z, 4%Z)
  ∧ ∀ order_norms name_map,
      order_norms ≡ₚ pachi_order_norms ->
      name_map = App.build_name_map order_norms pachi_tracker_keys
      ∨ name_map = Gen.build_name_map order_norms pachi_tracker_keys ->
      name_map !! PyStr.lit "pachi pizza and pasta" = Some (PyStr.lit "pachi pizza")
      ∧ name_map !! PyStr.lit "pizza pachi" = None
      ∧ count_orders_by_day pachi_orders name_map sunday_22_feb
        = Some {[ PyStr.lit "pachi pizza" := [0; 1; 0; 0; 0; 0; 0]%Z ]}.
Proof.
  repeat (split; [vm_compute; reflexivity|]).
  intros order_norms name_map Hperm Hmap.
  destruct (pachi_name_map order_norms Hperm) as [Happ Hgen].
  assert (E : name_map = pasta_map) by (destruct Hmap; congruence).
  subst name_map. repeat split; vm_compute; reflexivity.
Qed.

Lemma pachi_scenario_witness :
  count_orders_by_day pachi_orders
    (Gen.build_name_map (rev pachi_order_norms) pachi_tracker_keys)
    sunday_22_feb
  = Some {[ PyStr.lit "pachi pizza" := [0; 1; 0; 0; 0; 0; 0]%Z ]}.
Proof.
  destruct pachi_scenario as (_ & _ & _ & _ & _ & _ & H).
  destruct (H (rev pachi_order_norms)
              (Gen.build_name_map (rev pachi_order_norms) pachi_tracker_keys))
    as (_ & _ & Hc).
  - symmetry. apply Permutation_rev.
  - right. reflexivity.
  - exact Hc.
Defined.

(** * Two runs on the same inputs *)

Lemma option_by_iff {A} (m m' : option A) (P : A -> Prop) :
  (∀ x, m = Some x ↔ P x) -> (∀ x, m' = Some x ↔ P x) -> m = m'.
Proof.
  intros H H'. destruct m as [x|].
  - symmetry. apply H', H. reflexivity.
  - destruct m' as [y|]; [|reflexivity]. apply H, H'. reflexivity.
Qed.

(** When at most one tracker key is related to the order key, "the first
    related key" is "the related key", whatever the iteration order. *)
Lemma first_related_unique scorecard_norms csv_n sc_n :
  (∀ t1 t2, t1 ∈ scorecard_norms -> t2 ∈ scorecard_norms ->
            related csv_n t1 = true -> related csv_n t2 = true -> t1 = t2) ->
  first_related scorecard_norms csv_n sc_n
  ↔ sc_n ∈ scorecard_norms ∧ related csv_n sc_n = true.
Proof.
  intros Huniq. rewrite <- find_first_related. split.
  - intros H. apply find_some in H as [Hin Hrel].
    split; [apply list_elem_of_In, Hin | exact Hrel].
  - intros [Hin Hrel].
    destruct (List.find (related csv_n) scorecard_norms) as [s|] eqn:E.
    + apply find_some in E as [Hs Hsrel]. apply list_elem_of_In in Hs.
      f_equal. apply Huniq; assumption.
    + apply list_elem_of_In in Hin.
      pose proof (find_none _ _ E sc_n Hin). congruence.
Qed.

Lemma find_related_perm sc sc' csv_n :
  sc ≡ₚ sc' ->
  (∀ t1 t2, t1 ∈ sc -> t2 ∈ sc ->
            related csv_n t1 = true -> related csv_n t2 = true -> t1 = t2) ->
  List.find (related csv_n) sc = List.find (related csv_n) sc'.
Proof.
  intros Hperm Huniq.
  apply (option_by_iff _ _ (fun s => s ∈ sc ∧ related csv_n s = true)).
  - intros s. rewrite find_first_related. apply first_related_unique, Huniq.
  - intros s. rewrite find_first_related, first_related_unique.
    + rewrite Hperm. reflexivity.
    + intros t1 t2. rewrite <- !Hperm. apply Huniq.
Qed.

Lemma best_match_perm sc sc' word x :
  sc ≡ₚ sc' -> best_match sc word x ↔ best_match sc' word x.
Proof.
  intros Hperm. unfold best_match. rewrite Hperm.
  split; intros [H1 H2]; (split; [exact H1|]); intros y Hy; apply H2;
    [rewrite Hperm | rewrite <- Hperm]; exact Hy.
Qed.

Lemma app_match_name_perm sc sc' csv_n :
  sc ≡ₚ sc' ->
  (csv_n ∉ sc ->
   ∀ t1 t2, t1 ∈ sc -> t2 ∈ sc ->
            related csv_n t1 = true -> related csv_n t2 = true -> t1 = t2) ->
  App.match_name sc csv_n = App.match_name sc' csv_n.
Proof.
  intros Hperm Huniq. unfold App.match_name.
  destruct (decide (csv_n ∈ sc)) as [Hin|Hout].
  - rewrite !bool_decide_true by (try rewrite <- Hperm; exact Hin). reflexivity.
  - rewrite !bool_decide_false by (try rewrite <- Hperm; exact Hout).
    rewrite <- (find_related_perm sc sc' csv_n Hperm (Huniq Hout)).
    destruct (List.find (related csv_n) sc) as [s|]; [reflexivity|].
    apply (option_by_iff _ _ (fun x => best_match sc csv_n x
                                       ∧ (3 # 5 <= Difflib.ratio x csv_n)%Q)).
    + intros x. rewrite <- get_close_matches_best.
      destruct (Difflib.get_close_matches csv_n sc (3 # 5)) as [|m tl].
      * split; [discriminate | intros [tl' H]; discriminate].
      * split; [intros [= ->]; eauto | intros [tl' [= -> _]]; reflexivity].
    + intros x. rewrite (best_match_perm sc sc' csv_n x Hperm).
      rewrite <- get_close_matches_best.
      destruct (Difflib.get_close_matches csv_n sc' (3 # 5)) as [|m tl].
      * split; [discriminate | intros [tl' H]; discriminate].
      * split; [intros [= ->]; eauto | intros [tl' [= -> _]]; reflexivity].
Qed.

Lemma gen_match_name_perm sc sc' csv_n :
  sc ≡ₚ sc' ->
  (csv_n ∉ sc ->
   ∀ t1 t2, t1 ∈ sc -> t2 ∈ sc ->
            related csv_n t1 = true -> related csv_n t2 = true -> t1 = t2) ->
  Gen.match_name sc csv_n = Gen.match_name sc' csv_n.
Proof.
  intros Hperm Huniq. unfold Gen.match_name.
  destruct (decide (csv_n ∈ sc)) as [Hin|Hout].
  - rewrite !bool_decide_true by (try rewrite <- Hperm; exact Hin). reflexivity.
  - rewrite !bool_decide_false by (try rewrite <- Hperm; exact Hout).
    rewrite <- (find_related_perm sc sc' csv_n Hperm (Huniq Hout)).
    destruct (Gen.MANUAL_NAME_MAP !! csv_n) as [target|]; [|reflexivity].
    destruct (decide (target ∈ sc)) as [Ht|Ht].
    + rewrite !bool_decide_true by (try rewrite <- Hperm; exact Ht). reflexivity.
    + rewrite !bool_decide_false by (try rewrite <- Hperm; exact Ht). reflexivity.
Qed.

Lemma determine_week_nonempty now1 now2 orders :
  orders ≠ [] -> determine_week now1 orders = determine_week now2 orders.
Proof.
  intros Hne. destruct orders as [|o orders]; [congruence | reflexivity].
Qed.

(** The substring rule reads the iteration order of the tracker-key set:
    two keys contained in the order key, taken in either order. *)
Example substring_rule_reads_iteration_order :
  App.build_name_map [PyStr.lit "pachi pizza and pasta"]
    [PyStr.lit "pachi"; PyStr.lit "pasta"]
  ≠ App.build_name_map [PyStr.lit "pachi pizza and pasta"]
      [PyStr.lit "pasta"; PyStr.lit "pachi"].
Proof.
  intros H.
  apply (f_equal (fun m => m !! PyStr.lit "pachi pizza and pasta")) in H.
  vm_compute in H. discriminate.
Qed.

(** C9, as the program has it. Two runs of the core on the same inputs
    return the same results in these cases: [determine_week] on a non-empty
    orders list, whatever the clock shows in either run; [build_name_map]
    (of both front ends) on the same two key sets, whatever the order in
    which either set is iterated, provided no order key without an exact
    match is substring-related to two tracker keys. ([normalize], the two
    ingestors and [count_orders_by_day] read nothing but their arguments.) *)
Theorem two_runs_agree (now1 now2 : datetime) (orders : list order)
    (order_norms order_norms' scorecard_norms scorecard_norms' : list pystr) :
  orders ≠ [] ->
  order_norms ≡ₚ order_norms' ->
  scorecard_norms ≡ₚ scorecard_norms' ->
  (∀ csv_n t1 t2,
     csv_n ∈ order_norms -> csv_n ∉ scorecard_norms ->
     t1 ∈ scorecard_norms -> t2 ∈ scorecard_norms ->
     related csv_n t1 = true -> related csv_n t2 = true -> t1 = t2) ->
  determine_week now1 orders = determine_week now2 orders
  ∧ App.build_name_map order_norms scorecard_norms
    = App.build_name_map order_norms' scorecard_norms'
  ∧ Gen.build_name_map order_norms scorecard_norms
    = Gen.build_name_map order_norms' scorecard_norms'.
Proof.
  intros Hne Ho Hs Huniq.
  split; [apply determine_week_nonempty, Hne|].
  split; apply map_eq; intros k;
    [rewrite !app_name_map_lookup | rewrite !gen_name_map_lookup].
  all: destruct (decide (k ∈ order_norms)) as [Hin|Hout];
    [rewrite !bool_decide_true by (try rewrite <- Ho; exact Hin)
    |rewrite !bool_decide_false by (try rewrite <- Ho; exact Hout);
     reflexivity].
  - apply app_match_name_perm; [exact Hs|].
    intros Hk t1 t2. exact (Huniq k t1 t2 Hin Hk).
  - apply gen_match_name_perm; [exact Hs|].
    intros Hk t1 t2. exact (Huniq k t1 t2 Hin Hk).
Qed.

Lemma two_runs_agree_witness :
  determine_week monday_23_feb_9am pachi_orders
  = determine_week tuesday_3_mar_9am pachi_orders
  ∧ App.build_name_map pachi_order_norms azul_and_pachi
    = App.build_name_map (rev pachi_order_norms) (rev azul_and_pachi)
  ∧ Gen.build_name_map pachi_order_norms azul_and_pachi
    = Gen.build_name_map (rev pachi_order_norms) (rev azul_and_pachi).
Proof.
  apply (two_runs_agree monday_23_feb_9am tuesday_3_mar_9am pachi_orders
           pachi_order_norms (rev pachi_order_norms)
           azul_and_pachi (rev azul_and_pachi)).
  - discriminate.
  - symmetry. apply Permutation_rev.
  - symmetry. apply Permutation_rev.
  - intros csv_n t1 t2 Hk _ H1 H2 R1 R2.
    apply list_elem_of_In in Hk, H1, H2.
    vm_compute in Hk, H1, H2.
    destruct Hk as [<- | [<- | []]];
      destruct H1 as [<- | [<- | []]]; destruct H2 as [<- | [<- | []]];
      vm_compute in R1, R2; try discriminate; reflexivity.
Defined.

(** * Further properties of the program

    What follows covers code the statements above leave out: the normal
    form of a key, the week helpers, the general case of
    [determine_week], the loaders, the rendering decisions of
    [generate_html] and the way the steps of the pipeline fit together. *)

(** * The normal form of a name *)

Lemma split_leading_space ws t :
  Forall (fun c => PyStr.isspace c = true) ws ->
  PyStr.split (ws ++ t) = PyStr.split t.
Proof.
  induction 1 as [|c ws Hc _ IH]; [reflexivity|].
  cbn [app PyStr.split]. now rewrite Hc.
Qed.

Lemma split_trailing_space ws : ∀ t,
  Forall (fun c => PyStr.isspace c = true) ws ->
  PyStr.split (t ++ ws) = PyStr.split t.
Proof.
  intros t Hws. induction t as [|c rest IH].
  - cbn [app]. pose proof (split_leading_space ws [] Hws) as E.
    now rewrite app_nil_r in E.
  - cbn [app PyStr.split]. destruct (PyStr.isspace c) eqn:Ec; [exact IH|].
    destruct rest as [|d rest'].
    + cbn [app]. destruct ws as [|d ws']; [reflexivity|].
      apply List.Forall_cons_iff in Hws as [Hd Hws'].
      rewrite Hd. f_equal.
      exact IH.
    + cbn [app] in *. now rewrite IH.
Qed.

Lemma lstrip_decompose s :
  ∃ ws, s = ws ++ PyStr.lstrip s ∧ Forall (fun c => PyStr.isspace c = true) ws.
Proof.
  induction s as [|c rest (ws & E & Hws)]; [now exists []|].
  cbn [PyStr.lstrip]. destruct (PyStr.isspace c) eqn:Ec.
  - exists (c :: ws). split; [cbn; now f_equal|now constructor].
  - now exists [].
Qed.

Lemma strip_decompose s :
  ∃ pre post,
    s = pre ++ PyStr.strip s ++ post
    ∧ Forall (fun c => PyStr.isspace c = true) pre
    ∧ Forall (fun c => PyStr.isspace c = true) post.
Proof.
  destruct (lstrip_decompose s) as (pre & E1 & Hpre).
  destruct (lstrip_decompose (rev (PyStr.lstrip s))) as (post & E2 & Hpost).
  exists pre, (rev post). split; [|split; [exact Hpre|]].
  - unfold PyStr.strip. rewrite <- rev_app_distr, <- E2, rev_involutive.
    exact E1.
  - apply List.Forall_forall. intros c Hc. apply in_rev in Hc.
    revert c Hc. now apply List.Forall_forall.
Qed.

(** The characters [normalize] keeps of a run of whitespace are the run's
    ASCII whitespace. *)
Lemma clean_space ws :
  Forall (fun c => PyStr.isspace c = true) ws ->
  Forall (fun c => PyStr.isspace c = true)
    (PyStr.replace 38%N (PyStr.lit "and")
       (List.filter (fun c => (c <? 128)%N) ws)).
Proof.
  induction 1 as [|c ws Hc _ IH]; [constructor|].
  cbn [List.filter]. destruct (c <? 128)%N; [|exact IH].
  unfold PyStr.replace in *. cbn [flat_map].
  destruct (c =? 38)%N eqn:E.
  - apply N.eqb_eq in E. subst c. discriminate.
  - now constructor.
Qed.

Lemma clean_app s t :
  PyStr.replace 38%N (PyStr.lit "and")
    (List.filter (fun c => (c <? 128)%N) (s ++ t))
  = PyStr.replace 38%N (PyStr.lit "and") (List.filter (fun c => (c <? 128)%N) s)
    ++ PyStr.replace 38%N (PyStr.lit "and")
         (List.filter (fun c => (c <? 128)%N) t).
Proof. unfold PyStr.replace. now rewrite List.filter_app, flat_map_app. Qed.

(** [normalize] is the lowered single-space join of the words left after
    the cleaning; the guard on the empty name and the final [strip] change
    nothing. *)
Lemma normalize_words name :
  normalize name
  = PyStr.lower (PyStr.join (PyStr.lit " ")
      (PyStr.split (PyStr.replace 38%N (PyStr.lit "and")
         (List.filter (fun c => (c <? 128)%N) name)))).
Proof.
  destruct name as [|c rest]; [reflexivity|].
  unfold normalize. now rewrite strip_join by apply split_wordy.
Qed.

Lemma lower_nil s : PyStr.lower s = [] ↔ s = [].
Proof. destruct s; split; intros H; try reflexivity; discriminate. Qed.

Lemma join_nil toks :
  Forall wordy toks -> PyStr.join (PyStr.lit " ") toks = [] ↔ toks = [].
Proof.
  intros H. split; [|now intros ->].
  destruct H as [|w toks [Hw _] Htoks]; [reflexivity|].
  destruct w as [|c w]; [contradiction|].
  destruct toks; discriminate.
Qed.

Lemma split_nil s :
  PyStr.split s = [] ↔ Forall (fun c => PyStr.isspace c = true) s.
Proof.
  split.
  - induction s as [|c rest IH]; [constructor|].
    cbn [PyStr.split]. destruct (PyStr.isspace c) eqn:Ec.
    + intros H. constructor; [exact Ec|now apply IH].
    + destruct rest as [|d rest']; [discriminate|].
      destruct (PyStr.isspace d); [discriminate|].
      destruct (PyStr.split (d :: rest')); discriminate.
  - intros H. pose proof (split_leading_space s [] H) as E.
    now rewrite app_nil_r in E.
Qed.

Lemma clean_all_space s :
  Forall (fun c => PyStr.isspace c = true)
    (PyStr.replace 38%N (PyStr.lit "and")
       (List.filter (fun c => (c <? 128)%N) s))
  ↔ Forall (fun c => (128 <= c)%N ∨ PyStr.isspace c = true) s.
Proof.
  induction s as [|c rest IH].
  - split; constructor.
  - cbn [List.filter]. destruct (c <? 128)%N eqn:Ec.
    + apply N.ltb_lt in Ec. unfold PyStr.replace in *. cbn [flat_map].
      destruct (c =? 38)%N eqn:E.
      * apply N.eqb_eq in E. subst c. split; intros H.
        -- apply List.Forall_cons_iff in H as [H _]. discriminate.
        -- apply List.Forall_cons_iff in H as [[H|H] _]; [lia|discriminate].
      * cbn [app]. rewrite !List.Forall_cons_iff, IH. intuition lia.
    + apply N.ltb_ge in Ec. rewrite IH, List.Forall_cons_iff. intuition.
Qed.

Lemma join_chars (P : N -> Prop) toks :
  P 32%N -> Forall (Forall P) toks -> Forall P (PyStr.join (PyStr.lit " ") toks).
Proof.
  intros Hsp. induction 1 as [|w toks Hw Htoks IH]; [constructor|].
  cbn [PyStr.join]. destruct toks as [|w' toks']; [exact Hw|].
  apply Forall_app; split; [exact Hw|].
  apply Forall_app; split; [|exact IH].
  repeat constructor. exact Hsp.
Qed.

(** X1: the result of [normalize] is in normal form: ASCII only, no
    ampersand, no capital letter, no whitespace but single spaces between
    its words. *)
Theorem normalize_canonical (name : pystr) :
  Forall (fun c => (c < 128)%N ∧ c ≠ 38%N ∧ ¬ (65 <= c <= 90)%N
                   ∧ (PyStr.isspace c = true -> c = 32%N))
    (normalize name)
  ∧ PyStr.join (PyStr.lit " ") (PyStr.split (normalize name)) = normalize name
  ∧ PyStr.strip (normalize name) = normalize name.
Proof.
  destruct (normalize_shape name) as (toks & -> & Hw & Hs).
  split; [|split].
  - apply join_chars.
    + repeat split; try lia; discriminate.
    + apply List.Forall_forall. intros w Hin.
      pose proof (proj1 (List.Forall_forall _ _) Hw w Hin) as [_ Hns].
      pose proof (proj1 (List.Forall_forall _ _) Hs w Hin) as Hset.
      apply List.Forall_forall. intros c Hc.
      pose proof (proj1 (List.Forall_forall _ _) Hns c Hc) as Hc1.
      pose proof (proj1 (List.Forall_forall _ _) Hset c Hc) as (Hc2 & Hc3 & Hc4).
      repeat split; try assumption.
      * intros [H1 H2]. unfold PyStr.lower_char in Hc4.
        replace ((65 <=? c) && (c <=? 90))%N with true in Hc4; [lia|].
        symmetry. apply andb_true_iff. split; now apply N.leb_le.
      * intros H. congruence.
  - now rewrite split_join.
  - now apply strip_join.
Qed.

Lemma normalize_strip_eq name : normalize (PyStr.strip name) = normalize name.
Proof.
  rewrite !normalize_words. do 2 f_equal.
  destruct (strip_decompose name) as (pre & post & E & Hpre & Hpost).
  rewrite E at 2. rewrite !clean_app.
  rewrite split_leading_space by now apply clean_space.
  now rewrite split_trailing_space by now apply clean_space.
Qed.

Lemma normalize_nil_iff name :
  normalize name = []
  ↔ Forall (fun c => (128 <= c)%N ∨ PyStr.isspace c = true) name.
Proof.
  rewrite normalize_words, lower_nil, join_nil by apply split_wordy.
  now rewrite split_nil, clean_all_space.
Qed.

(** X2: surrounding whitespace does not change the key, so that
    [load_orders], which normalizes the stripped place, and
    [load_scorecard], which normalizes the name as it stands, agree. *)
Theorem normalize_strip (name : pystr) :
  normalize (PyStr.strip name) = normalize name.
Proof. apply normalize_strip_eq. Qed.

(** X3: the key is empty exactly for a name without any ASCII character
    other than whitespace. *)
Theorem normalize_empty_iff (name : pystr) :
  normalize name = []
  ↔ Forall (fun c => (128 <= c)%N ∨ PyStr.isspace c = true) name.
Proof. apply normalize_nil_iff. Qed.

(** * The week of a timestamp *)

Lemma get_week_sunday_ordinal dt :
  get_week_sunday dt
  = if ((0 <? ordinal dt - ordinal dt mod 7)
        && (ordinal dt - ordinal dt mod 7 <=? MAXORDINAL))%Z
    then Some (mk_datetime (ordinal dt - ordinal dt mod 7) 0 0 0 0)
    else None.
Proof.
  unfold get_week_sunday. rewrite dow_is_ordinal_mod_7. unfold add_days.
  replace (ordinal dt + - (ordinal dt mod 7))%Z
    with (ordinal dt - ordinal dt mod 7)%Z by lia.
  now destruct ((0 <? ordinal dt - ordinal dt mod 7)
                && (ordinal dt - ordinal dt mod 7 <=? MAXORDINAL))%Z.
Qed.

Lemma get_week_sunday_sound dt s :
  get_week_sunday dt = Some s -> sunday_midnight s ∧ in_span s dt.
Proof.
  rewrite get_week_sunday_ordinal.
  destruct ((0 <? ordinal dt - ordinal dt mod 7)
            && (ordinal dt - ordinal dt mod 7 <=? MAXORDINAL))%Z eqn:E;
    [|discriminate].
  intros [= <-]. apply andb_true_iff in E as [E1 E2].
  apply Z.ltb_lt in E1. apply Z.leb_le in E2.
  pose proof (Z.mod_pos_bound (ordinal dt) 7 ltac:(lia)) as Hm.
  unfold sunday_midnight, in_span. rewrite dow_is_ordinal_mod_7.
  cbn [ordinal]. repeat split; try lia.
  rewrite Zminus_mod, Z.mod_mod, Z.sub_diag by lia. reflexivity.
Qed.

(** X4: [get_week_sunday] returns the one Sunday at midnight whose seven
    days hold the timestamp. *)
Theorem get_week_sunday_iff (dt s : datetime) :
  get_week_sunday dt = Some s ↔ sunday_midnight s ∧ in_span s dt.
Proof.
  split; [apply get_week_sunday_sound|].
  intros [Hs Hin]. now apply get_week_sunday_in_span.
Qed.

Lemma get_week_sunday_none (dt : datetime) :
  (1 <= ordinal dt <= MAXORDINAL)%Z ->
  get_week_sunday dt = None ↔ (ordinal dt < 7)%Z.
Proof.
  intros Hv. rewrite get_week_sunday_ordinal.
  pose proof (Z.mod_pos_bound (ordinal dt) 7 ltac:(lia)) as Hm.
  pose proof (Z.div_mod (ordinal dt) 7 ltac:(lia)) as Hd.
  destruct ((0 <? ordinal dt - ordinal dt mod 7)
            && (ordinal dt - ordinal dt mod 7 <=? MAXORDINAL))%Z eqn:E.
  - apply andb_true_iff in E as [E1 E2]. apply Z.ltb_lt in E1.
    split; [discriminate|]. intros H. exfalso.
    rewrite Z.mod_small in E1 by lia. lia.
  - split; [intros _|reflexivity].
    apply andb_false_iff in E as [E|E].
    + apply Z.ltb_ge in E.
      assert (ordinal dt / 7 <= 0)%Z by lia.
      lia.
    + apply Z.leb_gt in E. lia.
Qed.

(** X5: on a date of the calendar [get_week_sunday] fails, with the
    [OverflowError] of the subtraction, exactly in the first six days of
    year 1, whose Sunday would be before 0001-01-01. *)
Theorem get_week_sunday_overflow (dt : datetime) :
  (1 <= ordinal dt <= MAXORDINAL)%Z ->
  get_week_sunday dt = None ↔ (ordinal dt < 7)%Z.
Proof. apply get_week_sunday_none. Qed.

Lemma get_week_sunday_overflow_witness :
  get_week_sunday (DateTime.make 1 1 6 12 0) = None
  ∧ get_week_sunday (DateTime.make 1 1 7 12 0)
    = Some (DateTime.make 1 1 7 0 0).
Proof.
  split.
  - apply (get_week_sunday_overflow (DateTime.make 1 1 6 12 0)).
    + vm_compute. split; discriminate.
    + vm_compute. reflexivity.
  - vm_compute. reflexivity.
Defined.

(** X6: the Sunday of a week is its own Sunday, and the Sunday-start day
    of the week is the number of days since it. *)
Theorem get_week_sunday_idempotent (dt s : datetime) :
  get_week_sunday dt = Some s ->
  get_week_sunday s = Some s
  ∧ ordinal dt = (ordinal s + day_of_week_sunday_start dt)%Z
  ∧ DateTime.ltb dt s = false.
Proof.
  intros H. pose proof (get_week_sunday_sound dt s H) as [Hs Hin].
  split; [|split].
  - apply get_week_sunday_in_span; [exact Hs|]. unfold in_span. lia.
  - rewrite get_week_sunday_ordinal in H.
    destruct ((0 <? ordinal dt - ordinal dt mod 7)
              && (ordinal dt - ordinal dt mod 7 <=? MAXORDINAL))%Z;
      [|discriminate].
    injection H as <-. rewrite dow_is_ordinal_mod_7. cbn [ordinal]. lia.
  - destruct Hs as (_ & _ & Hmid). unfold in_span in Hin.
    rewrite <- Hmid. unfold DateTime.ltb, at_midnight.
    cbn [ordinal hour minute second microsecond].
    destruct (ordinal dt <? ordinal s)%Z eqn:E1; [apply Z.ltb_lt in E1; lia|].
    cbn [orb]. destruct (ordinal dt =? ordinal s)%Z; [|reflexivity].
    cbn [andb].
    destruct (hour dt); destruct (minute dt); destruct (second dt);
      destruct (microsecond dt); reflexivity.
Qed.

Lemma get_week_sunday_idempotent_witness :
  get_week_sunday (DateTime.make 2026 2 23 11 57) = Some sunday_22_feb
  ∧ get_week_sunday sunday_22_feb = Some sunday_22_feb.
Proof.
  split; [vm_compute; reflexivity|].
  apply (get_week_sunday_idempotent (DateTime.make 2026 2 23 11 57)).
  vm_compute. reflexivity.
Defined.

(** * The week with the most orders *)

Section DictFacts.
Context {K V : Type} `{EqDecision K}.

Lemma get_set (d : list (K * V)) k v k' :
  ODict.get (ODict.set d k v) k'
  = if decide (k' = k) then Some v else ODict.get d k'.
Proof.
  induction d as [|[k0 v0] d IH]; cbn [ODict.set ODict.get].
  - reflexivity.
  - destruct (decide (k = k0)) as [->|Hne]; cbn [ODict.get].
    + now destruct (decide (k' = k0)).
    + rewrite IH. destruct (decide (k' = k0)) as [->|]; [|reflexivity].
      destruct (decide (k0 = k)); [congruence|reflexivity].
Qed.

Lemma keys_set (d : list (K * V)) k v :
  (ODict.set d k v).*1 = if decide (k ∈ d.*1) then d.*1 else d.*1 ++ [k].
Proof.
  induction d as [|[k0 v0] d IH]; cbn [ODict.set].
  - destruct (decide (k ∈ [])) as [H|_]; [inversion H|reflexivity].
  - destruct (decide (k = k0)) as [->|Hne]; rewrite !fmap_cons; cbn [fst].
    + destruct (decide (k0 ∈ k0 :: d.*1)) as [_|H]; [reflexivity|].
      exfalso. apply H. left.
    + rewrite IH. destruct (decide (k ∈ d.*1)) as [Hin|Hnin].
      * destruct (decide (k ∈ k0 :: d.*1)) as [_|H]; [reflexivity|].
        exfalso. apply H. now right.
      * destruct (decide (k ∈ k0 :: d.*1)) as [H|_]; [|reflexivity].
        apply elem_of_cons in H as [H|H]; [congruence|contradiction].
Qed.

Lemma get_in (d : list (K * V)) k v :
  NoDup (d.*1) -> (k, v) ∈ d -> ODict.get d k = Some v.
Proof.
  induction d as [|[k0 v0] d IH]; intros Hnd Hin; [inversion Hin|].
  rewrite fmap_cons in Hnd. cbn [fst] in Hnd.
  apply list.NoDup_cons in Hnd as [Hk0 Hnd].
  cbn [ODict.get]. apply elem_of_cons in Hin as [[= -> ->]|Hin].
  - now destruct (decide (k0 = k0)).
  - destruct (decide (k = k0)) as [->|_]; [|now apply IH].
    exfalso. apply Hk0. apply list_elem_of_fmap. now exists (k0, v).
Qed.
End DictFacts.

Lemma occurrences_app s p q :
  occurrences s (p ++ q) = (occurrences s p + occurrences s q)%Z.
Proof. unfold occurrences. rewrite List.filter_app, length_app. lia. Qed.

Lemma occurrences_pos s p : s ∈ p -> (1 <= occurrences s p)%Z.
Proof.
  unfold occurrences. induction 1 as [s p|s w p _ IH]; cbn [List.filter].
  - rewrite bool_decide_eq_true_2 by reflexivity. cbn [length]. lia.
  - destruct (bool_decide (w = s)); cbn [length]; lia.
Qed.

Lemma occurrences_none s p : s ∉ p -> occurrences s p = 0%Z.
Proof.
  unfold occurrences. induction p as [|w p IH]; intros H; [reflexivity|].
  apply not_elem_of_cons in H as [H1 H2]. cbn [List.filter].
  rewrite bool_decide_eq_false_2 by congruence. now apply IH.
Qed.

Lemma week_counts_nil : week_counts_of [] [].
Proof.
  split; [constructor|split].
  - intros s. destruct (decide (s ∈ [])) as [H|_]; [inversion H|reflexivity].
  - intros k1 s k2 H. now destruct k1.
Qed.

Lemma week_counts_bump p wc s :
  week_counts_of p wc -> week_counts_of (p ++ [s]) (bump wc s).
Proof.
  intros (Hnd & Hget & Hord). unfold bump.
  assert (Hkey : ∀ w, w ∈ wc.*1 ↔ w ∈ p).
  { intros w. specialize (Hget w). split; intros H.
    - destruct (decide (w ∈ p)) as [|Hn]; [assumption|].
      apply list_elem_of_fmap in H as ([w' n] & -> & Hin).
      rewrite (get_in wc w' n Hnd Hin) in Hget. discriminate.
    - destruct (decide (w ∈ p)) as [_|]; [|contradiction].
      clear -Hget. induction wc as [|[k0 v0] wc IH]; [discriminate|].
      cbn [ODict.get] in Hget. rewrite fmap_cons. cbn [fst].
      destruct (decide (w = k0)) as [->|_]; [left|right; now apply IH]. }
  split; [|split].
  - rewrite keys_set. destruct (decide (s ∈ wc.*1)) as [_|Hn]; [exact Hnd|].
    apply list.NoDup_app. split; [exact Hnd|]. split; [|apply list.NoDup_singleton].
    intros w Hw Hw'. apply list_elem_of_singleton in Hw'. now subst w.
  - intros s'. rewrite get_set, occurrences_app.
    destruct (decide (s' = s)) as [->|Hne].
    + destruct (decide (s ∈ p ++ [s])) as [_|Hn];
        [|exfalso; apply Hn, elem_of_app; right; left].
      rewrite Hget. f_equal.
      assert (E : occurrences s [s] = 1%Z).
      { unfold occurrences. cbn [List.filter].
        now rewrite bool_decide_eq_true_2 by reflexivity. }
      rewrite E. destruct (decide (s ∈ p)) as [Hin|Hnin]; cbn [default].
      * reflexivity.
      * now rewrite occurrences_none by assumption.
    + rewrite Hget. rewrite (occurrences_none s' [s]);
        [|intros H; apply list_elem_of_singleton in H; congruence].
      destruct (decide (s' ∈ p)) as [Hin|Hnin].
      * destruct (decide (s' ∈ p ++ [s])) as [_|Hn];
          [|exfalso; apply Hn, elem_of_app; now left].
        f_equal. lia.
      * destruct (decide (s' ∈ p ++ [s])) as [H|_]; [|reflexivity].
        apply elem_of_app in H as [H|H]; [contradiction|].
        apply list_elem_of_singleton in H. congruence.
  - intros k1 s' k2. rewrite keys_set.
    destruct (decide (s ∈ wc.*1)) as [Hin|Hnin]; intros E.
    + destruct (Hord k1 s' k2 E) as (pre & post & -> & Hpre).
      exists pre, (post ++ [s]). split; [|exact Hpre].
      now rewrite <- app_assoc.
    + destruct k2 as [|k k2' _] using rev_ind.
      * apply app_inj_tail in E as [E1 <-].
        exists p, []. split; [reflexivity|].
        intros w Hw. rewrite <- E1. now apply Hkey.
      * rewrite app_comm_cons, app_assoc in E.
        apply app_inj_tail in E as [E ->].
        destruct (Hord k1 s' k2' E) as (pre & post & -> & Hpre).
        exists pre, (post ++ [k]). split; [|exact Hpre].
        now rewrite <- app_assoc.
Qed.

Lemma week_counts_fold weeks : ∀ p wc,
  week_counts_of p wc ->
  week_counts_of (p ++ weeks) (fold_left bump weeks wc).
Proof.
  induction weeks as [|s weeks IH]; intros p wc H; cbn [fold_left].
  - now rewrite app_nil_r.
  - replace (p ++ s :: weeks) with ((p ++ [s]) ++ weeks)
      by now rewrite <- app_assoc.
    apply IH. now apply week_counts_bump.
Qed.

(** [max] with a key returns the first of the items whose key no other
    exceeds. *)
Lemma max_by_count_first rest : ∀ l1 best l2,
  (∀ y, y ∈ l1 -> (snd y < snd best)%Z) ->
  (∀ y, y ∈ l2 -> (snd y <= snd best)%Z) ->
  ∃ l1' x l2',
    l1 ++ best :: l2 ++ rest = l1' ++ x :: l2'
    ∧ max_by_count best rest = fst x
    ∧ (∀ y, y ∈ l1' -> (snd y < snd x)%Z)
    ∧ (∀ y, y ∈ l2' -> (snd y <= snd x)%Z).
Proof.
  induction rest as [|item rest IH]; intros l1 best l2 H1 H2;
    cbn [max_by_count].
  - exists l1, best, l2. rewrite app_nil_r. auto.
  - destruct (snd best <? snd item)%Z eqn:E.
    + apply Z.ltb_lt in E.
      destruct (IH (l1 ++ best :: l2) item []) as (l1' & x & l2' & E' & R).
      * intros y Hy. apply elem_of_app in Hy as [Hy|Hy].
        -- specialize (H1 y Hy). lia.
        -- apply elem_of_cons in Hy as [->|Hy]; [lia|].
           specialize (H2 y Hy). lia.
      * intros y Hy. inversion Hy.
      * exists l1', x, l2'. split; [|exact R].
        rewrite <- E'. cbn [app]. now rewrite <- app_assoc.
    + apply Z.ltb_ge in E.
      destruct (IH l1 best (l2 ++ [item])) as (l1' & x & l2' & E' & R).
      * exact H1.
      * intros y Hy. apply elem_of_app in Hy as [Hy|Hy]; [now apply H2|].
        apply list_elem_of_singleton in Hy. now subst y.
      * exists l1', x, l2'. split; [|exact R].
        rewrite <- E'. now rewrite <- app_assoc.
Qed.

Lemma count_weeks_fold orders : ∀ weeks wc,
  Forall2 (fun o w => get_week_sunday (date o) = Some w) orders weeks ->
  count_weeks orders wc = Some (fold_left bump weeks wc).
Proof.
  induction orders as [|o orders IH]; intros weeks wc H.
  - apply Forall2_nil_inv_l in H as ->. reflexivity.
  - apply Forall2_cons_inv_l in H as (w & weeks' & Hw & Hrest & ->).
    cbn [count_weeks fold_left]. rewrite Hw. cbn. now apply IH.
Qed.

Lemma weeks_of_orders orders :
  Forall (fun o => (7 <= ordinal (date o) <= MAXORDINAL)%Z) orders ->
  ∃ weeks,
    Forall2 (fun o w => get_week_sunday (date o) = Some w) orders weeks.
Proof.
  induction 1 as [|o orders Ho _ (weeks & IH)]; [now exists []|].
  destruct (get_week_sunday (date o)) as [w|] eqn:E.
  - exists (w :: weeks). now constructor.
  - apply get_week_sunday_none in E; lia.
Qed.

Lemma tally_weeks s orders weeks :
  Forall2 (fun o w => get_week_sunday (date o) = Some w) orders weeks ->
  tally (week_is s) orders = occurrences s weeks.
Proof.
  unfold tally, occurrences.
  induction 1 as [|o w orders weeks Hw _ IH]; [reflexivity|].
  cbn [List.filter]. unfold week_is at 1. rewrite Hw.
  destruct (decide (w = s)) as [->|Hne].
  - rewrite !bool_decide_eq_true_2 by reflexivity. cbn [length]. lia.
  - rewrite !bool_decide_eq_false_2 by congruence. exact IH.
Qed.

(** What [determine_week] returns on orders whose weeks are [weeks]. *)
Lemma determine_week_weeks now orders weeks :
  orders ≠ [] ->
  Forall2 (fun o w => get_week_sunday (date o) = Some w) orders weeks ->
  ∃ ws pre post,
    determine_week now orders
    = Some (ws, strftime_B ws, year ws, week_of_month ws)
    ∧ weeks = pre ++ ws :: post
    ∧ Forall (fun w => (occurrences w weeks < occurrences ws weeks)%Z) pre
    ∧ ∀ s, (occurrences s weeks <= occurrences ws weeks)%Z.
Proof.
  intros Hne H2.
  pose proof (week_counts_fold weeks [] [] week_counts_nil) as Hwc.
  cbn [app] in Hwc.
  unfold determine_week. destruct orders as [|o orders']; [contradiction|].
  rewrite (count_weeks_fold _ weeks [] H2). cbn.
  destruct (fold_left bump weeks []) as [|item rest] eqn:Ewc.
  - exfalso. destruct Hwc as (_ & Hget & _).
    apply Forall2_cons_inv_l in H2 as (w & weeks' & _ & _ & ->).
    specialize (Hget w). cbn [ODict.get] in Hget.
    rewrite decide_True in Hget by left. discriminate.
  - destruct (max_by_count_first rest [] item [])
      as (l1 & x & l2 & E & -> & Hl1 & Hl2);
      [intros y Hy; inversion Hy|intros y Hy; inversion Hy|].
    cbn [app] in E. rewrite E in Hwc. destruct Hwc as (Hnd & Hget & Hord).
    assert (Hcount : ∀ w n, (w, n) ∈ l1 ++ x :: l2 ->
                            w ∈ weeks ∧ n = occurrences w weeks).
    { intros w n Hin. pose proof (get_in _ w n Hnd Hin) as G.
      rewrite Hget in G. destruct (decide (w ∈ weeks)); [|discriminate].
      split; [assumption|congruence]. }
    destruct x as [ws n]. cbn [fst snd] in *.
    destruct (Hcount ws n) as [Hws ->];
      [apply elem_of_app; right; left|].
    destruct (Hord (l1.*1) ws (l2.*1)) as (pre & post & Ew & Hpre).
    { now rewrite fmap_app. }
    exists ws, pre, post. split; [reflexivity|]. split; [exact Ew|]. split.
    + apply List.Forall_forall. intros w Hw.
      apply list_elem_of_In in Hw. apply Hpre in Hw.
      apply list_elem_of_fmap in Hw as ([w' m] & -> & Hin).
      destruct (Hcount w' m) as [_ ->]; [apply elem_of_app; now left|].
      exact (Hl1 _ Hin).
    + intros s. destruct (decide (s ∈ weeks)) as [Hin|Hnin].
      * specialize (Hget s). rewrite decide_True in Hget by assumption.
        assert (Hs : (s, occurrences s weeks) ∈ l1 ++ (ws, occurrences ws weeks) :: l2).
        { clear -Hget. revert Hget.
          generalize (l1 ++ (ws, occurrences ws weeks) :: l2).
          intros l. induction l as [|[k v] l IH]; [discriminate|].
          cbn [ODict.get]. destruct (decide (s = k)) as [->|_].
          - intros [= ->]. left.
          - intros H. right. now apply IH. }
        apply elem_of_app in Hs as [Hs|Hs].
        -- specialize (Hl1 _ Hs). cbn [snd] in Hl1. lia.
        -- apply elem_of_cons in Hs as [Hs|Hs].
           ++ injection Hs as _ ->. lia.
           ++ exact (Hl2 _ Hs).
      * rewrite (occurrences_none s) by assumption.
        pose proof (occurrences_pos ws weeks Hws). lia.
Qed.

(** X7: with orders, [determine_week] returns the week that holds the
    most of them; among several such weeks, the one whose first order
    comes first. *)
Theorem determine_week_most_orders (now : datetime) (orders : list order) :
  orders ≠ [] ->
  Forall (fun o => (7 <= ordinal (date o) <= MAXORDINAL)%Z) orders ->
  ∃ ws pre o post,
    determine_week now orders
    = Some (ws, strftime_B ws, year ws, week_of_month ws)
    ∧ orders = pre ++ o :: post
    ∧ week_is ws o = true
    ∧ Forall (fun o' => ∀ s, week_is s o' = true ->
                (tally (week_is s) orders < tally (week_is ws) orders)%Z) pre
    ∧ ∀ s, (tally (week_is s) orders <= tally (week_is ws) orders)%Z.
Proof.
  intros Hne Hvalid.
  destruct (weeks_of_orders orders Hvalid) as (weeks & H2).
  destruct (determine_week_weeks now orders weeks Hne H2)
    as (ws & pre & post & Hret & Ew & Hpre & Hmax).
  pose proof H2 as H2'. rewrite Ew in H2'.
  apply Forall2_app_inv_r in H2' as (pre_o & rest_o & Hp & Hr & Eo).
  apply Forall2_cons_inv_r in Hr as (o & post_o & Ho & Hpost & ->).
  exists ws, pre_o, o, post_o. split; [exact Hret|]. split; [exact Eo|].
  split; [unfold week_is; now apply bool_decide_eq_true_2|]. split.
  - clear -Hp Hpre H2. induction Hp as [|o' w pre_o pre Hw _ IH];
      [constructor|].
    apply List.Forall_cons_iff in Hpre as [Hlt Hpre]. constructor.
    + intros s Hs. unfold week_is in Hs. apply bool_decide_eq_true_1 in Hs.
      rewrite Hw in Hs. injection Hs as <-.
      rewrite !(tally_weeks _ _ _ H2). exact Hlt.
    + now apply IH.
  - intros s. rewrite !(tally_weeks _ _ _ H2). apply Hmax.
Qed.

Lemma determine_week_most_orders_witness :
  tied_orders ≠ []
  ∧ Forall (fun o => (7 <= ordinal (date o) <= MAXORDINAL)%Z) tied_orders
  ∧ ∃ ws pre o post,
      determine_week monday_23_feb_9am tied_orders
      = Some (ws, strftime_B ws, year ws, week_of_month ws)
      ∧ tied_orders = pre ++ o :: post
      ∧ week_is ws o = true
      ∧ Forall (fun o' => ∀ s, week_is s o' = true ->
                  (tally (week_is s) tied_orders
                   < tally (week_is ws) tied_orders)%Z) pre
      ∧ ∀ s, (tally (week_is s) tied_orders
              <= tally (week_is ws) tied_orders)%Z.
Proof.
  assert (H : Forall (fun o => (7 <= ordinal (date o) <= MAXORDINAL)%Z)
                tied_orders).
  { repeat constructor; vm_compute; discriminate. }
  split; [discriminate|]. split; [exact H|].
  apply (determine_week_most_orders monday_23_feb_9am tied_orders);
    [discriminate|exact H].
Defined.

Example determine_week_tie :
  determine_week monday_23_feb_9am tied_orders
  = Some (sunday_1_mar, PyStr.lit "March", 2026%Z, 1%Z)
  ∧ tally (week_is sunday_22_feb) tied_orders = 2%Z
  ∧ tally (week_is sunday_1_mar) tied_orders = 2%Z.
Proof. vm_compute. repeat split. Qed.

Lemma count_weeks_none orders : ∀ wc,
  count_weeks orders wc = None
  ↔ Exists (fun o => get_week_sunday (date o) = None) orders.
Proof.
  induction orders as [|o orders IH]; intros wc; cbn [count_weeks].
  - split; [discriminate|]. intros H. inversion H.
  - rewrite List.Exists_cons.
    destruct (get_week_sunday (date o)) as [ws|]; cbn.
    + rewrite IH. split; [now right|]. now intros [H|H]; [discriminate|].
    + split; [now left|reflexivity].
Qed.

Lemma count_weeks_some orders : ∀ wc wc',
  count_weeks orders wc = Some wc' ->
  ∃ weeks,
    Forall2 (fun o w => get_week_sunday (date o) = Some w) orders weeks.
Proof.
  induction orders as [|o orders IH]; intros wc wc'; cbn [count_weeks].
  - now exists [].
  - destruct (get_week_sunday (date o)) as [ws|] eqn:E; cbn; [|discriminate].
    intros H. destruct (IH _ _ H) as (weeks & Hw).
    exists (ws :: weeks). now constructor.
Qed.

(** X8: [determine_week] fails, with the [OverflowError] of
    [get_week_sunday], exactly when an order, or the clock when there is no
    order, falls in the first six days of year 1. *)
Theorem determine_week_overflow (now : datetime) (orders : list order) :
  (1 <= ordinal now <= MAXORDINAL)%Z ->
  Forall (fun o => (1 <= ordinal (date o) <= MAXORDINAL)%Z) orders ->
  determine_week now orders = None
  ↔ (orders = [] ∧ (ordinal now < 7)%Z)
    ∨ Exists (fun o => (ordinal (date o) < 7)%Z) orders.
Proof.
  intros Hnow Hvalid.
  assert (Hex : Exists (fun o => get_week_sunday (date o) = None) orders
                ↔ Exists (fun o => (ordinal (date o) < 7)%Z) orders).
  { rewrite !List.Exists_exists. split; intros (o & Hin & H); exists o;
      (split; [exact Hin|]);
      pose proof (proj1 (List.Forall_forall _ _) Hvalid o Hin) as Hv;
      now apply (get_week_sunday_none (date o) Hv). }
  destruct orders as [|o orders'].
  - cbn [determine_week].
    destruct (get_week_sunday now) as [ws|] eqn:E; cbn.
    + split; [discriminate|]. intros [[_ H]|H]; [|inversion H].
      apply (get_week_sunday_none now Hnow) in H. congruence.
    + split; [|reflexivity]. intros _. left. split; [reflexivity|].
      now apply (get_week_sunday_none now Hnow).
  - rewrite <- Hex, <- (count_weeks_none (o :: orders') []).
    destruct (count_weeks (o :: orders') []) as [wc|] eqn:E.
    + destruct (count_weeks_some _ _ _ E) as (weeks & Hw).
      destruct (determine_week_weeks now (o :: orders') weeks
                  ltac:(discriminate) Hw) as (ws & _ & _ & -> & _).
      split; [discriminate|]. now intros [[H _]|H]; [discriminate|].
    + unfold determine_week. rewrite E. cbn.
      split; [now right|reflexivity].
Qed.

Lemma determine_week_overflow_witness :
  determine_week monday_23_feb_9am
    [mk_order (PyStr.lit "Azul") (DateTime.make 1 1 3 9 0) (PyStr.lit "azul")]
  = None.
Proof.
  apply determine_week_overflow.
  - vm_compute. split; discriminate.
  - repeat constructor; vm_compute; discriminate.
  - right. left. vm_compute. reflexivity.
Defined.

(** * The calendar fields of the chosen week *)

Lemma ord2ymd_month_day n :
  ord2ymd n
  = let n0 := (n - 1)%Z in
    let n400 := (n0 / 146097)%Z in
    let r := (n0 mod 146097)%Z in
    let n100 := (r / 36524)%Z in
    let r1 := (r mod 36524)%Z in
    let n4 := (r1 / 1461)%Z in
    let r2 := (r1 mod 1461)%Z in
    let n1 := (r2 / 365)%Z in
    let r3 := (r2 mod 365)%Z in
    let year := (n400 * 400 + 1 + n100 * 100 + n4 * 4 + n1)%Z in
    if ((n1 =? 4) || (n100 =? 4))%Z then ((year - 1)%Z, 12%Z, 31%Z)
    else
      let md := month_day r3 ((n1 =? 3) && (negb (n4 =? 24) || (n100 =? 3)))%Z in
      (year, fst md, snd md).
Proof.
  unfold ord2ymd, month_day. cbv zeta.
  destruct ((((n - 1) mod 146097) mod 36524) mod 1461 / 365 =? 4)%Z;
    destruct (((n - 1) mod 146097) / 36524 =? 4)%Z; cbn [orb];
    try reflexivity.
  match goal with |- (if ?c then _ else _) = _ => destruct c end; reflexivity.
Qed.

Lemma month_days_ok :
  forallb (fun i => month_day_ok (Z.of_nat i)) (seq 0 365) = true.
Proof. vm_compute. reflexivity. Qed.

Lemma ord2ymd_fields n :
  (1 <= n <= MAXORDINAL)%Z ->
  (1 <= fst (fst (ord2ymd n)) <= 9999)%Z
  ∧ (1 <= snd (fst (ord2ymd n)) <= 12)%Z
  ∧ (1 <= snd (ord2ymd n) <= 31)%Z.
Proof.
  intros Hn. unfold MAXORDINAL in Hn. rewrite ord2ymd_month_day. cbv zeta.
  set (r3 := (((((n - 1) mod 146097) mod 36524) mod 1461) mod 365)%Z).
  assert (Hr3 : (0 <= r3 < 365)%Z) by (apply Z.mod_pos_bound; lia).
  assert (Hmd : ∀ leap, let md := month_day r3 leap in
                        (1 <= fst md <= 12)%Z ∧ (1 <= snd md <= 31)%Z).
  { intros leap.
    pose proof (proj1 (forallb_forall _ _) month_days_ok (Z.to_nat r3)) as H.
    specialize (H ltac:(apply in_seq; lia)). cbv beta in H.
    rewrite Z2Nat.id in H by lia.
    unfold month_day_ok in H. cbn [forallb] in H.
    apply andb_true_iff in H as [H1 H2].
    apply andb_true_iff in H2 as [H2 _].
    destruct leap; [clear H2; rename H1 into H|clear H1; rename H2 into H];
      cbv zeta; destruct (month_day r3 _) as [m d]; cbn [fst snd]; lia. }
  clearbody r3.
  destruct (_ || _)%bool eqn:E; cbn [fst snd].
  - split; [|lia].
    apply orb_true_iff in E. rewrite !Z.eqb_eq in E.
    Z.div_mod_to_equations. lia.
  - apply orb_false_iff in E as [E1 E2]. rewrite Z.eqb_neq in E1, E2.
    split; [|apply Hmd].
    Z.div_mod_to_equations. lia.
Qed.

(** X9: whatever [determine_week] returns is a Sunday at midnight, a week
    number from 1 to 5, a year from 1 to 9999 and the English name of a
    month. *)
Theorem determine_week_fields (now : datetime) (orders : list order)
    (ws : datetime) (m : pystr) (y w : Z) :
  (1 <= ordinal now <= MAXORDINAL)%Z ->
  determine_week now orders = Some (ws, m, y, w) ->
  sunday_midnight ws
  ∧ (1 <= w <= 5)%Z
  ∧ (1 <= y <= 9999)%Z
  ∧ ∃ i, (1 <= i <= 12)%nat ∧ m = PyStr.lit (nth i MONTH_NAMES ""%string).
Proof.
  intros Hnow H.
  assert (Hmonth : ∀ dt, (1 <= ordinal dt <= MAXORDINAL)%Z ->
            ∃ i, (1 <= i <= 12)%nat
                 ∧ strftime_B dt = PyStr.lit (nth i MONTH_NAMES ""%string)).
  { intros dt Hdt. exists (Z.to_nat (month dt)). split; [|reflexivity].
    pose proof (ord2ymd_fields _ Hdt) as (_ & Hm & _).
    unfold month. lia. }
  assert (Hweek : ∀ s, sunday_midnight s -> (1 <= week_of_month s <= 5)%Z).
  { intros s (Hs & _). pose proof (ord2ymd_fields _ Hs) as (_ & _ & Hd).
    unfold week_of_month, day.
    assert (0 <= (snd (ord2ymd (ordinal s)) - 1) / 7 < 5)%Z; [|lia].
    split; [apply Z.div_pos; lia|apply Z.div_lt_upper_bound; lia]. }
  assert (Hyear : ∀ dt, (1 <= ordinal dt <= MAXORDINAL)%Z ->
            (1 <= year dt <= 9999)%Z).
  { intros dt Hdt. now pose proof (ord2ymd_fields _ Hdt) as (Hy & _). }
  destruct orders as [|o orders'].
  - cbn [determine_week] in H.
    destruct (get_week_sunday now) as [s|] eqn:E;
      cbn [mbind option_bind] in H; [|discriminate].
    injection H as <- <- <- <-.
    pose proof (get_week_sunday_sound _ _ E) as [Hs _].
    split; [exact Hs|]. split; [now apply Hweek|].
    split; [now apply Hyear|now apply Hmonth].
  - destruct (count_weeks (o :: orders') []) as [wc|] eqn:E.
    + destruct (count_weeks_some _ _ _ E) as (weeks & Hw).
      destruct (determine_week_weeks now (o :: orders') weeks
                  ltac:(discriminate) Hw) as (s & pre & post & R & Ew & _).
      rewrite R in H. injection H as <- <- <- <-.
      assert (Hs : sunday_midnight s).
      { rewrite Ew in Hw.
        apply Forall2_app_inv_r in Hw as (? & ? & _ & Hr & _).
        apply Forall2_cons_inv_r in Hr as (o' & ? & Ho & _).
        now apply (get_week_sunday_sound _ _ Ho). }
      split; [exact Hs|]. split; [now apply Hweek|].
      destruct Hs as (Hs & _).
      split; [now apply Hyear|now apply Hmonth].
    + unfold determine_week in H. rewrite E in H. discriminate.
Qed.

Lemma determine_week_fields_witness :
  (1 <= ordinal monday_23_feb_9am <= MAXORDINAL)%Z
  ∧ determine_week monday_23_feb_9am tied_orders
    = Some (sunday_1_mar, PyStr.lit "March", 2026%Z, 1%Z)
  ∧ sunday_midnight sunday_1_mar.
Proof.
  assert (H1 : (1 <= ordinal monday_23_feb_9am <= MAXORDINAL)%Z).
  { vm_compute. split; discriminate. }
  assert (H2 : determine_week monday_23_feb_9am tied_orders
               = Some (sunday_1_mar, PyStr.lit "March", 2026%Z, 1%Z)).
  { vm_compute. reflexivity. }
  split; [exact H1|]. split; [exact H2|].
  exact (proj1 (determine_week_fields _ _ _ _ _ _ H1 H2)).
Defined.

(** * Loading the tracker *)

Lemma store_rows_map {R R' : Type} (g : R -> R') (body : R' -> outcome)
    rows : ∀ acc,
  store_rows body (List.map g rows) acc
  = store_rows (fun r => body (g r)) rows acc.
Proof.
  induction rows as [|r rows IH]; intros acc; [reflexivity|].
  cbn [List.map store_rows]. destruct (body (g r)); auto.
Qed.

Lemma store_rows_ext {R : Type} (body body' : R -> outcome) rows :
  (∀ r, body r = body' r) ->
  ∀ acc, store_rows body rows acc = store_rows body' rows acc.
Proof.
  intros H. induction rows as [|r rows IH]; intros acc; [reflexivity|].
  cbn [store_rows]. rewrite <- H. destruct (body r); auto.
Qed.

Lemma store_rows_none {R : Type} (body : R -> outcome) rows : ∀ acc,
  store_rows body rows acc = None ↔ Exists (fun r => body r = Raised) rows.
Proof.
  induction rows as [|r rows IH]; intros acc; cbn [store_rows].
  - split; [discriminate|]. intros H. inversion H.
  - rewrite List.Exists_cons. destruct (body r) eqn:E.
    + rewrite IH. split; [now right|]. now intros [H|H]; [discriminate|].
    + rewrite IH. split; [now right|]. now intros [H|H]; [discriminate|].
    + split; [now left|reflexivity].
Qed.

Lemma store_rows_fold {R : Type} (body : R -> outcome) rows : ∀ acc rs,
  store_rows body rows acc = Some rs ->
  rs = fold_left (fun d kv => ODict.set d kv.1 kv.2) (stored body rows) acc.
Proof.
  induction rows as [|r rows IH]; intros acc rs; cbn [store_rows].
  - now intros [= <-].
  - unfold stored. cbn [flat_map]. destruct (body r); try discriminate;
      cbn [app fold_left]; apply IH.
Qed.

Lemma load_as_ingest f :
  load_scorecard_of f = store_rows ingest (data_rows f) [].
Proof.
  destruct f as [[reader|ws]|ws]; cbn [load_scorecard_of data_rows];
    unfold App.load_scorecard, Gen.load_scorecard;
    now rewrite store_rows_map.
Qed.

Lemma elem_of_rev {A} (x : A) l : x ∈ rev l ↔ x ∈ l.
Proof. now rewrite !list_elem_of_In, <- in_rev. Qed.

Lemma first_seen_elem k ks : k ∈ first_seen ks ↔ k ∈ ks.
Proof.
  unfold first_seen. now rewrite elem_of_rev, elem_of_remove_dups, elem_of_rev.
Qed.

Lemma first_seen_snoc ks k :
  first_seen (ks ++ [k])
  = if decide (k ∈ first_seen ks) then first_seen ks else first_seen ks ++ [k].
Proof.
  destruct (decide (k ∈ first_seen ks)) as [Hin|Hnin];
    rewrite first_seen_elem, <- elem_of_rev in *;
    unfold first_seen; rewrite rev_app_distr; cbn [rev app remove_dups].
  - destruct (decide_rel elem_of k (rev ks)); [reflexivity|contradiction].
  - destruct (decide_rel elem_of k (rev ks)); [contradiction|reflexivity].
Qed.

Lemma first_seen_NoDup ks : NoDup (first_seen ks).
Proof.
  unfold first_seen. apply NoDup_ListNoDup, List.NoDup_rev, NoDup_ListNoDup.
  apply NoDup_remove_dups.
Qed.

Lemma last_stored_snoc k p k' v :
  last_stored k (p ++ [(k', v)])
  = if decide (k = k') then Some v else last_stored k p.
Proof. unfold last_stored. now rewrite rev_app_distr. Qed.

Lemma store_fold p : ∀ q d,
  d.*1 = first_seen (q.*1) ->
  (∀ k, ODict.get d k = last_stored k q) ->
  (fold_left (fun d kv => ODict.set d kv.1 kv.2) p d).*1
    = first_seen ((q ++ p).*1)
  ∧ ∀ k, ODict.get (fold_left (fun d kv => ODict.set d kv.1 kv.2) p d) k
         = last_stored k (q ++ p).
Proof.
  induction p as [|[k' v] p IH]; intros q d Hkeys Hget; cbn [fold_left].
  - now rewrite app_nil_r.
  - replace (q ++ (k', v) :: p) with ((q ++ [(k', v)]) ++ p)
      by now rewrite <- app_assoc.
    apply IH; cbn [fst snd].
    + rewrite keys_set, fmap_app. change ([(k', v)].*1) with [k'].
      rewrite first_seen_snoc, Hkeys. reflexivity.
    + intros k. rewrite get_set, last_stored_snoc. now rewrite Hget.
Qed.

(** X10: rows with the same key collapse into one record: the keys stay
    in the order of their first rows, and each key holds the record of its
    last row. *)
Theorem load_scorecard_last_row_wins (f : tracker_file)
    (restaurants : list (pystr * TrackerRecord)) :
  load_scorecard_of f = Some restaurants ->
  restaurants.*1 = first_seen ((stored ingest (data_rows f)).*1)
  ∧ ∀ k, ODict.get restaurants k
         = last_stored k (stored ingest (data_rows f)).
Proof.
  rewrite load_as_ingest. intros H. apply store_rows_fold in H as ->.
  apply (store_fold _ [] []); [reflexivity|].
  intros k. reflexivity.
Qed.

Lemma load_scorecard_last_row_wins_witness :
  App.load_scorecard (App.CsvRows twice_pachi)
  = Some [(PyStr.lit "pachi pizza",
           mk_record (PyStr.lit "PACHI   pizza") FFalse FTrue FTrue FTrue
             [FFalse; FTrue; FFalse; FFalse; FFalse; FFalse; FFalse] 40)]
  ∧ last_stored (PyStr.lit "pachi pizza")
      (stored ingest (data_rows (AppFile (App.CsvRows twice_pachi))))
    = Some (mk_record (PyStr.lit "PACHI   pizza") FFalse FTrue FTrue FTrue
              [FFalse; FTrue; FFalse; FFalse; FFalse; FFalse; FFalse] 40).
Proof.
  assert (E : load_scorecard_of (AppFile (App.CsvRows twice_pachi))
              = Some [(PyStr.lit "pachi pizza",
                       mk_record (PyStr.lit "PACHI   pizza") FFalse FTrue
                         FTrue FTrue
                         [FFalse; FTrue; FFalse; FFalse; FFalse; FFalse;
                          FFalse] 40)]).
  { vm_compute. reflexivity. }
  split; [exact E|].
  now rewrite <- (proj2 (load_scorecard_last_row_wins _ _ E)).
Defined.

Lemma csv_body_not_raised row : App.csv_body row ≠ Raised.
Proof.
  unfold App.csv_body.
  destruct (length row <? 12)%nat; [discriminate|].
  destruct (nth 0 row []) as [|c0 name0]; [discriminate|].
  destruct (PyStr.eqb _ _); [discriminate|].
  set (k := Z.of_nat (length (List.filter _ (seq 2 10)))).
  assert (Hk : k = true_flags
                     (List.map (fun c => App.val (nth c row [])) (seq 2 10))).
  { unfold k, true_flags. rewrite filter_map_length. reflexivity. }
  rewrite score_of_exact
    by (rewrite Hk;
        apply (true_flags_bound (fun c => App.val (nth c row [])) (seq 2 10))).
  discriminate.
Qed.

Lemma xl_name_raised row : xl_name row = inl Raised ↔ not_a_string row.
Proof.
  unfold xl_name, not_a_string.
  destruct (cell row 1) as [|[|]|[|c name]|[|]]; try destruct (PyStr.eqb _ _);
    split; intros H; try discriminate; try (destruct H; discriminate); auto.
Qed.

Lemma xl_name_cases row :
  xl_name row = inl Skipped ∨ xl_name row = inl Raised
  ∨ ∃ name, xl_name row = inr name.
Proof.
  unfold xl_name.
  destruct (cell row 1) as [|[|]|[|c name]|[|]]; try destruct (PyStr.eqb _ _);
    eauto.
Qed.

(** The two worksheet loops do the same to every row. *)
Lemma xlsx_bodies_agree row : App.xlsx_body row = Gen.xlsx_body row.
Proof.
  unfold App.xlsx_body, Gen.xlsx_body.
  destruct (xl_name row) as [out|name]; [reflexivity|].
  rewrite xl_true_count_flags.
  rewrite score_of_exact by apply (true_flags_bound (val_xl row) (seq 3 10)).
  now rewrite Z.mul_comm.
Qed.

Lemma gen_xlsx_raised row : Gen.xlsx_body row = Raised ↔ not_a_string row.
Proof.
  rewrite <- xl_name_raised. unfold Gen.xlsx_body.
  destruct (xl_name_cases row) as [E|[E|[name E]]]; rewrite E.
  - split; intros H; discriminate.
  - split; reflexivity.
  - split; intros H; discriminate.
Qed.

(** X11: on the rows the CSV parser hands over [load_scorecard] never
    fails; on a worksheet it fails exactly when a name cell from row 5 on
    holds a true value that is no string, which has no [strip]. *)
Theorem load_scorecard_failure :
  (∀ reader, is_Some (App.load_scorecard (App.CsvRows reader)))
  ∧ (∀ ws, App.load_scorecard (App.Worksheet ws) = None
           ↔ Exists not_a_string (skipn 4 ws))
  ∧ (∀ ws, Gen.load_scorecard ws = None ↔ Exists not_a_string (skipn 4 ws)).
Proof.
  split; [|split].
  - intros reader. unfold App.load_scorecard.
    destruct (store_rows App.csv_body (skipn 4 reader) []) eqn:E; [eauto|].
    apply store_rows_none in E. apply List.Exists_exists in E as (row & _ & H).
    now apply csv_body_not_raised in H.
  - intros ws. unfold App.load_scorecard. rewrite store_rows_none.
    rewrite !List.Exists_exists. split; intros (row & Hin & H); exists row;
      (split; [exact Hin|]).
    + rewrite xlsx_bodies_agree in H. now apply gen_xlsx_raised.
    + rewrite xlsx_bodies_agree. now apply gen_xlsx_raised.
  - intros ws. unfold Gen.load_scorecard. rewrite store_rows_none.
    rewrite !List.Exists_exists. split; intros (row & Hin & H); exists row;
      (split; [exact Hin|]); now apply gen_xlsx_raised.
Qed.

(** X12: on a worksheet the loader of [app.py] and the loader of
    [generate_scorecards.py] return the same, or fail together. *)
Theorem worksheet_loaders_agree (ws : list (list xl_value)) :
  App.load_scorecard (App.Worksheet ws) = Gen.load_scorecard ws.
Proof.
  unfold App.load_scorecard, Gen.load_scorecard.
  apply store_rows_ext, xlsx_bodies_agree.
Qed.

Lemma xl_name_string row name :
  xl_name row = inr name -> cell row 1 = XStr name ∧ storable name.
Proof.
  unfold xl_name, storable.
  destruct (cell row 1) as [|[|]|[|c s]|[|]]; try discriminate.
  destruct (PyStr.eqb _ _) eqn:E; [discriminate|].
  intros [= <-]. split; [reflexivity|]. split; [discriminate|].
  unfold PyStr.eqb in E. now apply bool_decide_eq_false_1 in E.
Qed.

Lemma true_flags_le flags : (0 <= true_flags flags <= Z.of_nat (length flags))%Z.
Proof.
  pose proof (true_flags_bound (fun f : flag => f) flags) as H.
  now rewrite List.map_id in H.
Qed.

(** What a stored record holds. *)
Lemma ingest_stored r k data :
  ingest r = Stored k data ->
  ∃ name,
    name_cell r = Some name ∧ storable name
    ∧ k = normalize name
    ∧ display_name data = PyStr.strip name
    ∧ length (stories data) = 7%nat
    ∧ score data = (10 * true_flags (scored_flags data))%Z
    ∧ (0 <= score data <= 100)%Z.
Proof.
  intros H.
  assert (Hscore : score data = (10 * true_flags (scored_flags data))%Z).
  { destruct r; cbn [ingest] in H;
      eauto using csv_score, app_xlsx_score, gen_xlsx_score. }
  assert (Hshape : ∃ name, name_cell r = Some name ∧ storable name
                           ∧ k = normalize name
                           ∧ display_name data = PyStr.strip name
                           ∧ length (stories data) = 7%nat).
  { destruct r as [row|row|row]; cbn [ingest name_cell] in *.
    - unfold App.csv_body in H.
      destruct (length row <? 12)%nat; [discriminate|].
      destruct (nth 0 row []) as [|c0 name0] eqn:N; [discriminate|].
      destruct (PyStr.eqb _ _) eqn:E; [discriminate|].
      destruct (App.score_of _); [|discriminate].
      injection H as <- <-. exists (c0 :: name0).
      unfold PyStr.eqb in E. apply bool_decide_eq_false_1 in E.
      repeat split; try reflexivity; try assumption. discriminate.
    - rewrite xlsx_bodies_agree in H. unfold Gen.xlsx_body in H.
      destruct (xl_name row) as [out|name] eqn:E;
        [exfalso; eapply xl_name_not_stored; eauto|].
      apply xl_name_string in E as [-> Hst]. injection H as <- <-.
      exists name. repeat split; try reflexivity; apply Hst.
    - unfold Gen.xlsx_body in H.
      destruct (xl_name row) as [out|name] eqn:E;
        [exfalso; eapply xl_name_not_stored; eauto|].
      apply xl_name_string in E as [-> Hst]. injection H as <- <-.
      exists name. repeat split; try reflexivity; apply Hst. }
  destruct Hshape as (name & H1 & H2 & H3 & H4 & H5).
  exists name. repeat split; try assumption; try apply H2.
  - rewrite Hscore. pose proof (true_flags_le (scored_flags data)). lia.
  - rewrite Hscore. pose proof (true_flags_le (scored_flags data)) as Hb.
    unfold scored_flags in Hb. rewrite length_app, H5 in Hb.
    cbn [length] in Hb. unfold scored_flags. lia.
Qed.

Lemma get_some_in {K V : Type} `{EqDecision K} (d : list (K * V)) k v :
  ODict.get d k = Some v -> (k, v) ∈ d.
Proof.
  induction d as [|[k0 v0] d IH]; [discriminate|].
  cbn [ODict.get]. destruct (decide (k = k0)) as [->|_].
  - intros [= ->]. left.
  - intros H. right. now apply IH.
Qed.

(** X13: what [load_scorecard] returns: one record per key, each the
    record of a row with a name the loop does not skip, under the
    normalized name, with the stripped name to display, seven day flags and
    a score that is ten times the number of true flags among the ten
    scored ones. *)
Theorem load_scorecard_records (f : tracker_file)
    (restaurants : list (pystr * TrackerRecord)) :
  load_scorecard_of f = Some restaurants ->
  NoDup (restaurants.*1)
  ∧ Forall (fun kd =>
      ∃ r name,
        In r (data_rows f) ∧ ingest r = Stored kd.1 kd.2
        ∧ name_cell r = Some name ∧ storable name
        ∧ kd.1 = normalize name
        ∧ display_name kd.2 = PyStr.strip name
        ∧ length (stories kd.2) = 7%nat
        ∧ score kd.2 = (10 * true_flags (scored_flags kd.2))%Z
        ∧ (0 <= score kd.2 <= 100)%Z) restaurants.
Proof.
  intros H. pose proof H as H'. rewrite load_as_ingest in H'.
  apply store_rows_fold in H'.
  destruct (store_fold (stored ingest (data_rows f)) [] [] eq_refl
              (fun k => eq_refl)) as [Hkeys Hget].
  rewrite <- H' in Hkeys, Hget. cbn [app] in Hkeys, Hget.
  assert (Hnd : NoDup (restaurants.*1)).
  { rewrite Hkeys. apply first_seen_NoDup. }
  split; [exact Hnd|].
  apply List.Forall_forall. intros [k data] Hin. cbn [fst snd].
  apply list_elem_of_In in Hin.
  pose proof (get_in _ _ _ Hnd Hin) as G. rewrite Hget in G.
  unfold last_stored in G. apply get_some_in in G.
  apply (proj1 (elem_of_rev _ _)) in G. apply list_elem_of_In in G.
  unfold stored in G.
  apply in_flat_map in G as (r & Hr & G).
  destruct (ingest r) as [|k' data'|] eqn:E; try contradiction.
  destruct G as [[= -> ->]|[]].
  destruct (ingest_stored r k data E) as (name & Hname).
  exists r, name. split; [exact Hr|]. split; [exact E|exact Hname].
Qed.

Lemma load_scorecard_records_witness :
  load_scorecard_of (GenFile pachi_sheet)
  = Some [(PyStr.lit "pachi pizza", pachi_record)]
  ∧ NoDup ([(PyStr.lit "pachi pizza", pachi_record)].*1).
Proof.
  assert (E : load_scorecard_of (GenFile pachi_sheet)
              = Some [(PyStr.lit "pachi pizza", pachi_record)]).
  { vm_compute. reflexivity. }
  split; [exact E|].
  exact (proj1 (load_scorecard_records _ _ E)).
Defined.

(** * The two formats of the tracker *)

Lemma exported_flag_val v s :
  exported_flag v s ->
  App.val s
  = match v with
    | XBool true => FTrue
    | XBool false => FFalse
    | XStr t =>
        if PyStr.eqb (PyStr.upper (PyStr.strip t)) (PyStr.lit "NA")
        then FNA else FFalse
    | _ => FFalse
    end.
Proof.
  unfold exported_flag, App.val, PyStr.eqb.
  destruct v as [|[|]|t|b].
  - intros ->. reflexivity.
  - intros ->. reflexivity.
  - intros ->. reflexivity.
  - intros [-> Hne]. rewrite (bool_decide_eq_false_2 _ Hne).
    destruct (bool_decide (PyStr.upper (PyStr.strip t) = PyStr.lit "FALSE"))
      eqn:E; [|reflexivity].
    apply bool_decide_eq_true_1 in E. rewrite E. reflexivity.
  - intros [H1 H2]. rewrite (bool_decide_eq_false_2 _ H1).
    rewrite (bool_decide_eq_false_2 _ H2).
    now destruct (bool_decide _).
Qed.

Lemma exported_row_val srow row c :
  exported_row srow row -> (2 <= c <= 12)%nat ->
  App.val (nth (c - 1) row []) = val_xl srow c.
Proof.
  intros (_ & _ & H) Hc. rewrite (exported_flag_val _ _ (H c Hc)).
  unfold val_xl. now destruct (cell srow c) as [|[|]|t|b].
Qed.

(** X14: on a CSV row that is the export of a worksheet row, the CSV
    branch of [load_scorecard] does what the worksheet branch does on the
    worksheet row. *)
Theorem csv_row_agrees_with_sheet_row (srow : list xl_value)
    (row : list pystr) :
  exported_row srow row -> App.csv_body row = App.xlsx_body srow.
Proof.
  intros Hexp. pose proof Hexp as (Hlen & Hname & _).
  assert (Hval : ∀ c, (1 <= c <= 11)%nat ->
                      App.val (nth c row []) = val_xl srow (S c)).
  { intros c Hc.
    rewrite <- (exported_row_val srow row (S c) Hexp ltac:(lia)).
    do 2 f_equal. lia. }
  rewrite xlsx_bodies_agree.
  unfold App.csv_body, Gen.xlsx_body, xl_name. rewrite Hlen. cbn [Nat.ltb Nat.leb].
  unfold exported_name in Hname.
  destruct (cell srow 1) as [|[|]|t|b]; try contradiction.
  - now rewrite Hname.
  - rewrite Hname. destruct t as [|c0 t0]; [reflexivity|].
    destruct (PyStr.eqb _ _); [reflexivity|].
    assert (Hcount : Z.of_nat (length (List.filter
                       (fun c => is_True (App.val (nth c row []))) (seq 2 10)))
                     = xl_true_count srow 3 13).
    { rewrite xl_true_count_flags. unfold true_flags.
      rewrite <- (seq_shift 10 2), List.map_map, filter_map_length.
      do 2 f_equal. apply List.filter_ext_in. intros c Hc.
      apply in_seq in Hc. now rewrite Hval by lia. }
    rewrite Hcount, xl_true_count_flags.
    rewrite score_of_exact by apply (true_flags_bound (val_xl srow) (seq 3 10)).
    cbn [seq List.map]. rewrite !Hval by lia.
    now rewrite Z.mul_comm.
Qed.

Lemma csv_row_agrees_with_sheet_row_witness :
  exported_row pachi_sheet_row pachi_csv_row
  ∧ App.csv_body pachi_csv_row = App.xlsx_body pachi_sheet_row.
Proof.
  assert (H : exported_row pachi_sheet_row pachi_csv_row).
  { split; [reflexivity|]. split; [reflexivity|].
    intros c Hc.
    assert (c = 2 ∨ c = 3 ∨ c = 4 ∨ c = 5 ∨ c = 6 ∨ c = 7 ∨ c = 8 ∨ c = 9
            ∨ c = 10 ∨ c = 11 ∨ c = 12)%nat as Hcases by lia.
    repeat destruct Hcases as [->|Hcases]; try subst c; reflexivity. }
  split; [exact H|]. exact (csv_row_agrees_with_sheet_row _ _ H).
Defined.

(** * More on the name map *)

Lemma app_match_in scorecard_norms csv_n sc_n :
  App.match_name scorecard_norms csv_n = Some sc_n -> sc_n ∈ scorecard_norms.
Proof.
  unfold App.match_name.
  destruct (bool_decide (csv_n ∈ scorecard_norms)) eqn:E.
  - intros [= <-]. now apply bool_decide_eq_true_1 in E.
  - destruct (List.find (related csv_n) scorecard_norms) as [t|] eqn:F.
    + intros [= <-]. apply List.find_some in F as [F _].
      now apply list_elem_of_In.
    + destruct (Difflib.get_close_matches csv_n scorecard_norms (3 # 5))
        as [|m tl] eqn:G; [discriminate|].
      intros [= <-].
      assert (H : ∃ tl, Difflib.get_close_matches csv_n scorecard_norms (3 # 5)
                        = m :: tl) by now exists tl.
      apply get_close_matches_best in H as [[H _] _]. exact H.
Qed.

Lemma gen_match_in scorecard_norms csv_n sc_n :
  Gen.match_name scorecard_norms csv_n = Some sc_n -> sc_n ∈ scorecard_norms.
Proof.
  assert (Hfind : List.find (related csv_n) scorecard_norms = Some sc_n ->
                  sc_n ∈ scorecard_norms).
  { intros F. apply List.find_some in F as [F _]. now apply list_elem_of_In. }
  unfold Gen.match_name.
  destruct (bool_decide (csv_n ∈ scorecard_norms)) eqn:E.
  - intros [= <-]. now apply bool_decide_eq_true_1 in E.
  - destruct (Gen.MANUAL_NAME_MAP !! csv_n) as [target|]; [|exact Hfind].
    destruct (bool_decide (target ∈ scorecard_norms)) eqn:T; [|exact Hfind].
    intros [= <-]. now apply bool_decide_eq_true_1 in T.
Qed.

Lemma name_map_target (order_norms scorecard_norms : list pystr)
    (name_map : gmap pystr pystr) (csv_n sc_n : pystr) :
  name_map = App.build_name_map order_norms scorecard_norms
  ∨ name_map = Gen.build_name_map order_norms scorecard_norms ->
  name_map !! csv_n = Some sc_n ->
  csv_n ∈ order_norms ∧ sc_n ∈ scorecard_norms.
Proof.
  intros [-> | ->];
    [rewrite app_name_map_lookup|rewrite gen_name_map_lookup];
    destruct (bool_decide (csv_n ∈ order_norms)) eqn:E; try discriminate;
    apply bool_decide_eq_true_1 in E; intros H; (split; [exact E|]).
  - now apply app_match_in in H.
  - now apply gen_match_in in H.
Qed.

(** X15: the name map only has order-side keys as keys and tracker keys as
    targets. *)
Theorem name_map_entries (order_norms scorecard_norms : list pystr)
    (name_map : gmap pystr pystr) (csv_n sc_n : pystr) :
  name_map = App.build_name_map order_norms scorecard_norms
  ∨ name_map = Gen.build_name_map order_norms scorecard_norms ->
  name_map !! csv_n = Some sc_n ->
  csv_n ∈ order_norms ∧ sc_n ∈ scorecard_norms.
Proof. apply name_map_target. Qed.

Lemma name_map_entries_witness :
  (pasta_map = App.build_name_map pachi_order_norms pachi_tracker_keys
   ∨ pasta_map = Gen.build_name_map pachi_order_norms pachi_tracker_keys)
  ∧ pasta_map !! PyStr.lit "pachi pizza and pasta"
    = Some (PyStr.lit "pachi pizza")
  ∧ PyStr.lit "pachi pizza and pasta" ∈ pachi_order_norms
  ∧ PyStr.lit "pachi pizza" ∈ pachi_tracker_keys.
Proof.
  assert (H1 : pasta_map
               = App.build_name_map pachi_order_norms pachi_tracker_keys).
  { exact (eq_sym (proj1 (pachi_name_map pachi_order_norms
                            (Permutation_refl _)))). }
  assert (H2 : pasta_map !! PyStr.lit "pachi pizza and pasta"
               = Some (PyStr.lit "pachi pizza")).
  { vm_compute. reflexivity. }
  split; [now left|]. split; [exact H2|].
  exact (name_map_entries _ _ _ _ _ (or_introl H1) H2).
Defined.

Lemma related_empty t : related [] t = true.
Proof.
  unfold related. replace (PyStr.contains t []) with true;
    [apply orb_true_r|].
  now destruct t.
Qed.

Lemma find_related_empty scorecard_norms :
  List.find (related []) scorecard_norms = head scorecard_norms.
Proof.
  destruct scorecard_norms as [|t rest]; [reflexivity|].
  cbn [List.find head]. now rewrite related_empty.
Qed.

(** X16: an order whose place has no ASCII character other than
    whitespace gets the empty key; unless the tracker has the empty key as
    well, both front ends map it to the first tracker key of the
    iteration, whichever that is. *)
Theorem non_ascii_place_takes_first_key (order_norms scorecard_norms
    : list pystr) (place : pystr) :
  Forall (fun c => (128 <= c)%N ∨ PyStr.isspace c = true) place ->
  normalize place ∈ order_norms ->
  [] ∉ scorecard_norms ->
  App.build_name_map order_norms scorecard_norms !! normalize place
  = head scorecard_norms
  ∧ Gen.build_name_map order_norms scorecard_norms !! normalize place
    = head scorecard_norms.
Proof.
  intros Hplace Hin Hnin.
  apply normalize_nil_iff in Hplace. rewrite Hplace in *.
  rewrite app_name_map_lookup, gen_name_map_lookup.
  rewrite bool_decide_eq_true_2 by assumption.
  unfold App.match_name, Gen.match_name.
  rewrite bool_decide_eq_false_2 by assumption.
  rewrite find_related_empty.
  replace (Gen.MANUAL_NAME_MAP !! []) with (@None pystr)
    by (vm_compute; reflexivity).
  split; [|reflexivity].
  destruct scorecard_norms as [|t rest]; reflexivity.
Qed.

Lemma non_ascii_place_takes_first_key_witness :
  normalize arabic_place = []
  ∧ App.build_name_map [normalize arabic_place] azul_and_pachi
      !! normalize arabic_place = Some (PyStr.lit "azul")
  ∧ Gen.build_name_map [normalize arabic_place] (rev azul_and_pachi)
      !! normalize arabic_place = Some (PyStr.lit "pachi pizza").
Proof.
  split; [vm_compute; reflexivity|]. split.
  - apply (non_ascii_place_takes_first_key [normalize arabic_place]
             azul_and_pachi arabic_place).
    + unfold arabic_place.
      repeat (constructor; [first [left; lia|right; reflexivity]|]).
      constructor.
    + left.
    + vm_compute. intros H. apply list_elem_of_In in H.
      cbn in H. intuition discriminate.
  - apply (non_ascii_place_takes_first_key [normalize arabic_place]
             (rev azul_and_pachi) arabic_place).
    + unfold arabic_place.
      repeat (constructor; [first [left; lia|right; reflexivity]|]).
      constructor.
    + left.
    + vm_compute. intros H. apply list_elem_of_In in H.
      cbn in H. intuition discriminate.
Defined.

(** X17: a tracker name without ASCII characters gets the empty key, and
    with the empty key among the tracker keys both front ends map every
    order-side key to some tracker key. *)
Theorem empty_tracker_key_matches_all (order_norms scorecard_norms
    : list pystr) (csv_n : pystr) :
  [] ∈ scorecard_norms ->
  csv_n ∈ order_norms ->
  is_Some (App.build_name_map order_norms scorecard_norms !! csv_n)
  ∧ is_Some (Gen.build_name_map order_norms scorecard_norms !! csv_n).
Proof.
  intros Hempty Hin.
  assert (Hfind : is_Some (List.find (related csv_n) scorecard_norms)).
  { destruct (List.find (related csv_n) scorecard_norms) eqn:F; [eauto|].
    exfalso. apply list_elem_of_In in Hempty.
    pose proof (List.find_none _ _ F _ Hempty) as H.
    unfold related in H. destruct csv_n; discriminate. }
  rewrite app_name_map_lookup, gen_name_map_lookup.
  rewrite bool_decide_eq_true_2 by assumption.
  unfold App.match_name, Gen.match_name.
  destruct (bool_decide (csv_n ∈ scorecard_norms)); [split; eauto|].
  destruct Hfind as [t Ht]. rewrite Ht. split; [eauto|].
  destruct (Gen.MANUAL_NAME_MAP !! csv_n) as [target|]; [|eauto].
  destruct (bool_decide (target ∈ scorecard_norms)); eauto.
Qed.

Lemma empty_tracker_key_matches_all_witness :
  App.build_name_map [PyStr.lit "pizza pachi"] [[]; PyStr.lit "pachi pizza"]
    !! PyStr.lit "pizza pachi" = Some [].
Proof.
  destruct (empty_tracker_key_matches_all [PyStr.lit "pizza pachi"]
              [[]; PyStr.lit "pachi pizza"] (PyStr.lit "pizza pachi"))
    as [[t Ht] _]; [left|left|].
  rewrite Ht. revert Ht. vm_compute. now intros [= <-].
Defined.

(** The pairs of the manual table. *)
Lemma manual_pairs csv_n target :
  Gen.MANUAL_NAME_MAP !! csv_n = Some target ->
  related csv_n target = true
  ∨ (3 # 5 <= Difflib.ratio target csv_n)%Q.
Proof.
  intros H. unfold Gen.MANUAL_NAME_MAP in H.
  apply elem_of_list_to_map_2 in H.
  repeat (apply elem_of_cons in H as [[= -> ->]|H];
          [first [left; vm_compute; reflexivity
                 |right; vm_compute; discriminate]|]).
  inversion H.
Qed.

Lemma close_match_exists word possibilities x :
  x ∈ possibilities -> (3 # 5 <= Difflib.ratio x word)%Q ->
  Difflib.get_close_matches word possibilities (3 # 5) ≠ [].
Proof.
  intros Hin Hr. rewrite get_close_matches_filter.
  destruct (List.filter (fun x => Qle_bool (3 # 5) (Difflib.ratio x word))
              possibilities) as [|y rest] eqn:F; [|discriminate].
  exfalso. apply list_elem_of_In in Hin.
  assert (H : In x (List.filter
                      (fun x => Qle_bool (3 # 5) (Difflib.ratio x word))
                      possibilities)).
  { apply List.filter_In. split; [exact Hin|]. now apply Qle_bool_iff. }
  rewrite F in H. inversion H.
Qed.

(** X18: whatever [generate_scorecards.py] maps, [app.py] maps as well,
    and to the same tracker key unless the manual table was applied. *)
Theorem app_maps_what_gen_maps (order_norms scorecard_norms : list pystr)
    (csv_n sc_n : pystr) :
  Gen.build_name_map order_norms scorecard_norms !! csv_n = Some sc_n ->
  is_Some (App.build_name_map order_norms scorecard_norms !! csv_n)
  ∧ ((∀ target, Gen.MANUAL_NAME_MAP !! csv_n = Some target ->
                target ∉ scorecard_norms) ->
     App.build_name_map order_norms scorecard_norms !! csv_n = Some sc_n).
Proof.
  rewrite app_name_map_lookup, gen_name_map_lookup.
  destruct (bool_decide (csv_n ∈ order_norms)); [|discriminate].
  unfold App.match_name, Gen.match_name.
  destruct (bool_decide (csv_n ∈ scorecard_norms)) eqn:E.
  { intros [= <-]. split; [eauto|reflexivity]. }
  destruct (Gen.MANUAL_NAME_MAP !! csv_n) as [target|] eqn:M.
  - destruct (bool_decide (target ∈ scorecard_norms)) eqn:T.
    + apply bool_decide_eq_true_1 in T. intros [= <-]. split.
      * destruct (List.find (related csv_n) scorecard_norms) eqn:F; [eauto|].
        destruct (manual_pairs _ _ M) as [R|R].
        -- apply list_elem_of_In in T.
           pose proof (List.find_none _ _ F _ T). congruence.
        -- pose proof (close_match_exists csv_n scorecard_norms target T R).
           destruct (Difflib.get_close_matches csv_n scorecard_norms (3 # 5));
             [contradiction|eauto].
      * intros H. now specialize (H target eq_refl).
    + intros F. rewrite F. split; [eauto|reflexivity].
  - intros F. rewrite F. split; [eauto|reflexivity].
Qed.

Lemma app_maps_what_gen_maps_witness :
  Gen.build_name_map [PyStr.lit "shawerma 3a saj"] [PyStr.lit "shawerma saj"]
    !! PyStr.lit "shawerma 3a saj" = Some (PyStr.lit "shawerma saj")
  ∧ is_Some (App.build_name_map [PyStr.lit "shawerma 3a saj"]
               [PyStr.lit "shawerma saj"] !! PyStr.lit "shawerma 3a saj").
Proof.
  assert (H : Gen.build_name_map [PyStr.lit "shawerma 3a saj"]
                [PyStr.lit "shawerma saj"] !! PyStr.lit "shawerma 3a saj"
              = Some (PyStr.lit "shawerma saj")).
  { vm_compute. reflexivity. }
  split; [exact H|].
  exact (proj1 (app_maps_what_gen_maps _ _ _ _ H)).
Defined.

(** X19: the places [main] reports as unmatched are the order-side keys
    that are no tracker key, have no manual target among the tracker keys
    and are in the substring relation with no tracker key. *)
Theorem unmatched_csv_spec (order_norms scorecard_norms : list pystr)
    (csv_n : pystr) :
  csv_n ∈ Gen.unmatched_csv order_norms
            (Gen.build_name_map order_norms scorecard_norms)
  ↔ csv_n ∈ order_norms
    ∧ (csv_n ∉ scorecard_norms)
    ∧ (∀ target, Gen.MANUAL_NAME_MAP !! csv_n = Some target ->
                 target ∉ scorecard_norms)
    ∧ ∀ t, t ∈ scorecard_norms -> related csv_n t = false.
Proof.
  unfold Gen.unmatched_csv.
  rewrite elem_of_difference, elem_of_list_to_set, elem_of_dom.
  rewrite gen_name_map_lookup.
  split.
  - intros [Hin Hnone]. rewrite bool_decide_eq_true_2 in Hnone by assumption.
    split; [exact Hin|].
    unfold Gen.match_name in Hnone.
    destruct (bool_decide (csv_n ∈ scorecard_norms)) eqn:E;
      [exfalso; eauto|].
    apply bool_decide_eq_false_1 in E. split; [exact E|].
    assert (Hfind : ¬ is_Some (List.find (related csv_n) scorecard_norms) ->
                    ∀ t, t ∈ scorecard_norms -> related csv_n t = false).
    { intros Hn t Ht.
      destruct (List.find (related csv_n) scorecard_norms) eqn:F;
        [exfalso; eauto|].
      apply list_elem_of_In in Ht. exact (List.find_none _ _ F _ Ht). }
    destruct (Gen.MANUAL_NAME_MAP !! csv_n) as [target|].
    + destruct (bool_decide (target ∈ scorecard_norms)) eqn:T;
        [exfalso; eauto|].
      apply bool_decide_eq_false_1 in T.
      split; [now intros ? [= <-]|now apply Hfind].
    + split; [discriminate|now apply Hfind].
  - intros (Hin & Hnin & Hman & Hrel). split; [exact Hin|].
    rewrite bool_decide_eq_true_2 by assumption.
    unfold Gen.match_name. rewrite bool_decide_eq_false_2 by assumption.
    rewrite (find_none_related _ _ Hrel).
    destruct (Gen.MANUAL_NAME_MAP !! csv_n) as [target|];
      [|now intros [? ?]].
    rewrite bool_decide_eq_false_2 by now apply Hman.
    now intros [? ?].
Qed.

(** * Loading the orders *)

Lemma order_body_none strptime row :
  order_body strptime row = None ↔ short_row row.
Proof.
  unfold order_body, parse_date, short_row.
  destruct (row_Place row), (row_Status row), (row_Date row); cbn;
    split; intros H; try discriminate; try reflexivity; auto;
    destruct H as [H|[H|H]]; discriminate.
Qed.

Lemma load_orders_none strptime rows :
  load_orders strptime rows = None ↔ Exists short_row rows.
Proof.
  induction rows as [|row rows IH]; cbn [load_orders].
  - split; [discriminate|]. intros H. inversion H.
  - rewrite List.Exists_cons, <- IH, <- (order_body_none strptime).
    destruct (order_body strptime row) as [kept|]; cbn [mbind option_bind].
    + destruct (load_orders strptime rows); cbn [mbind option_bind].
      * split; [discriminate|]. now intros [H|H].
      * split; [now right|reflexivity].
    + split; [now left|reflexivity].
Qed.

Lemma load_orders_in strptime rows : ∀ orders o,
  load_orders strptime rows = Some orders ->
  In o orders
  ↔ ∃ row kept, In row rows ∧ order_body strptime row = Some kept ∧ In o kept.
Proof.
  induction rows as [|row rows IH]; intros orders o; cbn [load_orders].
  - intros [= <-]. split; [contradiction|]. now intros (? & ? & [] & _).
  - destruct (order_body strptime row) as [kept|] eqn:E;
      cbn [mbind option_bind]; [|discriminate].
    destruct (load_orders strptime rows) as [rest|];
      cbn [mbind option_bind]; [|discriminate].
    intros [= <-]. rewrite in_app_iff, (IH rest o eq_refl). split.
    + intros [H|(row' & kept' & Hin & Hb & Ho)].
      * exists row, kept. split; [now left|]. now split.
      * exists row', kept'. split; [now right|]. now split.
    + intros (row' & kept' & [<-|Hin] & Hb & Ho).
      * left. rewrite E in Hb. now injection Hb as <-.
      * right. now exists row', kept'.
Qed.

(** The orders the loop body appends for a row with its three cells. *)
Lemma order_body_in strptime row kept o :
  order_body strptime row = Some kept ->
  In o kept
  ↔ ∃ place status date_str d,
      row_Place row = Some place
      ∧ row_Status row = Some status
      ∧ row_Date row = Some date_str
      ∧ o = mk_order (PyStr.strip place) d (normalize place)
      ∧ strptime (PyStr.strip date_str) = Some d
      ∧ PyStr.strip place ≠ []
      ∧ normalize place ≠ PyStr.lit "opi orders"
      ∧ PyStr.lower (PyStr.strip status) ≠ PyStr.lit "cancelled"
      ∧ PyStr.lower (PyStr.strip status) ≠ PyStr.lit "rejected by place".
Proof.
  assert (Hplaces : ∀ n, n ∈ EXCLUDED_PLACES ↔ n = PyStr.lit "opi orders").
  { intros n. unfold EXCLUDED_PLACES. apply list_elem_of_singleton. }
  assert (Hstatuses : ∀ s, s ∈ EXCLUDED_STATUSES
                           ↔ s = PyStr.lit "cancelled"
                             ∨ s = PyStr.lit "rejected by place").
  { intros s. unfold EXCLUDED_STATUSES.
    now rewrite elem_of_cons, list_elem_of_singleton. }
  unfold order_body, parse_date.
  destruct (row_Place row) as [place|]; [|discriminate].
  destruct (row_Status row) as [status|]; [|discriminate].
  destruct (row_Date row) as [date_str|]; [|discriminate].
  cbn [fmap option_fmap option_map mbind option_bind].
  pose proof (normalize_strip_eq place) as Hn.
  intros [= <-]. split.
  - intros H.
    destruct (PyStr.strip place) as [|c p] eqn:P; [contradiction|].
    destruct (strptime (PyStr.strip date_str)) as [d|] eqn:D;
      [|contradiction].
    destruct (bool_decide (normalize (c :: p) ∈ EXCLUDED_PLACES)) eqn:E1;
      [contradiction|].
    destruct (bool_decide (PyStr.lower (PyStr.strip status)
                           ∈ EXCLUDED_STATUSES)) eqn:E2; [contradiction|].
    apply bool_decide_eq_false_1 in E1, E2.
    rewrite Hplaces in E1. rewrite Hstatuses in E2.
    destruct H as [<-|[]].
    exists place, status, date_str, d. rewrite <- Hn, P.
    split; [reflexivity|]. split; [reflexivity|]. split; [reflexivity|].
    split; [reflexivity|]. split; [exact D|]. split; [discriminate|].
    split; [exact E1|]. split; intros ?; apply E2; auto.
  - intros (place' & status' & date_str' & d & [= <-] & [= <-] & [= <-]
            & -> & D & P & E1 & E2 & E3).
    rewrite D. rewrite <- Hn in *.
    destruct (PyStr.strip place) as [|c p]; [contradiction|].
    rewrite bool_decide_eq_false_2 by now rewrite Hplaces.
    rewrite bool_decide_eq_false_2 by (rewrite Hstatuses; intuition).
    now left.
Qed.

(** X20: [load_orders] raises, with the [AttributeError] of [.strip()] on
    [None], exactly when a row is too short to reach the place, the status
    or the date. Otherwise the orders it returns are those of the rows
    with a place that is not blank, a date the parser reads, a key other
    than ["opi orders"] and a status that is, stripped and lowered,
    neither ["cancelled"] nor ["rejected by place"]; the order holds the
    stripped place, the date and the key of the place as the row has
    it. *)
Theorem load_orders_spec (strptime : pystr -> option datetime)
    (rows : list order_row) :
  (load_orders strptime rows = None ↔ Exists short_row rows)
  ∧ ∀ orders o,
      load_orders strptime rows = Some orders ->
      In o orders
      ↔ ∃ row place status date_str d,
          In row rows
          ∧ row_Place row = Some place
          ∧ row_Status row = Some status
          ∧ row_Date row = Some date_str
          ∧ o = mk_order (PyStr.strip place) d (normalize place)
          ∧ strptime (PyStr.strip date_str) = Some d
          ∧ PyStr.strip place ≠ []
          ∧ normalize place ≠ PyStr.lit "opi orders"
          ∧ PyStr.lower (PyStr.strip status) ≠ PyStr.lit "cancelled"
          ∧ PyStr.lower (PyStr.strip status)
            ≠ PyStr.lit "rejected by place".
Proof.
  split; [apply load_orders_none|].
  intros orders o Hload. rewrite (load_orders_in _ _ _ _ Hload). split.
  - intros (row & kept & Hin & Hb & Ho).
    apply (order_body_in _ _ _ _ Hb) in Ho
      as (place & status & date_str & d & H).
    now exists row, place, status, date_str, d.
  - intros (row & place & status & date_str & d & Hin & H).
    destruct (order_body strptime row) as [kept|] eqn:Hb.
    + exists row, kept. split; [exact Hin|]. split; [exact Hb|].
      apply (order_body_in _ _ _ _ Hb).
      now exists place, status, date_str, d.
    + apply order_body_none in Hb. destruct H as (H1 & H2 & H3 & _).
      destruct Hb as [Hb|[Hb|Hb]]; congruence.
Qed.

Example load_orders_short_row :
  load_orders one_date [cafe_row]
  = Some [mk_order (PyStr.lit "Flour & Fire") (DateTime.make 2026 2 23 11 57)
            (PyStr.lit "flour and fire")]
  ∧ load_orders one_date cafe_then_short = None.
Proof. vm_compute. split; reflexivity. Qed.

(** X21: an order row and a tracker row with the same text as the name
    meet under one key, and the name the card shows is the order's place;
    both front ends then map the key to itself. *)
Theorem same_text_same_key (strptime : pystr -> option datetime)
    (row : order_row) (orders : list order) (o : order) (r : tracker_row)
    (key : pystr) (data : TrackerRecord) :
  load_orders strptime [row] = Some orders ->
  In o orders ->
  ingest r = Stored key data ->
  name_cell r = row_Place row ->
  norm o = key
  ∧ place o = display_name data
  ∧ ∀ order_norms scorecard_norms,
      norm o ∈ order_norms -> key ∈ scorecard_norms ->
      App.build_name_map order_norms scorecard_norms !! norm o = Some key
      ∧ Gen.build_name_map order_norms scorecard_norms !! norm o = Some key.
Proof.
  intros Hload Ho Hr Hname.
  apply ingest_stored in Hr as (name & Hname' & _ & -> & Hd & _).
  rewrite Hname in Hname'.
  apply (load_orders_in _ _ _ _ Hload) in Ho as (row' & kept & Hin & Hb & Ho).
  destruct Hin as [<-|[]].
  apply (order_body_in _ _ _ _ Hb) in Ho
    as (place0 & status & date_str & d & Hp & _ & _ & -> & _).
  rewrite Hp in Hname'. injection Hname' as ->. cbn [norm place].
  split; [reflexivity|]. split; [now rewrite Hd|].
  intros order_norms scorecard_norms Hin Hsc.
  rewrite app_name_map_lookup, gen_name_map_lookup.
  rewrite bool_decide_eq_true_2 by assumption.
  split.
  - exact (proj1 (app_match_rules _ _) Hsc).
  - exact (proj1 (gen_match_rules _ _) Hsc).
Qed.

Lemma same_text_same_key_witness :
  load_orders one_date [cafe_row]
  = Some [mk_order (PyStr.lit "Flour & Fire") (DateTime.make 2026 2 23 11 57)
            (PyStr.lit "flour and fire")]
  ∧ ingest (GenSheetRow cafe_tracker_row)
    = Stored (PyStr.lit "flour and fire") cafe_record
  ∧ Gen.build_name_map [PyStr.lit "flour and fire"]
      [PyStr.lit "flour and fire"] !! PyStr.lit "flour and fire"
    = Some (PyStr.lit "flour and fire").
Proof.
  assert (H1 : load_orders one_date [cafe_row]
               = Some [mk_order (PyStr.lit "Flour & Fire")
                         (DateTime.make 2026 2 23 11 57)
                         (PyStr.lit "flour and fire")]).
  { vm_compute. reflexivity. }
  assert (H2 : ingest (GenSheetRow cafe_tracker_row)
               = Stored (PyStr.lit "flour and fire") cafe_record).
  { vm_compute. reflexivity. }
  split; [exact H1|]. split; [exact H2|].
  destruct (same_text_same_key one_date cafe_row _
              (mk_order (PyStr.lit "Flour & Fire")
                 (DateTime.make 2026 2 23 11 57) (PyStr.lit "flour and fire"))
              (GenSheetRow cafe_tracker_row) (PyStr.lit "flour and fire")
              cafe_record H1) as (_ & _ & H).
  - now left.
  - exact H2.
  - reflexivity.
  - apply (H [PyStr.lit "flour and fire"] [PyStr.lit "flour and fire"]);
      left.
Defined.

(** * The colour of the score and the scale of the bars *)

(** X22: the colour of the score on a card, by the number of true flags
    among the ten scored ones: [app.py] has green from seven, orange for
    five and six, red below; [generate_scorecards.py] has green from five
    and red below. *)
Theorem score_color_of_flags (r : tracker_row) (key : pystr)
    (data : TrackerRecord) :
  ingest r = Stored key data ->
  App.score_color (score data)
  = (if (7 <=? true_flags (scored_flags data))%Z then "#28a745"
     else if (5 <=? true_flags (scored_flags data))%Z then "#ff9800"
     else "#dc3545")%string
  ∧ Gen.score_color (score data)
    = (if (5 <=? true_flags (scored_flags data))%Z then "#4CAF50"
       else "#e53935")%string.
Proof.
  intros H. apply ingest_stored in H as (_ & _ & _ & _ & _ & _ & -> & _).
  unfold App.score_color, Gen.score_color.
  generalize (true_flags (scored_flags data)). intros n.
  destruct (7 <=? n)%Z eqn:E7; destruct (5 <=? n)%Z eqn:E5;
    destruct (70 <=? 10 * n)%Z eqn:E70; destruct (50 <=? 10 * n)%Z eqn:E50;
    try (split; reflexivity); exfalso;
    repeat match goal with
           | H : (_ <=? _)%Z = true |- _ => apply Z.leb_le in H
           | H : (_ <=? _)%Z = false |- _ => apply Z.leb_gt in H
           end; lia.
Qed.

Lemma score_color_of_flags_witness :
  ingest (GenSheetRow cafe_tracker_row)
  = Stored (PyStr.lit "flour and fire") cafe_record
  ∧ App.score_color (score cafe_record) = "#ff9800"%string
  ∧ Gen.score_color (score cafe_record) = "#4CAF50"%string.
Proof.
  assert (H : ingest (GenSheetRow cafe_tracker_row)
              = Stored (PyStr.lit "flour and fire") cafe_record).
  { vm_compute. reflexivity. }
  split; [exact H|].
  destruct (score_color_of_flags _ _ _ H) as [H1 H2].
  split; [rewrite H1|rewrite H2]; reflexivity.
Defined.

Lemma fold_max_ge l : ∀ x,
  (x <= fold_left Z.max l x)%Z
  ∧ Forall (fun c => (c <= fold_left Z.max l x)%Z) l
  ∧ (fold_left Z.max l x = x ∨ In (fold_left Z.max l x) l).
Proof.
  induction l as [|c l IH]; intros x; cbn [fold_left].
  - split; [lia|]. split; [constructor|now left].
  - destruct (IH (Z.max x c)) as (H1 & H2 & H3).
    split; [lia|]. split; [constructor; [lia|exact H2]|].
    destruct H3 as [H3|H3]; [|right; now right].
    rewrite H3. destruct (Z.max_spec x c) as [[_ ->]|[_ ->]];
      [right; now left|now left].
Qed.

(** X23: the scale of the bar chart of a row of the week's counts is at
    least 1 and at least every count of the row: it is never zero, no
    count exceeds it, and it is 1 or the greatest count. *)
Theorem max_orders_scale (orders : list order) (name_map : gmap pystr pystr)
    (week_start : datetime) (counts : gmap pystr (list Z)) (r : pystr) :
  count_orders_by_day orders name_map week_start = Some counts ->
  ∃ m,
    max_orders (default (replicate 7 0%Z) (counts !! r)) = Some m
    ∧ (1 <= m)%Z
    ∧ (∀ d, (0 <= d < 7)%Z -> (0 <= count_at counts r d <= m)%Z)
    ∧ (m = 1%Z ∨ ∃ d, (0 <= d < 7)%Z ∧ count_at counts r d = m).
Proof.
  intros H. apply counts_shape in H as (we & _ & H7 & Htally & _).
  assert (Hlen : length (default (replicate 7 0%Z) (counts !! r)) = 7%nat).
  { destruct (counts !! r) as [days|] eqn:E; [exact (H7 _ _ E)|reflexivity]. }
  assert (Hnth : ∀ d, (0 <= d < 7)%Z ->
            count_at counts r d
            = nth (Z.to_nat d) (default (replicate 7 0%Z) (counts !! r)) 0%Z)
    by reflexivity.
  assert (Hpos : ∀ d, (0 <= d < 7)%Z -> (0 <= count_at counts r d)%Z).
  { intros d Hd. rewrite (Htally r d Hd). apply tally_nonneg. }
  revert Hlen Hnth Hpos.
  generalize (default (replicate 7 0%Z) (counts !! r)). intros days Hlen.
  generalize (count_at counts r). intros f Hnth Hpos.
  destruct days as [|x l]; [discriminate|].
  unfold max_orders, py_max. cbn [mbind option_bind].
  destruct (fold_max_ge l x) as (H1 & H2 & H3).
  remember (fold_left Z.max l x) as m eqn:Hm. clear Hm.
  assert (Hall : ∀ d, (0 <= d < 7)%Z -> (f d <= m)%Z).
  { intros d Hd. rewrite (Hnth d Hd).
    destruct (Z.to_nat d) as [|i] eqn:Ed; cbn [nth]; [exact H1|].
    apply (proj1 (List.Forall_forall _ _) H2). apply nth_In.
    cbn [length] in Hlen. lia. }
  assert (Hm0 : (0 <= m)%Z).
  { specialize (Hall 0%Z ltac:(lia)). specialize (Hpos 0%Z ltac:(lia)). lia. }
  assert (Hin : ∃ d, (0 <= d < 7)%Z ∧ f d = m).
  { destruct H3 as [H3|H3].
    - exists 0%Z. split; [lia|]. now rewrite (Hnth 0%Z ltac:(lia)).
    - apply (In_nth _ _ 0%Z) in H3 as (i & Hi & E).
      exists (Z.of_nat (S i)). cbn [length] in Hlen. split; [lia|].
      rewrite (Hnth (Z.of_nat (S i)) ltac:(lia)), Nat2Z.id. exact E. }
  destruct (0 <? m)%Z eqn:Em.
  - apply Z.ltb_lt in Em. exists m. split; [reflexivity|].
    split; [lia|]. split; [|now right].
    intros d Hd. split; [now apply Hpos|now apply Hall].
  - apply Z.ltb_ge in Em. exists 1%Z. split; [reflexivity|].
    split; [lia|]. split; [|now left].
    intros d Hd. specialize (Hall d Hd). specialize (Hpos d Hd). lia.
Qed.

Lemma max_orders_scale_witness :
  count_orders_by_day pachi_orders pasta_map sunday_22_feb = Some monday_count
  ∧ ∃ m, max_orders (default (replicate 7 0%Z)
                       (monday_count !! PyStr.lit "azul")) = Some m
         ∧ (1 <= m)%Z.
Proof.
  assert (H : count_orders_by_day pachi_orders pasta_map sunday_22_feb
              = Some monday_count) by (vm_compute; reflexivity).
  split; [exact H|].
  destruct (max_orders_scale _ _ _ _ (PyStr.lit "azul") H) as (m & E & Hm & _).
  exists m. split; [exact E|exact Hm].
Defined.

(** * From the chosen week to the cards *)

Lemma window_is_week ws we o :
  sunday_midnight ws -> add_days ws 7 = Some we ->
  in_window ws we o = week_is ws o.
Proof.
  intros Hs Hwe. apply eq_true_iff_eq.
  rewrite <- (in_span_window ws we o Hs Hwe).
  unfold week_is. rewrite bool_decide_eq_true.
  split.
  - intros H. now apply get_week_sunday_in_span.
  - intros H. now apply get_week_sunday_sound in H.
Qed.

Lemma tally_ext p q orders :
  (∀ o, p o = q o) -> tally p orders = tally q orders.
Proof.
  intros H. unfold tally. f_equal. f_equal.
  induction orders as [|o orders IH]; [reflexivity|].
  cbn [List.filter]. now rewrite H, IH.
Qed.

Lemma tally_cons p o orders :
  tally p (o :: orders) = ((if p o then 1 else 0) + tally p orders)%Z.
Proof.
  unfold tally. cbn [List.filter]. destruct (p o); cbn [length]; lia.
Qed.

Lemma determine_week_sunday now orders ws m y w :
  orders ≠ [] ->
  determine_week now orders = Some (ws, m, y, w) ->
  sunday_midnight ws ∧ ∃ o, In o orders ∧ week_is ws o = true.
Proof.
  intros Hne H.
  destruct orders as [|o orders']; [contradiction|].
  destruct (count_weeks (o :: orders') []) as [wc|] eqn:E.
  - destruct (count_weeks_some _ _ _ E) as (weeks & Hw).
    destruct (determine_week_weeks now (o :: orders') weeks Hne Hw)
      as (s & pre & post & R & Ew & _).
    rewrite R in H. injection H as <- _ _ _.
    rewrite Ew in Hw.
    apply Forall2_app_inv_r in Hw as (pre_o & rest_o & _ & Hr & Eo).
    apply Forall2_cons_inv_r in Hr as (o' & post_o & Ho & _ & ->).
    split; [now apply (get_week_sunday_sound _ _ Ho)|].
    exists o'. split.
    + rewrite Eo. apply in_or_app. right. now left.
    + unfold week_is. now apply bool_decide_eq_true_2.
  - unfold determine_week in H. rewrite E in H. discriminate.
Qed.

(** X24: the window [count_orders_by_day] cuts for the week
    [determine_week] chose holds exactly the orders [determine_week]
    grouped under that week, at least one; the counts are the numbers of
    those orders by restaurant and day. *)
Theorem chosen_week_counts (now : datetime) (orders : list order)
    (name_map : gmap pystr pystr) (ws : datetime) (m : pystr) (y w : Z)
    (counts : gmap pystr (list Z)) :
  orders ≠ [] ->
  determine_week now orders = Some (ws, m, y, w) ->
  count_orders_by_day orders name_map ws = Some counts ->
  (1 <= tally (week_is ws) orders)%Z
  ∧ ∀ r d, (0 <= d < 7)%Z ->
      count_at counts r d = tally (counted_in_week name_map ws r d) orders.
Proof.
  intros Hne Hweek Hcounts.
  destruct (determine_week_sunday _ _ _ _ _ _ Hne Hweek)
    as (Hs & o & Hin & Ho).
  split; [exact (tally_pos _ _ _ Hin Ho)|].
  apply counts_shape in Hcounts as (we & Hwe & _ & Htally & _).
  intros r d Hd. rewrite (Htally r d Hd). apply tally_ext. intros o'.
  unfold counted, said_to_count, counted_in_week.
  now rewrite (window_is_week _ _ _ Hs Hwe).
Qed.

Lemma chosen_week_counts_witness :
  determine_week monday_23_feb_9am pachi_orders
  = Some (sunday_22_feb, PyStr.lit "February", 2026%Z, 4%Z)
  ∧ count_orders_by_day pachi_orders pasta_map sunday_22_feb
    = Some monday_count
  ∧ tally (counted_in_week pasta_map sunday_22_feb (PyStr.lit "pachi pizza") 1)
      pachi_orders = 1%Z.
Proof.
  assert (H1 : determine_week monday_23_feb_9am pachi_orders
               = Some (sunday_22_feb, PyStr.lit "February", 2026%Z, 4%Z))
    by (vm_compute; reflexivity).
  assert (H2 : count_orders_by_day pachi_orders pasta_map sunday_22_feb
               = Some monday_count) by (vm_compute; reflexivity).
  split; [exact H1|]. split; [exact H2|].
  destruct (chosen_week_counts monday_23_feb_9am pachi_orders pasta_map
              sunday_22_feb (PyStr.lit "February") 2026 4 monday_count)
    as [_ H]; [discriminate|exact H1|exact H2|].
  rewrite <- (H (PyStr.lit "pachi pizza") 1%Z ltac:(lia)).
  vm_compute. reflexivity.
Defined.

(** X25: every row of the counts belongs to a tracker key, so that each
    counted order is on a card. *)
Theorem counted_rows_are_tracker_keys (order_norms scorecard_norms
    : list pystr) (name_map : gmap pystr pystr) (orders : list order)
    (week_start : datetime) (counts : gmap pystr (list Z)) (r : pystr) :
  name_map = App.build_name_map order_norms scorecard_norms
  ∨ name_map = Gen.build_name_map order_norms scorecard_norms ->
  count_orders_by_day orders name_map week_start = Some counts ->
  is_Some (counts !! r) ->
  r ∈ scorecard_norms ∧ r ≠ []
  ∧ ∃ o, In o orders ∧ name_map !! norm o = Some r.
Proof.
  intros Hmap Hcounts Hr.
  apply counts_shape in Hcounts as (we & _ & _ & _ & Hdom).
  apply Hdom in Hr as (o & Hin & Hc).
  unfold counted, said_to_count in Hc.
  repeat (apply andb_true_iff in Hc as [Hc ?]).
  repeat match goal with
         | H : bool_decide _ = true |- _ => apply bool_decide_eq_true_1 in H
         end.
  match goal with
  | H : name_map !! norm o = Some r |- _ =>
      destruct (name_map_target _ _ _ _ _ Hmap H) as [_ Hsc]
  end.
  split; [exact Hsc|]. split; [assumption|]. exists o. auto.
Qed.

Lemma counted_rows_are_tracker_keys_witness :
  count_orders_by_day pachi_orders
    (App.build_name_map pachi_order_norms pachi_tracker_keys) sunday_22_feb
  = Some monday_count
  ∧ is_Some (monday_count !! PyStr.lit "pachi pizza")
  ∧ PyStr.lit "pachi pizza" ∈ pachi_tracker_keys.
Proof.
  assert (H1 : count_orders_by_day pachi_orders
                 (App.build_name_map pachi_order_norms pachi_tracker_keys)
                 sunday_22_feb = Some monday_count)
    by (vm_compute; reflexivity).
  assert (H2 : is_Some (monday_count !! PyStr.lit "pachi pizza"))
    by (vm_compute; eauto).
  split; [exact H1|]. split; [exact H2|].
  exact (proj1 (counted_rows_are_tracker_keys pachi_order_norms
                  pachi_tracker_keys _ _ _ _ _ (or_introl eq_refl) H1 H2)).
Defined.

Lemma py_sum_app l l' : py_sum (l ++ l') = (py_sum l + py_sum l')%Z.
Proof.
  unfold py_sum. induction l as [|x l IH]; cbn [app foldr]; lia.
Qed.

Lemma py_sum_perm l l' : l ≡ₚ l' -> py_sum l = py_sum l'.
Proof.
  unfold py_sum. induction 1; cbn [foldr]; lia.
Qed.

Lemma py_sum_add {A} (f g : A -> Z) l :
  py_sum (List.map (fun x => (f x + g x)%Z) l)
  = (py_sum (List.map f l) + py_sum (List.map g l))%Z.
Proof.
  unfold py_sum. induction l as [|x l IH]; cbn [List.map foldr]; lia.
Qed.

Lemma py_sum_zero {A} (f : A -> Z) l :
  (∀ x, In x l -> f x = 0%Z) -> py_sum (List.map f l) = 0%Z.
Proof.
  unfold py_sum. induction l as [|x l IH]; intros H; cbn [List.map foldr];
    [reflexivity|].
  rewrite (H x) by now left. rewrite IH; [reflexivity|].
  intros x' Hx'. apply H. now right.
Qed.

Lemma py_sum_ext {A} (f g : A -> Z) l :
  (∀ x, In x l -> f x = g x) ->
  py_sum (List.map f l) = py_sum (List.map g l).
Proof.
  unfold py_sum. induction l as [|x l IH]; intros H; cbn [List.map foldr];
    [reflexivity|].
  rewrite (H x) by now left. rewrite IH; [reflexivity|].
  intros x' Hx'. apply H. now right.
Qed.

(** A key that occurs once among the keys is counted once. *)
Lemma py_sum_indicator (keys : list pystr) t :
  NoDup keys -> t ∈ keys ->
  py_sum (List.map (fun r => if bool_decide (r = t) then 1%Z else 0%Z) keys)
  = 1%Z.
Proof.
  induction 1 as [|k keys Hk Hnd IH]; intros Hin; [inversion Hin|].
  cbn [List.map]. unfold py_sum in *. cbn [foldr].
  apply elem_of_cons in Hin as [->|Hin].
  - rewrite bool_decide_eq_true_2 by reflexivity.
    fold (py_sum (List.map (fun r => if bool_decide (r = k) then 1%Z else 0%Z)
                    keys)).
    rewrite py_sum_zero; [reflexivity|].
    intros x Hx. rewrite bool_decide_eq_false_2; [reflexivity|].
    intros ->. apply Hk. now apply list_elem_of_In.
  - rewrite bool_decide_eq_false_2 by (intros ->; contradiction).
    rewrite IH by assumption. reflexivity.
Qed.

(** The seven counts of a row add up to the orders of the window that
    the name map sends to the row's key. *)
Lemma row_total name_map ws we orders r :
  py_sum (List.map (fun d => tally (counted name_map ws we r d) orders)
            [0; 1; 2; 3; 4; 5; 6]%Z)
  = tally (fun o => in_window ws we o
                    && bool_decide (name_map !! norm o = Some r)
                    && bool_decide (r ≠ [])) orders.
Proof.
  induction orders as [|o orders IH].
  - reflexivity.
  - rewrite tally_cons, <- IH. clear IH.
    unfold py_sum. cbn [List.map foldr]. rewrite !tally_cons.
    unfold counted, said_to_count.
    pose proof (dow_range (date o)) as Hd.
    destruct (in_window ws we o); cbn [andb]; [|lia].
    destruct (bool_decide (name_map !! norm o = Some r)); cbn [andb]; [|lia].
    destruct (bool_decide (r ≠ [])); rewrite ?andb_false_r, ?andb_true_r;
      [|lia].
    revert Hd. generalize (day_of_week_sunday_start (date o)). intros dow Hd.
    assert (dow = 0 ∨ dow = 1 ∨ dow = 2 ∨ dow = 3 ∨ dow = 4 ∨ dow = 5
            ∨ dow = 6)%Z as Hcases by lia.
    repeat destruct Hcases as [->|Hcases]; try subst dow; cbn; lia.
Qed.

Lemma cards_sum name_map ws we orders (keys : list pystr) :
  NoDup keys ->
  (∀ k t, name_map !! k = Some t -> t ≠ [] -> t ∈ keys) ->
  py_sum (List.map (fun r => tally (fun o => in_window ws we o
                       && bool_decide (name_map !! norm o = Some r)
                       && bool_decide (r ≠ [])) orders) keys)
  = tally (fun o => in_window ws we o && has_target name_map o) orders.
Proof.
  intros Hnd Htargets. induction orders as [|o orders IH].
  - apply py_sum_zero. reflexivity.
  - rewrite tally_cons, <- IH. clear IH.
    erewrite py_sum_ext; [|intros r _; apply tally_cons].
    rewrite py_sum_add. f_equal.
    unfold has_target.
    destruct (in_window ws we o); cbn [andb];
      [|apply py_sum_zero; reflexivity].
    destruct (name_map !! norm o) as [t|] eqn:E.
    + destruct t as [|c t'].
      * apply py_sum_zero. intros r _.
        destruct (bool_decide (Some [] = Some r)) eqn:B; [|reflexivity].
        apply bool_decide_eq_true_1 in B. injection B as <-.
        now rewrite bool_decide_eq_false_2 by auto.
      * transitivity
          (py_sum (List.map (fun r => if bool_decide (r = c :: t')
                                      then 1%Z else 0%Z) keys));
          [|apply (py_sum_indicator keys (c :: t') Hnd);
            now apply (Htargets _ _ E)].
        apply py_sum_ext. intros r _.
        destruct (decide (r = c :: t')) as [->|Hne].
        -- rewrite (bool_decide_eq_true_2 (Some (c :: t') = Some (c :: t')))
             by reflexivity.
           rewrite (bool_decide_eq_true_2 (c :: t' ≠ [])) by discriminate.
           now rewrite (bool_decide_eq_true_2 (c :: t' = c :: t'))
             by reflexivity.
        -- rewrite (bool_decide_eq_false_2 (Some (c :: t') = Some r))
             by congruence.
           now rewrite (bool_decide_eq_false_2 (r = c :: t')) by assumption.
    + apply py_sum_zero. intros r _.
      now rewrite bool_decide_eq_false_2 by discriminate.
Qed.

Lemma cards_total_perm cards cards' counts :
  cards ≡ₚ cards' -> cards_total cards counts = cards_total cards' counts.
Proof.
  intros H. unfold cards_total. apply py_sum_perm.
  now apply Permutation_map.
Qed.

Lemma cards_total_tally (scorecard : list (pystr * TrackerRecord))
    name_map orders ws we counts :
  NoDup (scorecard.*1) ->
  (∀ k t, name_map !! k = Some t -> t ≠ [] -> t ∈ scorecard.*1) ->
  add_days ws 7 = Some we ->
  count_orders_by_day orders name_map ws = Some counts ->
  cards_total scorecard counts
  = tally (fun o => in_window ws we o && has_target name_map o) orders.
Proof.
  intros Hnd Htargets Hwe Hcounts.
  apply counts_shape in Hcounts as (we' & Hwe' & H7 & Htally & _).
  rewrite Hwe in Hwe'. injection Hwe' as <-.
  rewrite <- (cards_sum name_map ws we orders (scorecard.*1) Hnd Htargets).
  unfold cards_total.
  change (scorecard.*1) with (List.map fst scorecard).
  rewrite List.map_map. apply py_sum_ext. intros x _.
  rewrite (zero_filled_sum counts x.1 H7).
  rewrite <- row_total. unfold py_sum. cbn [List.map foldr].
  rewrite !Htally by lia. lia.
Qed.

(** X26: the orders on the cards, all cards together, are the orders of
    the window whose key the name map sends to a key that is not empty:
    none is lost and none is shown twice. *)
Theorem cards_show_counted_orders (f : tracker_file)
    (scorecard : list (pystr * TrackerRecord))
    (order_norms scorecard_norms : list pystr)
    (name_map : gmap pystr pystr) (orders : list order)
    (week_start week_end : datetime) (counts : gmap pystr (list Z)) :
  load_scorecard_of f = Some scorecard ->
  scorecard_norms ≡ₚ scorecard.*1 ->
  name_map = App.build_name_map order_norms scorecard_norms
  ∨ name_map = Gen.build_name_map order_norms scorecard_norms ->
  add_days week_start 7 = Some week_end ->
  count_orders_by_day orders name_map week_start = Some counts ->
  cards_total (App.sorted_restaurants scorecard name_map counts) counts
  = tally (fun o => in_window week_start week_end o && has_target name_map o)
      orders
  ∧ cards_total (Gen.sorted_restaurants scorecard counts) counts
    = tally (fun o => in_window week_start week_end o
                      && has_target name_map o) orders.
Proof.
  intros Hload Hperm Hmap Hwe Hcounts.
  assert (Hnd : NoDup (scorecard.*1)).
  { pose proof Hload as H'. rewrite load_as_ingest in H'.
    apply store_rows_fold in H'.
    destruct (store_fold (stored ingest (data_rows f)) [] [] eq_refl
                (fun k => eq_refl)) as [Hkeys _].
    rewrite <- H' in Hkeys. rewrite Hkeys. apply first_seen_NoDup. }
  assert (Htargets : ∀ k t, name_map !! k = Some t -> t ≠ [] ->
                            t ∈ scorecard.*1).
  { intros k t Hk _. rewrite <- Hperm.
    now destruct (name_map_target _ _ _ _ _ Hmap Hk). }
  unfold App.sorted_restaurants, Gen.sorted_restaurants.
  rewrite <- !(cards_total_perm scorecard _ counts
                 (py_sorted_perm _ scorecard)).
  split; now apply (cards_total_tally scorecard name_map orders week_start).
Qed.

Lemma cards_show_counted_orders_witness :
  load_scorecard_of (AppFile (App.CsvRows pachi_csv))
  = Some [(PyStr.lit "pachi pizza", pachi_record)]
  ∧ cards_total
      (App.sorted_restaurants [(PyStr.lit "pachi pizza", pachi_record)]
         (App.build_name_map pachi_order_norms pachi_tracker_keys)
         monday_count) monday_count
    = tally (fun o => in_window sunday_22_feb sunday_1_mar o
                      && has_target
                           (App.build_name_map pachi_order_norms
                              pachi_tracker_keys) o) pachi_orders.
Proof.
  assert (H1 : load_scorecard_of (AppFile (App.CsvRows pachi_csv))
               = Some [(PyStr.lit "pachi pizza", pachi_record)])
    by (vm_compute; reflexivity).
  split; [exact H1|].
  apply (cards_show_counted_orders (AppFile (App.CsvRows pachi_csv))
           [(PyStr.lit "pachi pizza", pachi_record)] pachi_order_norms
           pachi_tracker_keys _ pachi_orders sunday_22_feb sunday_1_mar
           monday_count).
  - exact H1.
  - reflexivity.
  - now left.
  - vm_compute. reflexivity.
  - vm_compute. reflexivity.
Defined.

(** * The end of the calendar *)

(** X27: for the week [determine_week] chose, [count_orders_by_day] fails,
    with the [OverflowError] of [week_start + timedelta(days=7)], exactly
    when the week is the last of the calendar, the one of Sunday
    9999-12-26. *)
Theorem last_week_overflows (now : datetime) (orders : list order)
    (name_map : gmap pystr pystr) (ws : datetime) (m : pystr) (y w : Z) :
  orders ≠ [] ->
  determine_week now orders = Some (ws, m, y, w) ->
  count_orders_by_day orders name_map ws = None ↔ ws = last_sunday.
Proof.
  intros Hne H.
  destruct (determine_week_sunday _ _ _ _ _ _ Hne H) as ((Hr & Hd & Hm) & _).
  rewrite dow_is_ordinal_mod_7 in Hd.
  unfold count_orders_by_day, add_days.
  assert (Hlast : ordinal last_sunday = 3652054%Z) by (vm_compute; reflexivity).
  unfold MAXORDINAL in *.
  destruct ((0 <? ordinal ws + 7) && (ordinal ws + 7 <=? 3652059))%Z eqn:E;
    cbn [mbind option_bind].
  - split; [discriminate|]. intros ->. rewrite Hlast in E.
    vm_compute in E. discriminate.
  - split; [intros _|reflexivity].
    assert (Ho : ordinal ws = 3652054%Z).
    { apply andb_false_iff in E as [E|E];
        [apply Z.ltb_ge in E|apply Z.leb_gt in E]; [lia|].
      pose proof (Z.div_mod (ordinal ws) 7 ltac:(lia)) as Hdm.
      rewrite Hd in Hdm. lia. }
    rewrite <- Hm. unfold at_midnight. rewrite Ho. reflexivity.
Qed.

Lemma last_week_overflows_witness :
  determine_week monday_23_feb_9am
    [mk_order (PyStr.lit "Azul") (DateTime.make 9999 12 31 9 0)
       (PyStr.lit "azul")]
  = Some (last_sunday, PyStr.lit "December", 9999%Z, 4%Z)
  ∧ count_orders_by_day
      [mk_order (PyStr.lit "Azul") (DateTime.make 9999 12 31 9 0)
         (PyStr.lit "azul")] ∅ last_sunday = None.
Proof.
  assert (H : determine_week monday_23_feb_9am
                [mk_order (PyStr.lit "Azul") (DateTime.make 9999 12 31 9 0)
                   (PyStr.lit "azul")]
              = Some (last_sunday, PyStr.lit "December", 9999%Z, 4%Z))
    by (vm_compute; reflexivity).
  split; [exact H|].
  apply (last_week_overflows monday_23_feb_9am
           [mk_order (PyStr.lit "Azul") (DateTime.make 9999 12 31 9 0)
              (PyStr.lit "azul")] ∅ last_sunday (PyStr.lit "December")
           9999 4); [discriminate|exact H|reflexivity].
Defined.
